(** * The proposal voting and resolution engine of the marketplace

    A shallow embedding of [VoteActionService] (vote ingestion, resolution
    policy, vote upsert, outbound vote composer, event listener) and of the
    look-ups and maintenance methods of [ListingItemService], followed by
    the properties proved about them.

    Conventions.
    - A JavaScript [number] is an IEEE-754 binary64 value: Rocq's primitive
      [float], whose operations are the same binary64 operations. Weights,
      voter counts, the quorum, the expiry of a proposal, the clock and the
      retention that [send] derives from them are numbers.
    - Database identifiers, option ids and the timestamps that are only
      stored are integers ([Z]).
    - An [async] method is a state-passing computation over the state [W]
      of the collaborators that either resolves or rejects. *)

From Stdlib Require Import Reals Lra.
From Stdlib Require Import ZArith QArith Qround List Ascii String Bool Lia.
From Stdlib Require Import Floats.
Import ListNotations.

Local Open Scope string_scope.
Local Open Scope Z_scope.

(** ** JavaScript numbers *)

Definition number : Set := float.
Bind Scope float_scope with number.

(** [a > b] and [a >= b] on numbers; both are false when an operand is NaN. *)
Definition gt (a b : number) : bool := PrimFloat.ltb b a.
Definition ge (a b : number) : bool := PrimFloat.leb b a.

(** [a === b] on numbers. *)
Definition strictEquals (a b : number) : bool := PrimFloat.eqb a b.

(** The binary64 value one half, as a specification-level float. *)
Definition SFhalf : spec_float := S754_finite false 4503599627370496 (-53).

(** [Math.ceil] on the specification level. NaN, the infinities, the zeros
    and the numbers at or above 2^52 in size are returned as they are; any
    other number gives the least whole number that is not below it, which
    is -0 for a number between -1 and 0. *)
Definition SFceil (x : spec_float) : spec_float :=
  match x with
  | S754_finite s m e =>
      if 0 <=? e then x
      else binary_normalize prec emax
             (- ((if s then Z.pos m else Z.neg m) / 2 ^ (- e))) 0 s
  | _ => x
  end.

Definition Math_ceil (x : number) : number := SF2Prim (SFceil (Prim2SF x)).

(** ** Enumerations and exceptions *)

Inductive SmsgMessageStatus : Set :=
| PROCESSED
| WAITING
| PARSING_FAILED.

Inductive ProposalType : Set :=
| ITEM_VOTE
| PUBLIC_VOTE.

Definition ProposalType_eqb (a b : ProposalType) : bool :=
  match a, b with
  | ITEM_VOTE, ITEM_VOTE => true
  | PUBLIC_VOTE, PUBLIC_VOTE => true
  | _, _ => false
  end.

Inductive VoteMessageType : Set :=
| MP_VOTE.

(** What a NotFoundException is constructed with: a numeric id or a text. *)
Inductive Identifier : Set :=
| Id (id : Z)
| Text (text : string).

Coercion Id : Z >-> Identifier.
Coercion Text : string >-> Identifier.

(** What a promise is rejected with. *)
Inductive Exception : Set :=
| MessageException (message : string)
| NotFoundException (id : Identifier)
| TypeError (message : string)
| ServiceFailure (message : string).

(** ** Messages and resources

    Each record keeps the fields the service reads, under the names they
    have in the source. *)

Module VoteMessage.
Record t : Set := mk {
  action : VoteMessageType;
  proposalHash : string;
  optionId : Z;
  voter : string
}.
End VoteMessage.

Module MarketplaceMessage.
Record t : Set := mk {
  version : option string;
  mpaction : option VoteMessage.t
}.
End MarketplaceMessage.

Module SmsgMessage.
Record t : Set := mk {
  msgid : string;
  from : string;
  daysretention : number;
  sent : Z
}.
End SmsgMessage.

Module MarketplaceEvent.
Record t : Set := mk {
  smsgMessage : SmsgMessage.t;
  marketplaceMessage : MarketplaceMessage.t
}.
End MarketplaceEvent.

Module ProposalOption.
Record t : Set := mk {
  optionId : Z;
  description : string
}.
End ProposalOption.

Module ProposalOptionResult.
Record t : Set := mk {
  ProposalOption : ProposalOption.t;
  voters : number;
  weight : number
}.
End ProposalOptionResult.

Module ProposalResult.
Record t : Set := mk {
  ProposalOptionResults : list ProposalOptionResult.t
}.
End ProposalResult.

Module FlaggedItem.
Record t : Set := mk {
  listingItemId : Z
}.
End FlaggedItem.

Module Proposal.
Record t : Set := mk {
  id : Z;
  hash : string;
  type : ProposalType;
  expiredAt : number;
  ProposalOptions : list ProposalOption.t;
  ProposalResults : list ProposalResult.t;
  FlaggedItem : option FlaggedItem.t
}.
End Proposal.

Module Profile.
Record t : Set := mk {
  id : Z;
  name : string;
  address : string
}.
End Profile.

Module Market.
Record t : Set := mk {
  name : string;
  address : string
}.
End Market.

Module CryptocurrencyAddress.
Record t : Set := mk {
  id : Z
}.
End CryptocurrencyAddress.

Module ItemPrice.
Record t : Set := mk {
  CryptocurrencyAddress : option CryptocurrencyAddress.t
}.
End ItemPrice.

Module PaymentInformation.
Record t : Set := mk {
  ItemPrice : option ItemPrice.t
}.
End PaymentInformation.

Module ListingItem.
Record t : Set := mk {
  id : Z;
  hash : string;
  PaymentInformation : option PaymentInformation.t
}.
End ListingItem.

(** Modelled from the spec: the Vote row of the Vote Ledger (the model file
    is not part of the sources). Its identity is the pair (proposal, voter);
    it carries the chosen option, the weight snapshot and the originating
    message. *)
Module Vote.
Record t : Set := mk {
  id : Z;
  proposalId : Z;
  voter : string;
  optionId : Z;
  weight : number;
  msgid : string;
  postedAt : Z
}.
End Vote.

(** Modelled from the spec: the body of a vote create or update request
    (VoteCreateRequest and VoteUpdateRequest are not part of the sources). *)
Module VoteRequest.
Record t : Set := mk {
  proposalId : Z;
  voter : string;
  optionId : Z;
  weight : number;
  msgid : string;
  postedAt : Z
}.
End VoteRequest.

Module SmsgSendResponse.
Record t : Set := mk {
  result : string;
  msgid : option string
}.
End SmsgSendResponse.

(** [process.env], as far as the service reads it. *)
Module ProcessEnv.
Record t : Set := mk {
  MINIMUM_REQUIRED_VOTES : option string;
  MARKETPLACE_VERSION : option string
}.
End ProcessEnv.

(** ** Promises

    A promise over the collaborators' state [W] settles to a value or to an
    exception, and leaves a state behind either way: nothing is rolled back
    when it rejects. *)

Inductive Outcome (A : Type) : Type :=
| Resolved (value : A)
| Rejected (reason : Exception).

Arguments Resolved {A} value.
Arguments Rejected {A} reason.

Definition Promise (W A : Type) : Type := W -> Outcome A * W.

(** A query reads the state and cannot change it. *)
Definition Query (W A : Type) : Type := W -> Outcome A.

Definition resolve {W A : Type} (a : A) : Promise W A :=
  fun w => (Resolved a, w).

Definition throw {W A : Type} (e : Exception) : Promise W A :=
  fun w => (Rejected e, w).

(** [await p] followed by the rest of the function, and [p.then(k)]. *)
Definition await {W A B : Type} (p : Promise W A) (k : A -> Promise W B) : Promise W B :=
  fun w =>
    match p w with
    | (Resolved a, w') => k a w'
    | (Rejected e, w') => (Rejected e, w')
    end.

(** [try { p } catch (ex) { h ex }] and [p.catch(h)]. *)
Definition catch {W A : Type} (p : Promise W A) (h : Exception -> Promise W A) : Promise W A :=
  fun w =>
    match p w with
    | (Resolved a, w') => (Resolved a, w')
    | (Rejected e, w') => h e w'
    end.

Definition ask {W A : Type} (q : Query W A) : Promise W A :=
  fun w => (q w, w).

Declare Scope promise_scope.
Delimit Scope promise_scope with promise.

Notation "x <- p ;; k" := (await p (fun x => k))
  (at level 61, p at next level, right associativity) : promise_scope.
Notation "p ;; k" := (await p (fun _ => k))
  (at level 61, right associativity) : promise_scope.

Local Open Scope promise_scope.

(** [_.isEmpty] on an array. *)
Definition isEmpty {A : Type} (xs : list A) : bool :=
  match xs with
  | [] => true
  | _ :: _ => false
  end.

(** Truthiness of a numeric identifier: [0] is falsy. *)
Definition truthy (n : Z) : bool := negb (n =? 0).

(** ** Collaborators

    Modelled from the spec: the services, factories and repositories that
    are injected into the two services and whose code is not part of the
    sources. Section 6 of the spec gives their interface; the look-ups are
    queries and cannot change the state, the others may. Each call may
    reject. [Date_getTime] is [new Date().getTime()]. *)

Record Collaborators (W : Type) : Type := {
  proposalService_findOneByHash : string -> Query W Proposal.t;
  proposalService_recalculateProposalResult : Proposal.t -> Promise W ProposalResult.t;
  profileService_findAll : Query W (list Profile.t);
  voteService_getVoteWeight : string -> Query W number;
  voteService_findOneByVoterAndProposalId : string -> Z -> Query W Vote.t;
  voteService_create : VoteRequest.t -> Promise W (option Vote.t);
  voteService_update : Z -> VoteRequest.t -> Promise W (option Vote.t);
  voteFactory_getModel :
    VoteMessage.t -> Proposal.t -> number -> bool -> SmsgMessage.t -> Query W VoteRequest.t;
  voteFactory_getMessage :
    VoteMessageType -> Proposal.t -> ProposalOption.t -> string -> Query W VoteMessage.t;
  listingItemRepo_findOne : Z -> bool -> Query W (option ListingItem.t);
  listingItemRepo_destroy : Z -> Promise W unit;
  cryptocurrencyAddressService_destroy : Z -> Promise W unit;
  smsgService_smsgSend :
    string -> string -> MarketplaceMessage.t -> bool -> number -> Promise W SmsgSendResponse.t;
  smsgMessageService_updateSmsgMessageStatus :
    SmsgMessage.t -> SmsgMessageStatus -> Promise W unit;
  Date_getTime : W -> number
}.

Arguments proposalService_findOneByHash {W}.
Arguments proposalService_recalculateProposalResult {W}.
Arguments profileService_findAll {W}.
Arguments voteService_getVoteWeight {W}.
Arguments voteService_findOneByVoterAndProposalId {W}.
Arguments voteService_create {W}.
Arguments voteService_update {W}.
Arguments voteFactory_getModel {W}.
Arguments voteFactory_getMessage {W}.
Arguments listingItemRepo_findOne {W}.
Arguments listingItemRepo_destroy {W}.
Arguments cryptocurrencyAddressService_destroy {W}.
Arguments smsgService_smsgSend {W}.
Arguments smsgMessageService_updateSmsgMessageStatus {W}.
Arguments Date_getTime {W}.

(** ** ListingItemService *)

Section ListingItemService.
Context {W : Type}.
Variable svc : Collaborators W.

(** [findOne(id, withRelated)]: the repository's row, or
    [NotFoundException(id)] when the repository answers [null]. *)
Definition ListingItemService_findOne (id : Z) (withRelated : bool) : Promise W ListingItem.t :=
  listingItem <- ask (listingItemRepo_findOne svc id withRelated) ;;
  match listingItem with
  | None => throw (NotFoundException id)
  | Some item => resolve item
  end.

(** [destroy(id)]: removes the listing, then its cryptocurrency address
    when the listing has one. What [findOne] resolves to is a model object,
    which is truthy, so the branch of [if (!listingItemModel)] is left
    out. *)
Definition ListingItemService_destroy (id : Z) : Promise W unit :=
  listingItem <- ListingItemService_findOne id true ;;
  listingItemRepo_destroy svc id ;;
  match ListingItem.PaymentInformation listingItem with
  | Some paymentInformation =>
      match PaymentInformation.ItemPrice paymentInformation with
      | Some itemPrice =>
          match ItemPrice.CryptocurrencyAddress itemPrice with
          | Some cryptocurrencyAddress =>
              cryptocurrencyAddressService_destroy svc
                (CryptocurrencyAddress.id cryptocurrencyAddress)
          | None => resolve tt
          end
      | None => resolve tt
      end
  | None => resolve tt
  end.
End ListingItemService.

(** ** VoteActionService *)

Section VoteActionService.
Context {W : Type}.

(** The language's conversion of a string to a number, applied when a
    number is compared with a string. *)
Variable ToNumber : string -> number.
Variable process_env : ProcessEnv.t.
Variable svc : Collaborators W.

(** [process.env.MINIMUM_REQUIRED_VOTES || 1000]: an unset or empty
    variable is falsy and gives the default; any other string is compared
    as the number it converts to. *)
Definition minimumRequiredVotes : number :=
  match ProcessEnv.MINIMUM_REQUIRED_VOTES process_env with
  | None => 1000%float
  | Some EmptyString => 1000%float
  | Some s => ToNumber s
  end.

(** The retention that [send] computes for the outbound message:
    [Math.ceil((expiredAt - now) / 1000 / 60 / 60 / 24)], where the
    difference and each of the four quotients is rounded to binary64. *)
Definition daysRetention (expiredAt now : number) : number :=
  Math_ceil ((expiredAt - now) / 1000 / 60 / 60 / 24)%float.

Definition send (proposal : Proposal.t) (proposalOption : ProposalOption.t)
    (senderProfile : Profile.t) (marketplace : Market.t) : Promise W SmsgSendResponse.t :=
  voteMessage <- ask (voteFactory_getMessage svc MP_VOTE proposal proposalOption
                        (Profile.address senderProfile)) ;;
  let msg := MarketplaceMessage.mk
               (ProcessEnv.MARKETPLACE_VERSION process_env) (Some voteMessage) in
  fun w =>
    smsgService_smsgSend svc (Profile.address senderProfile) (Market.address marketplace)
      msg false (daysRetention (Proposal.expiredAt proposal) (Date_getTime svc w)) w.

(** The resolution policy. The two [_.find] calls take the first option
    result with option id 0 and the first with option id 1. *)
Definition shouldRemoveListingItem (proposalResult : ProposalResult.t) : bool :=
  let okOptionResult :=
    find (fun proposalOptionResult =>
            ProposalOption.optionId (ProposalOptionResult.ProposalOption proposalOptionResult) =? 0)
         (ProposalResult.ProposalOptionResults proposalResult) in
  let removeOptionResult :=
    find (fun proposalOptionResult =>
            ProposalOption.optionId (ProposalOptionResult.ProposalOption proposalOptionResult) =? 1)
         (ProposalResult.ProposalOptionResults proposalResult) in
  match removeOptionResult, okOptionResult with
  | Some removeOptionResult, Some okOptionResult =>
      let totalNumVoters :=
        (ProposalOptionResult.voters okOptionResult
         + ProposalOptionResult.voters removeOptionResult)%float in
      if gt totalNumVoters minimumRequiredVotes
         && gt (ProposalOptionResult.weight removeOptionResult
                / (ProposalOptionResult.weight removeOptionResult
                   + ProposalOptionResult.weight okOptionResult))%float 0.5%float
      then true
      else false
  | _, _ => false
  end.

Definition createOrUpdateVote (voteMessage : VoteMessage.t) (proposal : Proposal.t)
    (weight : number) (voteSmsg : SmsgMessage.t) : Promise W Vote.t :=
  lastVote <- catch
                (lastVoteModel <- ask (voteService_findOneByVoterAndProposalId svc
                                         (VoteMessage.voter voteMessage) (Proposal.id proposal)) ;;
                 resolve (Some lastVoteModel))
                (fun ex => resolve None) ;;
  let create := match lastVote with None => true | Some _ => false end in
  voteRequest <- ask (voteFactory_getModel svc voteMessage proposal weight create voteSmsg) ;;
  voteModel <- match lastVote with
               | None => voteService_create svc voteRequest
               | Some lastVote => voteService_update svc (Vote.id lastVote) voteRequest
               end ;;
  match voteModel with
  | None => throw (MessageException "Vote wasn't saved or updated properly. Return val is empty.")
  | Some vote => resolve vote
  end.

Definition processVoteReceivedEvent (event : MarketplaceEvent.t) : Promise W SmsgMessageStatus :=
  let message := MarketplaceEvent.marketplaceMessage event in
  match MarketplaceMessage.mpaction message with
  | None => throw (MessageException "Missing mpaction.")
  | Some voteMessage =>
      if negb (String.eqb (VoteMessage.voter voteMessage)
                          (SmsgMessage.from (MarketplaceEvent.smsgMessage event)))
      then throw (MessageException "Voter does not match with sender.")
      else
        catch
          (proposal <- ask (proposalService_findOneByHash svc
                              (VoteMessage.proposalHash voteMessage)) ;;
           profiles <- ask (profileService_findAll svc) ;;
           let weAreTheVoter :=
             existsb (fun profile =>
                        String.eqb (Profile.address profile) (VoteMessage.voter voteMessage))
                     profiles in
           if weAreTheVoter then resolve PROCESSED
           else
             if isEmpty (Proposal.ProposalResults proposal)
             then throw (MessageException "ProposalResult should not be empty!")
             else
               if ge (SmsgMessage.daysretention (MarketplaceEvent.smsgMessage event)) 1%float
               then
                 weight <- ask (voteService_getVoteWeight svc (VoteMessage.voter voteMessage)) ;;
                 (if gt weight 0%float
                  then
                    createdVote <- createOrUpdateVote voteMessage proposal weight
                                     (MarketplaceEvent.smsgMessage event) ;;
                    proposalResult <- proposalService_recalculateProposalResult svc proposal ;;
                    if ProposalType_eqb (Proposal.type proposal) ITEM_VOTE
                       && shouldRemoveListingItem proposalResult
                    then
                      match Proposal.FlaggedItem proposal with
                      | None =>
                          throw (TypeError "Cannot read property 'listingItemId' of undefined")
                      | Some flaggedItem =>
                          listingItemId <-
                            catch
                              (value <- ListingItemService_findOne svc
                                          (FlaggedItem.listingItemId flaggedItem) false ;;
                               resolve (Some (ListingItem.id value)))
                              (fun reason => resolve None) ;;
                          match listingItemId with
                          | Some id =>
                              if truthy id
                              then ListingItemService_destroy svc id
                              else resolve tt
                          | None => resolve tt
                          end
                      end
                    else resolve tt
                  else resolve tt) ;;
                 resolve PROCESSED
               else throw (MessageException "Missing VoteMessage"))
          (fun reason => resolve WAITING)
  end.

(** The listener that [configureEventListeners] registers for
    [Events.VoteReceivedEvent]. *)
Definition configureEventListeners (event : MarketplaceEvent.t) : Promise W unit :=
  catch
    (status <- processVoteReceivedEvent event ;;
     smsgMessageService_updateSmsgMessageStatus svc (MarketplaceEvent.smsgMessage event) status)
    (fun reason =>
       smsgMessageService_updateSmsgMessageStatus svc
         (MarketplaceEvent.smsgMessage event) PARSING_FAILED).
End VoteActionService.

(** ** The collaborators in memory

    Modelled from the spec: the Proposal Store, the local profiles, the
    Weight Oracle, the Vote Ledger, the Vote Tally Engine, the listing
    store, the transport and the message-status store, as sections 2, 3, 4.2
    and 6 of the spec describe them. None of their code is part of the
    sources. *)

Module InMemory.

Module Sent.
Record t : Set := mk {
  from : string;
  to : string;
  message : MarketplaceMessage.t;
  paid : bool;
  daysRetention : number
}.
End Sent.

Record World : Type := mkWorld {
  proposals : list Proposal.t;
  profiles : list Profile.t;
  balances : list (string * number);
  votes : list Vote.t;
  nextVoteId : Z;
  listingItems : list ListingItem.t;
  cryptocurrencyAddresses : list Z;
  outbox : list Sent.t;
  messageStatuses : list (string * SmsgMessageStatus);
  clock : number
}.

Definition setVotes (w : World) (vs : list Vote.t) (next : Z) : World :=
  mkWorld (proposals w) (profiles w) (balances w) vs next (listingItems w)
          (cryptocurrencyAddresses w) (outbox w) (messageStatuses w) (clock w).

Definition setProposals (w : World) (ps : list Proposal.t) : World :=
  mkWorld ps (profiles w) (balances w) (votes w) (nextVoteId w) (listingItems w)
          (cryptocurrencyAddresses w) (outbox w) (messageStatuses w) (clock w).

Definition setListingItems (w : World) (items : list ListingItem.t) : World :=
  mkWorld (proposals w) (profiles w) (balances w) (votes w) (nextVoteId w) items
          (cryptocurrencyAddresses w) (outbox w) (messageStatuses w) (clock w).

Definition setCryptocurrencyAddresses (w : World) (ids : list Z) : World :=
  mkWorld (proposals w) (profiles w) (balances w) (votes w) (nextVoteId w) (listingItems w)
          ids (outbox w) (messageStatuses w) (clock w).

Definition setOutbox (w : World) (sent : list Sent.t) : World :=
  mkWorld (proposals w) (profiles w) (balances w) (votes w) (nextVoteId w) (listingItems w)
          (cryptocurrencyAddresses w) sent (messageStatuses w) (clock w).

Definition setMessageStatuses (w : World) (st : list (string * SmsgMessageStatus)) : World :=
  mkWorld (proposals w) (profiles w) (balances w) (votes w) (nextVoteId w) (listingItems w)
          (cryptocurrencyAddresses w) (outbox w) st (clock w).

(** *** Proposal Store *)

Definition findOneByHash (hash : string) : Query World Proposal.t :=
  fun w =>
    match find (fun p => String.eqb (Proposal.hash p) hash) (proposals w) with
    | Some p => Resolved p
    | None => Rejected (NotFoundException hash)
    end.

(** *** Local profiles and Weight Oracle *)

Definition findAll : Query World (list Profile.t) :=
  fun w => Resolved (profiles w).

Definition getVoteWeight (voter : string) : Query World number :=
  fun w =>
    match find (fun entry => String.eqb (fst entry) voter) (balances w) with
    | Some entry => Resolved (snd entry)
    | None => Resolved 0%float
    end.

(** *** Vote Ledger *)

Definition sameVoterAndProposal (voter : string) (proposalId : Z) (row : Vote.t) : bool :=
  String.eqb (Vote.voter row) voter && (Vote.proposalId row =? proposalId).

Definition findOneByVoterAndProposalId (voter : string) (proposalId : Z) : Query World Vote.t :=
  fun w =>
    match find (sameVoterAndProposal voter proposalId) (votes w) with
    | Some row => Resolved row
    | None => Rejected (NotFoundException voter)
    end.

(** The row that holds the vote of the message's voter for the proposal. *)
Definition lastVoteOf (voteMessage : VoteMessage.t) (proposal : Proposal.t) (w : World)
  : option Vote.t :=
  find (sameVoterAndProposal (VoteMessage.voter voteMessage) (Proposal.id proposal)) (votes w).

Definition rowOf (id : Z) (body : VoteRequest.t) : Vote.t :=
  Vote.mk id (VoteRequest.proposalId body) (VoteRequest.voter body)
          (VoteRequest.optionId body) (VoteRequest.weight body)
          (VoteRequest.msgid body) (VoteRequest.postedAt body).

(** A new row takes the next free identifier and goes at the end. *)
Definition create (body : VoteRequest.t) : Promise World (option Vote.t) :=
  fun w =>
    let row := rowOf (nextVoteId w) body in
    (Resolved (Some row), setVotes w (votes w ++ [row]) (nextVoteId w + 1)).

(** The row with the given identifier is overwritten where it stands. *)
Definition overwrite (id : Z) (body : VoteRequest.t) (row : Vote.t) : Vote.t :=
  if Vote.id row =? id then rowOf id body else row.

Definition update (id : Z) (body : VoteRequest.t) : Promise World (option Vote.t) :=
  fun w =>
    match find (fun row => Vote.id row =? id) (votes w) with
    | Some _ =>
        (Resolved (Some (rowOf id body)),
         setVotes w (map (overwrite id body) (votes w)) (nextVoteId w))
    | None => (Rejected (NotFoundException "Vote"), w)
    end.

(** The request that the factory builds from a vote message: the voter and
    the option of the message, the proposal, the resolved weight and the
    message the vote came in. *)
Definition requestOf (voteMessage : VoteMessage.t) (proposal : Proposal.t) (weight : number)
    (smsgMessage : SmsgMessage.t) : VoteRequest.t :=
  VoteRequest.mk (Proposal.id proposal) (VoteMessage.voter voteMessage)
    (VoteMessage.optionId voteMessage) weight
    (SmsgMessage.msgid smsgMessage) (SmsgMessage.sent smsgMessage).

Definition getModel (voteMessage : VoteMessage.t) (proposal : Proposal.t) (weight : number)
    (create : bool) (smsgMessage : SmsgMessage.t) : Query World VoteRequest.t :=
  fun _ => Resolved (requestOf voteMessage proposal weight smsgMessage).

Definition getMessage (action : VoteMessageType) (proposal : Proposal.t)
    (proposalOption : ProposalOption.t) (voter : string) : Query World VoteMessage.t :=
  fun _ =>
    Resolved (VoteMessage.mk action (Proposal.hash proposal)
                (ProposalOption.optionId proposalOption) voter).

(** *** Vote Tally Engine (spec 4.2): one option result per option of the
    proposal, from a full pass over the proposal's rows. *)

Definition selects (proposal : Proposal.t) (option : ProposalOption.t) (row : Vote.t) : bool :=
  (Vote.proposalId row =? Proposal.id proposal)
  && (Vote.optionId row =? ProposalOption.optionId option).

Definition tally (proposal : Proposal.t) (rows : list Vote.t) : ProposalResult.t :=
  ProposalResult.mk
    (map (fun option =>
            let chosen := filter (selects proposal option) rows in
            ProposalOptionResult.mk option
              (fold_left (fun n _ => (n + 1)%float) chosen 0%float)
              (fold_left (fun sum row => (sum + Vote.weight row)%float) chosen 0%float))
         (Proposal.ProposalOptions proposal)).

Definition withResult (result : ProposalResult.t) (p : Proposal.t) : Proposal.t :=
  Proposal.mk (Proposal.id p) (Proposal.hash p) (Proposal.type p) (Proposal.expiredAt p)
              (Proposal.ProposalOptions p) [result] (Proposal.FlaggedItem p).

Definition recalculateProposalResult (proposal : Proposal.t) : Promise World ProposalResult.t :=
  fun w =>
    let result := tally proposal (votes w) in
    (Resolved result,
     setProposals w
       (map (fun p => if Proposal.id p =? Proposal.id proposal then withResult result p else p)
            (proposals w))).

(** *** Listings *)

Definition repoFindOne (id : Z) (withRelated : bool) : Query World (option ListingItem.t) :=
  fun w => Resolved (find (fun item => ListingItem.id item =? id) (listingItems w)).

Definition repoDestroy (id : Z) : Promise World unit :=
  fun w =>
    (Resolved tt,
     setListingItems w (filter (fun item => negb (ListingItem.id item =? id)) (listingItems w))).

Definition addressDestroy (id : Z) : Promise World unit :=
  fun w =>
    (Resolved tt,
     setCryptocurrencyAddresses w
       (filter (fun a => negb (a =? id)) (cryptocurrencyAddresses w))).

(** *** Transport and message statuses *)

Definition smsgSend (from to : string) (message : MarketplaceMessage.t) (paid : bool)
    (daysRetention : number) : Promise World SmsgSendResponse.t :=
  fun w =>
    (Resolved (SmsgSendResponse.mk "Sent." None),
     setOutbox w (outbox w ++ [Sent.mk from to message paid daysRetention])).

Definition updateSmsgMessageStatus (message : SmsgMessage.t) (status : SmsgMessageStatus)
  : Promise World unit :=
  fun w =>
    (Resolved tt,
     setMessageStatuses w ((SmsgMessage.msgid message, status) :: messageStatuses w)).

Definition collaborators : Collaborators World :=
  {| proposalService_findOneByHash := findOneByHash;
     proposalService_recalculateProposalResult := recalculateProposalResult;
     profileService_findAll := findAll;
     voteService_getVoteWeight := getVoteWeight;
     voteService_findOneByVoterAndProposalId := findOneByVoterAndProposalId;
     voteService_create := create;
     voteService_update := update;
     voteFactory_getModel := getModel;
     voteFactory_getMessage := getMessage;
     listingItemRepo_findOne := repoFindOne;
     listingItemRepo_destroy := repoDestroy;
     cryptocurrencyAddressService_destroy := addressDestroy;
     smsgService_smsgSend := smsgSend;
     smsgMessageService_updateSmsgMessageStatus := updateSmsgMessageStatus;
     Date_getTime := clock |}.

(** The same collaborators with a Vote Ledger that refuses to write. *)
Definition ledgerDown : Collaborators World :=
  {| proposalService_findOneByHash := findOneByHash;
     proposalService_recalculateProposalResult := recalculateProposalResult;
     profileService_findAll := findAll;
     voteService_getVoteWeight := getVoteWeight;
     voteService_findOneByVoterAndProposalId := findOneByVoterAndProposalId;
     voteService_create := fun _ => throw (ServiceFailure "the vote could not be written");
     voteService_update := fun _ _ => throw (ServiceFailure "the vote could not be written");
     voteFactory_getModel := getModel;
     voteFactory_getMessage := getMessage;
     listingItemRepo_findOne := repoFindOne;
     listingItemRepo_destroy := repoDestroy;
     cryptocurrencyAddressService_destroy := addressDestroy;
     smsgService_smsgSend := smsgSend;
     smsgMessageService_updateSmsgMessageStatus := updateSmsgMessageStatus;
     Date_getTime := clock |}.

(** The same collaborators with a Vote Tally Engine that fails. *)
Definition tallyDown : Collaborators World :=
  {| proposalService_findOneByHash := findOneByHash;
     proposalService_recalculateProposalResult :=
       fun _ => throw (ServiceFailure "the result could not be recalculated");
     profileService_findAll := findAll;
     voteService_getVoteWeight := getVoteWeight;
     voteService_findOneByVoterAndProposalId := findOneByVoterAndProposalId;
     voteService_create := create;
     voteService_update := update;
     voteFactory_getModel := getModel;
     voteFactory_getMessage := getMessage;
     listingItemRepo_findOne := repoFindOne;
     listingItemRepo_destroy := repoDestroy;
     cryptocurrencyAddressService_destroy := addressDestroy;
     smsgService_smsgSend := smsgSend;
     smsgMessageService_updateSmsgMessageStatus := updateSmsgMessageStatus;
     Date_getTime := clock |}.

(** The key of a row, and the ledger's invariant: at most one row per
    (voter, proposal) pair, over rows whose identifiers are distinct and
    already handed out. *)
Definition voterAndProposal (row : Vote.t) : string * Z :=
  (Vote.voter row, Vote.proposalId row).

Definition OneVotePerVoterAndProposal (rows : list Vote.t) : Prop :=
  NoDup (map voterAndProposal rows).

Record LedgerInvariant (w : World) : Prop := {
  oneVotePerPair : OneVotePerVoterAndProposal (votes w);
  distinctIds : NoDup (map Vote.id (votes w));
  idsHandedOut : Forall (fun row => Vote.id row < nextVoteId w) (votes w)
}.

End InMemory.

(** ** Whole numbers in binary64 *)

(** The whole number that a number holds, when it holds one. *)
Definition asWhole (x : number) : option Z :=
  match Prim2SF x with
  | S754_zero _ => Some 0
  | S754_finite s m e =>
      let n := if s then Z.neg m else Z.pos m in
      if 0 <=? e then Some (n * 2 ^ e)
      else if Z.pos m mod 2 ^ (- e) =? 0 then Some (n / 2 ^ (- e)) else None
  | _ => None
  end.

(** *** Mantissas, exponents and rounding

    The vocabulary of the proofs about [daysRetention]. *)

(** Powers of two as reals, and the real that a mantissa and an exponent
    stand for. *)
Definition bpow (e : Z) : R := powerRZ 2 e.

Definition F2R (m e : Z) : R := (IZR m * bpow e)%R.

(** Where a real lies between the integer [m] and its successor, as the
    rounding of [SpecFloat] records it. *)
Definition inbetween (m : Z) (x : R) (l : location) : Prop :=
  match l with
  | loc_Exact => x = IZR m
  | loc_Inexact Lt => (IZR m < x < IZR m + / 2)%R
  | loc_Inexact Eq => x = (IZR m + / 2)%R
  | loc_Inexact Gt => (IZR m + / 2 < x < IZR m + 1)%R
  end.

(** The second half of [binary_round_aux]: what becomes of a mantissa
    after it was rounded. *)
Definition renormalise (s : bool) (rounded : Z) (e : Z) : spec_float :=
  let '(mrs, e') := shr_fexp prec emax rounded e loc_Exact in
  match shr_m mrs with
  | Z0 => S754_zero s
  | Z.pos m => if e' <=? emax - prec then S754_finite s m e' else S754_infinity s
  | Z.neg _ => S754_nan
  end.

(** The mantissa and the exponent of a whole number between 1 and
    2^53 - 1, and the binary64 value of a whole number between -2^53 and
    2^53. *)
Definition wholeMantissa (X : Z) : positive := Z.to_pos (X * 2 ^ (52 - Z.log2 X)).
Definition wholeExponent (X : Z) : Z := Z.log2 X - 52.

Definition SFwhole (z : Z) : spec_float :=
  match z with
  | 0 => S754_zero false
  | Z.pos _ => S754_finite false (wholeMantissa z) (wholeExponent z)
  | Z.neg p => S754_finite true (wholeMantissa (Z.pos p)) (wholeExponent (Z.pos p))
  end.

(** [remaining / 1000 / 60 / 60 / 24] on the specification level. *)
Definition SFdays (remaining : spec_float) : spec_float :=
  SFdiv prec emax
    (SFdiv prec emax
       (SFdiv prec emax
          (SFdiv prec emax remaining (Prim2SF 1000)) (Prim2SF 60)) (Prim2SF 60))
    (Prim2SF 24).

(** ** The vocabulary of the statements about ingestion *)

Section IngestionVocabulary.
Context {W : Type}.
Variable svc : Collaborators W.

(** An inbound vote event as section 6 of the spec defines it: it carries
    a vote whose claimed voter is the sender of the message. *)
Definition carriesVote (event : MarketplaceEvent.t) (voteMessage : VoteMessage.t) : Prop :=
  MarketplaceMessage.mpaction (MarketplaceEvent.marketplaceMessage event) = Some voteMessage
  /\ VoteMessage.voter voteMessage = SmsgMessage.from (MarketplaceEvent.smsgMessage event).

Definition isLocal (profiles : list Profile.t) (voter : string) : bool :=
  existsb (fun profile => String.eqb (Profile.address profile) voter) profiles.

(** The pipeline has reached the upsert: the event carries a vote for a
    known proposal with a ProposalResult, from a voter that is not a local
    profile, with enough retention and a positive weight. *)
Record ReachesUpsert (event : MarketplaceEvent.t) (voteMessage : VoteMessage.t)
    (proposal : Proposal.t) (weight : number) (w : W) : Prop := {
  reaches_valid : carriesVote event voteMessage;
  reaches_proposal :
    proposalService_findOneByHash svc (VoteMessage.proposalHash voteMessage) w
    = Resolved proposal;
  reaches_not_local :
    exists profiles,
      profileService_findAll svc w = Resolved profiles
      /\ isLocal profiles (VoteMessage.voter voteMessage) = false;
  reaches_results : Proposal.ProposalResults proposal <> [];
  reaches_retention :
    ge (SmsgMessage.daysretention (MarketplaceEvent.smsgMessage event)) 1%float = true;
  reaches_weight :
    voteService_getVoteWeight svc (VoteMessage.voter voteMessage) w = Resolved weight;
  reaches_positive : gt weight 0%float = true
}.

(** The upsert rejects, or it resolves and the recalculation rejects;
    [w'] is the state that the failure leaves behind. *)
Definition UpsertOrRecomputeFails (event : MarketplaceEvent.t) (voteMessage : VoteMessage.t)
    (proposal : Proposal.t) (weight : number) (w w' : W) : Prop :=
  (exists reason,
      createOrUpdateVote svc voteMessage proposal weight (MarketplaceEvent.smsgMessage event) w
      = (Rejected reason, w'))
  \/ (exists vote w1 reason,
         createOrUpdateVote svc voteMessage proposal weight (MarketplaceEvent.smsgMessage event) w
         = (Resolved vote, w1)
         /\ proposalService_recalculateProposalResult svc proposal w1 = (Rejected reason, w')).

End IngestionVocabulary.

(** The test the resolution policy hands to [_.find]: the option result of
    the option with the given id. *)
Definition hasOptionId (optionId : Z) (proposalOptionResult : ProposalOptionResult.t) : bool :=
  ProposalOption.optionId (ProposalOptionResult.ProposalOption proposalOptionResult) =? optionId.

(** ** Sample data *)

Module Sample.

Definition digitValue (c : Ascii.ascii) : option number :=
  match c with
  | "0"%char => Some 0%float
  | "1"%char => Some 1%float
  | "2"%char => Some 2%float
  | "3"%char => Some 3%float
  | "4"%char => Some 4%float
  | "5"%char => Some 5%float
  | "6"%char => Some 6%float
  | "7"%char => Some 7%float
  | "8"%char => Some 8%float
  | "9"%char => Some 9%float
  | _ => None
  end.

Fixpoint digitsToNumber (acc : number) (s : string) : number :=
  match s with
  | EmptyString => acc
  | String c rest =>
      match digitValue c with
      | Some d => digitsToNumber (acc * 10 + d)%float rest
      | None => nan
      end
  end.

(** The conversion of a string of decimal digits; any other string is
    given NaN here. *)
Definition ToNumber (s : string) : number := digitsToNumber 0%float s.

Definition env : ProcessEnv.t := ProcessEnv.mk None (Some "0.1.0.0").
Definition envQuorum3 : ProcessEnv.t := ProcessEnv.mk (Some "3") (Some "0.1.0.0").

Definition keep : ProposalOption.t := ProposalOption.mk 0 "KEEP".
Definition remove : ProposalOption.t := ProposalOption.mk 1 "REMOVE".

Definition snapshot (keepVoters keepWeight removeVoters removeWeight : number)
  : ProposalResult.t :=
  ProposalResult.mk
    [ ProposalOptionResult.mk keep keepVoters keepWeight;
      ProposalOptionResult.mk remove removeVoters removeWeight ].

Definition itemVote : Proposal.t :=
  Proposal.mk 1 "proposal-1" ITEM_VOTE 1700000600000 [keep; remove]
              [snapshot 0%float 0%float 0%float 0%float] (Some (FlaggedItem.mk 7)).

Definition withoutResults : Proposal.t :=
  Proposal.mk 2 "proposal-2" ITEM_VOTE 1700000600000 [keep; remove]
              [] (Some (FlaggedItem.mk 7)).

Definition localProfile : Profile.t := Profile.mk 1 "DEFAULT" "pLocal".
Definition market : Market.t := Market.mk "DEFAULT" "pMarket".

Definition listing : ListingItem.t :=
  ListingItem.mk 7 "listing-7"
    (Some (PaymentInformation.mk (Some (ItemPrice.mk (Some (CryptocurrencyAddress.mk 3)))))).

Definition world : InMemory.World :=
  InMemory.mkWorld [itemVote; withoutResults] [localProfile]
    [("pAlice", 25.5%float); ("pBob", 0%float)]
    [] 1 [listing] [3] [] [] 1700000000000.

(** The same world after pAlice voted to keep the listing. *)
Definition worldWithVote : InMemory.World :=
  InMemory.setVotes world [Vote.mk 1 1 "pAlice" 0 25.5%float "msg-0" 1699999000000] 2.



Definition voteEvent (sender voter proposalHash : string) (optionId : Z)
    (daysretention : number) : MarketplaceEvent.t :=
  MarketplaceEvent.mk
    (SmsgMessage.mk "msg-1" sender daysretention 1700000000000)
    (MarketplaceMessage.mk (Some "0.1.0.0")
       (Some (VoteMessage.mk MP_VOTE proposalHash optionId voter))).

End Sample.

(** ** The vocabulary of the statements about tally and resolution *)

Section ResolutionVocabulary.
Context {W : Type}.
Variable svc : Collaborators W.

(** The pipeline has written the vote and recalculated the result: the
    upsert took the state from [w] to [w1] and the recalculation from [w1]
    to [w2]. *)
Record Tallied (event : MarketplaceEvent.t) (voteMessage : VoteMessage.t)
    (proposal : Proposal.t) (weight : number) (w : W)
    (proposalResult : ProposalResult.t) (w2 : W) : Prop := {
  tallied_reaches : ReachesUpsert svc event voteMessage proposal weight w;
  tallied_upsert_and_recalculation :
    exists (vote : Vote.t) (w1 : W),
      createOrUpdateVote svc voteMessage proposal weight (MarketplaceEvent.smsgMessage event) w
      = (Resolved vote, w1)
      /\ proposalService_recalculateProposalResult svc proposal w1
         = (Resolved proposalResult, w2)
}.

(** The [create] flag that the upsert hands to the factory: true when the
    look-up of the last vote is rejected. *)
Definition createFlag (voteMessage : VoteMessage.t) (proposal : Proposal.t) (w : W) : bool :=
  match voteService_findOneByVoterAndProposalId svc
          (VoteMessage.voter voteMessage) (Proposal.id proposal) w with
  | Resolved _ => false
  | Rejected _ => true
  end.

(** The look-up of the flagged listing gives nothing to destroy: it is
    rejected, or the repository has no row, or the row's id is falsy. *)
Definition nothingToDestroy (listingItemId : Z) (w : W) : Prop :=
  match listingItemRepo_findOne svc listingItemId false w with
  | Rejected _ => True
  | Resolved None => True
  | Resolved (Some listingItem) => ListingItem.id listingItem = 0
  end.

End ResolutionVocabulary.

(** ** ListingItemService: the look-up by hash and the maintenance methods *)

Module ListingItemTemplate.
Record t : Set := mk {
  id : Z
}.
End ListingItemTemplate.

(** A listing as [findExpired] returns it, as far as
    [deleteExpiredListingItems] reads it. *)
Module ExpiredListingItem.
Record t : Set := mk {
  id : Z;
  expiredAt : number
}.
End ExpiredListingItem.

(** A listing item object of an update request, as far as
    [findHighestOrderNumber] reads it. Order numbers are whole. *)
Module ListingItemObject.
Record t : Set := mk {
  type : string;
  order : Z
}.
End ListingItemObject.

(** The body that [listingItemRepo.update] receives: the listing's own
    fields with [listingItemTemplateId] set, or [{removed: flag}]. *)
Inductive ListingItemUpdateBody : Set :=
| ListingItemJSON (listingItem : ListingItem.t) (listingItemTemplateId : Z)
| RemovedFlag (removed : bool).

(** The repository methods and the template service that these methods
    call; they are injected, and their code is not part of the sources.
    [Date] is [Date()] called as a function: the current date and time as
    text. *)
Record Maintenance (W : Type) : Type := {
  listingItemRepo_findOneByHash : string -> bool -> Query W (option ListingItem.t);
  listingItemRepo_findExpired : Query W (list ExpiredListingItem.t);
  listingItemRepo_update : Z -> ListingItemUpdateBody -> Promise W ListingItem.t;
  listingItemTemplateService_findOneByHash : string -> Query W ListingItemTemplate.t;
  Date : W -> string
}.

Arguments listingItemRepo_findOneByHash {W}.
Arguments listingItemRepo_findExpired {W}.
Arguments listingItemRepo_update {W}.
Arguments listingItemTemplateService_findOneByHash {W}.
Arguments Date {W}.

(** [_.maxBy] on an array with whole keys: the first element whose key is
    the greatest, nothing for an empty array. *)
Definition maxBy {A : Type} (iteratee : A -> Z) (array : list A) : option A :=
  fold_left
    (fun result value =>
       match result with
       | None => Some value
       | Some computed =>
           if iteratee value >? iteratee computed then Some value else result
       end)
    array None.

Section ListingItemMaintenance.
Context {W : Type}.
Variable ToNumber : string -> number.
Variable svc : Collaborators W.
Variable repo : Maintenance W.

Definition ListingItemService_findExpired : Promise W (list ExpiredListingItem.t) :=
  ask (listingItemRepo_findExpired repo).

Definition ListingItemService_findOneByHash (hash : string) (withRelated : bool)
  : Promise W ListingItem.t :=
  listingItem <- ask (listingItemRepo_findOneByHash repo hash withRelated) ;;
  match listingItem with
  | None => throw (NotFoundException hash)
  | Some item => resolve item
  end.

(** [updateListingItemTemplateRelation(id)]: a rejected template look-up
    leaves [templateId] undefined, and an undefined or zero [templateId] is
    falsy. *)
Definition updateListingItemTemplateRelation (id : Z) : Promise W ListingItem.t :=
  listingItem <- ListingItemService_findOne svc id false ;;
  templateId <- catch
                  (value <- ask (listingItemTemplateService_findOneByHash repo
                                   (ListingItem.hash listingItem)) ;;
                   resolve (Some (ListingItemTemplate.id value)))
                  (fun reason => resolve None) ;;
  match templateId with
  | Some templateId =>
      if truthy templateId
      then
        listingItemRepo_update repo id (ListingItemJSON listingItem templateId) ;;
        resolve tt
      else resolve tt
  | None => resolve tt
  end ;;
  ListingItemService_findOne svc id true.

(** The loop of [deleteExpiredListingItems]. [listingItem.expiredAt <=
    Date()] compares a number with a string, so the string is converted to
    a number first. *)
Fixpoint deleteEach (listingItems : list ExpiredListingItem.t) : Promise W unit :=
  match listingItems with
  | [] => resolve tt
  | listingItem :: rest =>
      (fun w =>
         if ge (ToNumber (Date repo w)) (ExpiredListingItem.expiredAt listingItem)
         then ListingItemService_destroy svc (ExpiredListingItem.id listingItem) w
         else resolve tt w) ;;
      deleteEach rest
  end.

Definition deleteExpiredListingItems : Promise W unit :=
  listingItems <- ListingItemService_findExpired ;;
  deleteEach listingItems.

Definition setRemovedFlag (itemHash : string) (flag : bool) : Promise W unit :=
  listingItem <- ListingItemService_findOneByHash itemHash true ;;
  listingItemRepo_update repo (ListingItem.id listingItem) (RemovedFlag flag) ;;
  resolve tt.

Definition findHighestOrderNumber (listingItemObjects : list ListingItemObject.t)
  : Promise W Z :=
  match maxBy ListingItemObject.order listingItemObjects with
  | Some highestOrder => resolve (ListingItemObject.order highestOrder)
  | None => resolve 0
  end.

End ListingItemMaintenance.

(** ** More sample data *)

Module Fixture.

(** A quorum floor of zero: every vote reaches the quorum. *)
Definition envQuorum0 : ProcessEnv.t := ProcessEnv.mk (Some "0") (Some "0.1.0.0").

(** A quorum floor that does not convert to a number. *)
Definition envQuorumText : ProcessEnv.t := ProcessEnv.mk (Some "many") (Some "0.1.0.0").

Definition publicVote : Proposal.t :=
  Proposal.mk 3 "proposal-3" PUBLIC_VOTE 1700000600000 [Sample.keep; Sample.remove]
              [Sample.snapshot 0 0 0 0] None.

Definition itemVoteWithoutFlag : Proposal.t :=
  Proposal.mk 4 "proposal-4" ITEM_VOTE 1700000600000 [Sample.keep; Sample.remove]
              [Sample.snapshot 0 0 0 0] None.

Definition itemVoteOnListing0 : Proposal.t :=
  Proposal.mk 5 "proposal-5" ITEM_VOTE 1700000600000 [Sample.keep; Sample.remove]
              [Sample.snapshot 0 0 0 0] (Some (FlaggedItem.mk 0)).

Definition itemVoteOnMissingListing : Proposal.t :=
  Proposal.mk 6 "proposal-6" ITEM_VOTE 1700000600000 [Sample.keep; Sample.remove]
              [Sample.snapshot 0 0 0 0] (Some (FlaggedItem.mk 99)).

Definition listing0 : ListingItem.t := ListingItem.mk 0 "listing-0" None.

Definition world : InMemory.World :=
  InMemory.mkWorld
    [Sample.itemVote; Sample.withoutResults; publicVote; itemVoteWithoutFlag;
     itemVoteOnListing0; itemVoteOnMissingListing]
    [Sample.localProfile]
    [("pAlice", 25.5%float); ("pBob", 0%float); ("pCarol", (-5)%float)]
    [] 1 [Sample.listing; listing0] [3] [] [] 1700000000000.

(** The collaborators in memory with a vote service whose writes resolve
    without a row. *)
Definition emptyWrites : Collaborators InMemory.World :=
  {| proposalService_findOneByHash := InMemory.findOneByHash;
     proposalService_recalculateProposalResult := InMemory.recalculateProposalResult;
     profileService_findAll := InMemory.findAll;
     voteService_getVoteWeight := InMemory.getVoteWeight;
     voteService_findOneByVoterAndProposalId := InMemory.findOneByVoterAndProposalId;
     voteService_create := fun _ => resolve None;
     voteService_update := fun _ _ => resolve None;
     voteFactory_getModel := InMemory.getModel;
     voteFactory_getMessage := InMemory.getMessage;
     listingItemRepo_findOne := InMemory.repoFindOne;
     listingItemRepo_destroy := InMemory.repoDestroy;
     cryptocurrencyAddressService_destroy := InMemory.addressDestroy;
     smsgService_smsgSend := InMemory.smsgSend;
     smsgMessageService_updateSmsgMessageStatus := InMemory.updateSmsgMessageStatus;
     Date_getTime := InMemory.clock |}.

(** The collaborators in memory with a vote factory that rejects. *)
Definition factoryDown : Collaborators InMemory.World :=
  {| proposalService_findOneByHash := InMemory.findOneByHash;
     proposalService_recalculateProposalResult := InMemory.recalculateProposalResult;
     profileService_findAll := InMemory.findAll;
     voteService_getVoteWeight := InMemory.getVoteWeight;
     voteService_findOneByVoterAndProposalId := InMemory.findOneByVoterAndProposalId;
     voteService_create := InMemory.create;
     voteService_update := InMemory.update;
     voteFactory_getModel :=
       fun _ _ _ _ _ _ => Rejected (ServiceFailure "the factory failed");
     voteFactory_getMessage :=
       fun _ _ _ _ _ => Rejected (ServiceFailure "the factory failed");
     listingItemRepo_findOne := InMemory.repoFindOne;
     listingItemRepo_destroy := InMemory.repoDestroy;
     cryptocurrencyAddressService_destroy := InMemory.addressDestroy;
     smsgService_smsgSend := InMemory.smsgSend;
     smsgMessageService_updateSmsgMessageStatus := InMemory.updateSmsgMessageStatus;
     Date_getTime := InMemory.clock |}.

(** A proposal that expired two days and one millisecond before the clock
    of the sample world. *)
Definition expiredVote : Proposal.t :=
  Proposal.mk 7 "proposal-7" ITEM_VOTE 1699827199999 [Sample.keep; Sample.remove]
              [Sample.snapshot 0 0 0 0] (Some (FlaggedItem.mk 7)).

(** The sample world beside a log of the updates that the listing
    repository has received. *)
Definition Maintained : Type := InMemory.World * list (Z * ListingItemUpdateBody).

Definition reading {A : Type} (q : Query InMemory.World A) : Query Maintained A :=
  fun w => q (fst w).

Definition writing {A : Type} (p : Promise InMemory.World A) : Promise Maintained A :=
  fun w => (fst (p (fst w)), (snd (p (fst w)), snd w)).

Definition maintainedCollaborators : Collaborators Maintained :=
  {| proposalService_findOneByHash := fun hash => reading (InMemory.findOneByHash hash);
     proposalService_recalculateProposalResult :=
       fun proposal => writing (InMemory.recalculateProposalResult proposal);
     profileService_findAll := reading InMemory.findAll;
     voteService_getVoteWeight := fun voter => reading (InMemory.getVoteWeight voter);
     voteService_findOneByVoterAndProposalId :=
       fun voter proposalId => reading (InMemory.findOneByVoterAndProposalId voter proposalId);
     voteService_create := fun body => writing (InMemory.create body);
     voteService_update := fun id body => writing (InMemory.update id body);
     voteFactory_getModel :=
       fun voteMessage proposal weight create voteSmsg =>
         reading (InMemory.getModel voteMessage proposal weight create voteSmsg);
     voteFactory_getMessage :=
       fun action proposal proposalOption voter =>
         reading (InMemory.getMessage action proposal proposalOption voter);
     listingItemRepo_findOne :=
       fun id withRelated => reading (InMemory.repoFindOne id withRelated);
     listingItemRepo_destroy := fun id => writing (InMemory.repoDestroy id);
     cryptocurrencyAddressService_destroy := fun id => writing (InMemory.addressDestroy id);
     smsgService_smsgSend :=
       fun from to message paid daysRetention =>
         writing (InMemory.smsgSend from to message paid daysRetention);
     smsgMessageService_updateSmsgMessageStatus :=
       fun message status => writing (InMemory.updateSmsgMessageStatus message status);
     Date_getTime := fun w => InMemory.clock (fst w) |}.

(** A listing repository over the listings of the world: every listing
    expired in September 2020, an update of a known listing is logged, the
    template of listing 7 has id 12 and that of listing 0 has id 0.
    [Date()] answers [date]. *)
Definition maintenanceAt (date : string) : Maintenance Maintained :=
  {| listingItemRepo_findOneByHash :=
       fun hash withRelated w =>
         Resolved (find (fun item => String.eqb (ListingItem.hash item) hash)
                        (InMemory.listingItems (fst w)));
     listingItemRepo_findExpired :=
       fun w =>
         Resolved (map (fun item => ExpiredListingItem.mk (ListingItem.id item) 1600000000000)
                       (InMemory.listingItems (fst w)));
     listingItemRepo_update :=
       fun id body w =>
         match find (fun item => ListingItem.id item =? id) (InMemory.listingItems (fst w)) with
         | Some item => (Resolved item, (fst w, (snd w ++ [(id, body)])%list))
         | None => (Rejected (NotFoundException "ListingItem"), w)
         end;
     listingItemTemplateService_findOneByHash :=
       fun hash w =>
         if String.eqb hash "listing-7" then Resolved (ListingItemTemplate.mk 12)
         else if String.eqb hash "listing-0" then Resolved (ListingItemTemplate.mk 0)
         else Rejected (NotFoundException hash);
     Date := fun w => date |}.

(** [Date()] answers with text such as this. *)
Definition maintenance : Maintenance Maintained :=
  maintenanceAt "Tue Nov 14 2023 22:13:20 GMT+0000 (Coordinated Universal Time)".

Definition maintained : Maintained := (world, []).

(** An event that carries no vote. *)
Definition emptyEvent : MarketplaceEvent.t :=
  MarketplaceEvent.mk
    (SmsgMessage.mk "msg-2" "pAlice" 2%float 1700000000000)
    (MarketplaceMessage.mk (Some "0.1.0.0") None).

End Fixture.

(** * Properties *)

(** ** Binary64 facts *)

Section Binary64.

Lemma bounded_cases (m : positive) (e : Z) :
  bounded prec emax m e = true ->
  e <= 971 /\ ((Z.pos (digits2_pos m) = 53 /\ -1074 <= e) \/
               (Z.pos (digits2_pos m) < 53 /\ e = -1074)).
Proof.
  unfold bounded, canonical_mantissa, fexp, SpecFloat.emin, prec, emax.
  intros H. apply andb_true_iff in H. destruct H as [H1 H2].
  apply Z.eqb_eq in H1. apply Z.leb_le in H2. lia.
Qed.

(** [x + x] doubles the mantissa before rounding. *)
Lemma SFadd_self (s : bool) (m : positive) (e : Z) :
  SFadd prec emax (S754_finite s m e) (S754_finite s m e) =
  binary_round prec emax s (m~0) e.
Proof.
  unfold SFadd. rewrite Z.min_id. unfold shl_align. rewrite Z.sub_diag.
  cbn [fst]. destruct s; cbn [cond_Zopp Z.opp Z.add]; rewrite Pos.add_diag; reflexivity.
Qed.

(** Doubling a normal number raises its exponent, or overflows. *)
Lemma binary_round_double_normal (s : bool) (m : positive) (e : Z) :
  Z.pos (digits2_pos m) = 53 -> -1074 <= e ->
  binary_round prec emax s (m~0) e =
  if e + 1 <=? 971 then S754_finite s m (e + 1) else S754_infinity s.
Proof.
  intros Hd He.
  assert (Hf : fexp prec emax (Z.pos (digits2_pos m~0) + e) = e + 1).
  { cbn [digits2_pos]. rewrite Pos2Z.inj_succ.
    unfold fexp, SpecFloat.emin, prec, emax. lia. }
  assert (Hg : fexp prec emax (Z.pos (digits2_pos m) + (e + 1)) = e + 1).
  { unfold fexp, SpecFloat.emin, prec, emax. lia. }
  unfold binary_round. rewrite Hf. unfold shl_align.
  replace (e + 1 - e) with 1 by lia.
  unfold binary_round_aux, shr_fexp. unfold Zdigits2 at 1. rewrite Hf.
  replace (e + 1 - e) with 1 by lia.
  cbn [shr_record_of_loc shr iter_pos shr_1 orb shr_m loc_of_shr_record
       round_nearest_even Zdigits2].
  rewrite Hg, Z.sub_diag. cbn [shr shr_m]. reflexivity.
Qed.

(** Doubling a subnormal number doubles its mantissa exactly. *)
Lemma binary_round_double_subnormal (s : bool) (m : positive) :
  Z.pos (digits2_pos m) < 53 ->
  binary_round prec emax s (m~0) (-1074) = S754_finite s (m~0) (-1074).
Proof.
  intros Hd.
  assert (Hf : fexp prec emax (Z.pos (digits2_pos m~0) + -1074) = -1074).
  { cbn [digits2_pos]. rewrite Pos2Z.inj_succ.
    unfold fexp, SpecFloat.emin, prec, emax. lia. }
  unfold binary_round. rewrite Hf. unfold shl_align. rewrite Z.sub_diag.
  unfold binary_round_aux, shr_fexp. unfold Zdigits2 at 1. rewrite Hf, Z.sub_diag.
  cbn [shr_record_of_loc shr shr_m loc_of_shr_record round_nearest_even Zdigits2].
  rewrite Hf, Z.sub_diag. cbn [shr shr_m]. reflexivity.
Qed.

Lemma div_eucl_exact (a b : Z) : 0 < b -> Z.div_eucl (b * a) b = (a, 0).
Proof.
  intros Hb.
  assert (Hd := Z.div_mul a b ltac:(lia)).
  assert (Hm := Z.mod_mul a b ltac:(lia)).
  unfold Z.div, Z.modulo in *. rewrite (Z.mul_comm b a).
  destruct (Z.div_eucl (a * b) b) as [q r]. cbn in *. congruence.
Qed.

Lemma new_location_zero (n : Z) : new_location n 0 = loc_Exact.
Proof. unfold new_location. destruct (Z.even n); reflexivity. Qed.

(** A finite number divided by its double is exactly one half. *)
Lemma SFdiv_by_double (s : bool) (m : positive) (e : Z) (m2 : positive) (e2 : Z) :
  Z.pos (digits2_pos m) + e - (Z.pos (digits2_pos m2) + e2) = -1 ->
  -1 <= e - e2 <= 0 ->
  Z.pos m * 2 ^ (e - e2 + 54) = Z.pos m2 * 2 ^ 53 ->
  SFdiv prec emax (S754_finite s m e) (S754_finite s m2 e2) = SFhalf.
Proof.
  intros Hd He Hm.
  unfold SFdiv, SFdiv_core_binary. unfold Zdigits2. rewrite Hd.
  replace (Z.min (fexp prec emax (-1)) (e - e2)) with (-54)
    by (unfold fexp, SpecFloat.emin, prec, emax; lia).
  replace (e - e2 - -54) with (e - e2 + 54) in * by lia.
  assert (Hs : match e - e2 + 54 with
               | Z.pos _ => Z.shiftl (Z.pos m) (e - e2 + 54)
               | 0 => Z.pos m
               | Z.neg _ => 0
               end = Z.pos m2 * 2 ^ 53).
  { rewrite <- Hm. destruct (e - e2 + 54) as [|p|p] eqn:E; try lia.
    rewrite Z.shiftl_mul_pow2 by lia. reflexivity. }
  rewrite Hs, div_eucl_exact by lia.
  rewrite new_location_zero, xorb_nilpotent. reflexivity.
Qed.

Lemma SFtie_finite (s : bool) (m : positive) (e : Z) :
  bounded prec emax m e = true ->
  SFltb SFhalf
    (SFdiv prec emax (S754_finite s m e)
       (SFadd prec emax (S754_finite s m e) (S754_finite s m e))) = false.
Proof.
  intros Hb. rewrite SFadd_self.
  destruct (bounded_cases m e Hb) as [Hmax [[Hd He] | [Hd He]]].
  - rewrite binary_round_double_normal by assumption.
    destruct (e + 1 <=? 971).
    + rewrite (SFdiv_by_double s m e m (e + 1)); [reflexivity | lia | lia | ].
      replace (e - (e + 1) + 54) with 53 by lia. reflexivity.
    + reflexivity.
  - subst e. rewrite binary_round_double_subnormal by assumption.
    rewrite (SFdiv_by_double s m (-1074) (m~0) (-1074));
      [reflexivity | cbn [digits2_pos]; lia | lia | ].
    change (-1074 - -1074 + 54) with 54. rewrite Pos2Z.inj_xO. lia.
Qed.

(** No binary64 value, divided by its own double, exceeds one half. *)
Lemma SFtie (x : spec_float) :
  valid_binary x = true ->
  SFltb SFhalf (SFdiv prec emax x (SFadd prec emax x x)) = false.
Proof.
  destruct x as [s | s | | s m e]; intros Hv.
  - destruct s; reflexivity.
  - destruct s; reflexivity.
  - reflexivity.
  - apply SFtie_finite. exact Hv.
Qed.

Lemma SFcompare_antisym (x y : spec_float) :
  SFcompare y x = option_map CompOpp (SFcompare x y).
Proof.
  destruct x as [sx | sx | | sx mx ex], y as [sy | sy | | sy my ey];
    try reflexivity;
    try (destruct sx; reflexivity);
    try (destruct sy; reflexivity);
    try (destruct sx, sy; reflexivity).
  assert (Hp : Pos.compare_cont Eq my mx = CompOpp (Pos.compare_cont Eq mx my))
    by (symmetry; apply (Pos.compare_cont_antisym mx my Eq)).
  cbn [SFcompare option_map]. rewrite (Z.compare_antisym ex ey), Hp.
  destruct sx, sy, (ex ?= ey), (Pos.compare_cont Eq mx my); reflexivity.
Qed.

(** Numbers that compare equal are the same value, up to the sign of a
    zero. *)
Lemma SFeqb_true (x y : spec_float) :
  SFeqb x y = true ->
  x = y \/ exists sx sy, x = S754_zero sx /\ y = S754_zero sy.
Proof.
  unfold SFeqb.
  destruct x as [sx | sx | | sx mx ex], y as [sy | sy | | sy my ey];
    cbn [SFcompare]; try discriminate;
    try (destruct sx; discriminate); try (destruct sy; discriminate).
  - intros _. right. exists sx, sy. split; reflexivity.
  - destruct sx, sy; try discriminate; intros _; left; reflexivity.
  - destruct sx, sy; try discriminate; intros H; left.
    + destruct (ex ?= ey) eqn:E; try discriminate.
      apply Z.compare_eq in E. subst ey.
      destruct (Pos.compare_cont Eq mx my) eqn:E2; try discriminate.
      apply Pos.compare_eq in E2. subst my. reflexivity.
    + destruct (ex ?= ey) eqn:E; try discriminate.
      apply Z.compare_eq in E. subst ey.
      destruct (Pos.compare_cont Eq mx my) eqn:E2; try discriminate.
      apply Pos.compare_eq in E2. subst my. reflexivity.
Qed.

(** [a === b] excludes [a > b]. *)
Lemma strictEquals_not_gt (a b : number) :
  strictEquals a b = true -> gt a b = false.
Proof.
  unfold strictEquals, gt. rewrite eqb_spec, ltb_spec.
  unfold SFeqb, SFltb. rewrite (SFcompare_antisym (Prim2SF a) (Prim2SF b)).
  destruct (SFcompare (Prim2SF a) (Prim2SF b)) as [[ | | ] | ]; cbn; congruence.
Qed.

(** [a < b] excludes [a >= b]. *)
Lemma lt_not_ge (a b : number) :
  PrimFloat.ltb a b = true -> ge a b = false.
Proof.
  unfold ge. rewrite leb_spec, ltb_spec.
  unfold SFleb, SFltb. rewrite (SFcompare_antisym (Prim2SF a) (Prim2SF b)).
  destruct (SFcompare (Prim2SF a) (Prim2SF b)) as [[ | | ] | ]; cbn; congruence.
Qed.

(** With equal weights the remove share is never above one half: it is
    one half exactly, or zero when the sum overflows, or not a number when
    the weights are zero, infinite or not numbers. *)
Lemma tie_is_no_majority (removeWeight keepWeight : number) :
  removeWeight = keepWeight \/ strictEquals removeWeight keepWeight = true ->
  gt (removeWeight / (removeWeight + keepWeight))%float 0.5%float = false.
Proof.
  intros H. unfold gt. rewrite ltb_spec, div_spec, add_spec.
  change (Prim2SF 0.5%float) with SFhalf.
  assert (Hv := Prim2SF_valid removeWeight).
  destruct H as [H | H].
  - subst keepWeight. apply SFtie. exact Hv.
  - unfold strictEquals in H. rewrite eqb_spec in H.
    apply SFeqb_true in H. destruct H as [H | [sx [sy [Hx Hy]]]].
    + rewrite <- H. apply SFtie. exact Hv.
    + rewrite Hx, Hy. destruct sx, sy; reflexivity.
Qed.

End Binary64.

(** ** The retention in binary64

    The quotient of two normal numbers is rounded to the nearest binary64
    value; the difference of two whole numbers below 2^53 is exact. For
    whole timestamps the four quotients of [daysRetention] therefore stay on
    the right side of every whole number of days. *)

Section Retention.

Lemma bpow_pos (e : Z) : (0 < bpow e)%R.
Proof. apply powerRZ_lt. lra. Qed.

Lemma bpow_add (a b : Z) : bpow (a + b) = (bpow a * bpow b)%R.
Proof. apply powerRZ_add. lra. Qed.

Lemma bpow_IZR (e : Z) : 0 <= e -> bpow e = IZR (2 ^ e).
Proof.
  intros He. unfold bpow. rewrite <- (Z2Nat.id e He) at 1.
  rewrite <- pow_powerRZ. rewrite pow_IZR. rewrite Z2Nat.id by exact He. reflexivity.
Qed.

Lemma bpow_opp (e : Z) : (bpow (- e) * bpow e = 1)%R.
Proof.
  rewrite <- bpow_add. replace (- e + e) with 0 by lia. reflexivity.
Qed.

Lemma bpow_succ (e : Z) : bpow (e + 1) = (2 * bpow e)%R.
Proof.
  rewrite bpow_add. replace (bpow 1) with 2%R by (unfold bpow; simpl; lra). lra.
Qed.

(** The number of binary digits of a mantissa bounds it by powers of two. *)
Lemma digits2_bounds (p : positive) :
  2 ^ (Z.pos (digits2_pos p) - 1) <= Z.pos p < 2 ^ Z.pos (digits2_pos p).
Proof.
  induction p as [p IH | p IH | ]; cbn [digits2_pos].
  - rewrite Pos2Z.inj_succ. replace (Z.succ (Z.pos (digits2_pos p)) - 1)
      with (Z.succ (Z.pos (digits2_pos p) - 1)) by lia.
    rewrite !Z.pow_succ_r by lia. lia.
  - rewrite Pos2Z.inj_succ. replace (Z.succ (Z.pos (digits2_pos p)) - 1)
      with (Z.succ (Z.pos (digits2_pos p) - 1)) by lia.
    rewrite !Z.pow_succ_r by lia. lia.
  - cbn. lia.
Qed.

Lemma digits2_unique (p : positive) (d : Z) :
  2 ^ (d - 1) <= Z.pos p < 2 ^ d -> Z.pos (digits2_pos p) = d.
Proof.
  intros [Hlo Hhi]. pose proof (digits2_bounds p) as [Hlo' Hhi'].
  assert (0 < d).
  { destruct (Z.lt_ge_cases 0 d) as [ | Hd]; [assumption | ].
    destruct (Z.eq_dec d 0) as [-> | ]; [cbn in Hhi; lia | ].
    rewrite Z.pow_neg_r in Hhi by lia. lia. }
  assert (d - 1 < Z.pos (digits2_pos p)).
  { apply (Z.pow_lt_mono_r_iff 2); lia. }
  assert (Z.pos (digits2_pos p) - 1 < d).
  { apply (Z.pow_lt_mono_r_iff 2); lia. }
  lia.
Qed.

Lemma new_location_inbetween (q r d : Z) :
  0 < d -> 0 <= r < d ->
  inbetween q (IZR q + IZR r / IZR d)%R (new_location d r).
Proof.
  intros Hd Hr.
  assert (HdR : (0 < IZR d)%R) by (apply IZR_lt; exact Hd).
  assert (HrR : (0 <= IZR r < IZR d)%R) by (split; [apply IZR_le | apply IZR_lt]; lia).
  unfold new_location, new_location_even, new_location_odd.
  destruct (Z.eq_dec r 0) as [-> | Hr0].
  - destruct (Z.even d); cbn; unfold Rdiv; rewrite Rmult_0_l; lra.
  - assert (Hr0' : (r =? 0) = false) by (apply Z.eqb_neq; exact Hr0).
    assert (Hr1 : (0 < IZR r)%R) by (apply IZR_lt; lia).
    assert (Hq : (0 < IZR r / IZR d < 1)%R).
    { split; [apply Rdiv_lt_0_compat; lra | ].
      apply (Rmult_lt_reg_r (IZR d)); [lra | ]. unfold Rdiv.
      rewrite Rmult_assoc, Rinv_l by lra. lra. }
    assert (Hhalf : forall c : comparison, (2 * r ?= d) = c ->
              match c with
              | Lt => (IZR r / IZR d < / 2)%R
              | Eq => (IZR r / IZR d = / 2)%R
              | Gt => (/ 2 < IZR r / IZR d)%R
              end).
    { intros c Hc. destruct c.
      - apply Z.compare_eq in Hc. apply (f_equal IZR) in Hc. rewrite mult_IZR in Hc.
        apply (Rmult_eq_reg_r (IZR d)); [ | lra]. unfold Rdiv.
        rewrite Rmult_assoc, Rinv_l by lra. lra.
      - rewrite Z.compare_lt_iff in Hc. apply IZR_lt in Hc. rewrite mult_IZR in Hc.
        apply (Rmult_lt_reg_r (IZR d)); [lra | ]. unfold Rdiv.
        rewrite Rmult_assoc, Rinv_l by lra. lra.
      - rewrite Z.compare_gt_iff in Hc. apply IZR_lt in Hc. rewrite mult_IZR in Hc.
        apply (Rmult_lt_reg_r (IZR d)); [lra | ]. unfold Rdiv.
        rewrite Rmult_assoc, Rinv_l by lra. lra. }
    destruct (Z.even d) eqn:Heven; rewrite Hr0'.
    + specialize (Hhalf (2 * r ?= d) eq_refl).
      destruct (2 * r ?= d); cbn [inbetween]; cbv beta iota in Hhalf; lra.
    + assert (Hodd : 2 * r <> d).
      { intros <-. rewrite Z.even_mul in Heven. discriminate. }
      destruct (2 * r + 1 ?= d) eqn:Hc.
      * apply Z.compare_eq in Hc.
        specialize (Hhalf Lt ltac:(rewrite Z.compare_lt_iff; lia)).
        cbn [inbetween]; cbv beta iota in Hhalf; lra.
      * rewrite Z.compare_lt_iff in Hc.
        specialize (Hhalf Lt ltac:(rewrite Z.compare_lt_iff; lia)).
        cbn [inbetween]; cbv beta iota in Hhalf; lra.
      * rewrite Z.compare_gt_iff in Hc.
        specialize (Hhalf Gt ltac:(rewrite Z.compare_gt_iff; lia)).
        cbn [inbetween]; cbv beta iota in Hhalf; lra.
Qed.

Lemma loc_of_shr_record_of_loc (m : Z) (l : location) :
  loc_of_shr_record (shr_record_of_loc m l) = l.
Proof. destruct l as [ | []]; reflexivity. Qed.

Lemma shr_m_shr_record_of_loc (m : Z) (l : location) :
  shr_m (shr_record_of_loc m l) = m.
Proof. destruct l as [ | []]; reflexivity. Qed.

(** One shift to the right halves the mantissa and keeps track of where
    the exact value lies. *)
Lemma shr_1_inbetween (m : positive) (x : R) (l : location) :
  inbetween (Z.pos m) x l ->
  inbetween (shr_m (shr_1 (shr_record_of_loc (Z.pos m) l))) (x / 2)%R
            (loc_of_shr_record (shr_1 (shr_record_of_loc (Z.pos m) l)))
  /\ shr_m (shr_1 (shr_record_of_loc (Z.pos m) l)) = Z.pos m / 2.
Proof.
  intros Hx.
  assert (Hdiv : forall p, Z.pos p~0 / 2 = Z.pos p /\ Z.pos p~1 / 2 = Z.pos p).
  { intros p. split.
    - rewrite Pos2Z.inj_xO, Z.mul_comm. apply Z.div_mul. lia.
    - symmetry. apply (Z.div_unique _ 2 _ 1); lia. }
  destruct m as [p | p | ].
  - assert (HI : IZR (Z.pos p~1) = (2 * IZR (Z.pos p) + 1)%R).
    { rewrite Pos2Z.inj_xI, plus_IZR, mult_IZR. reflexivity. }
    split; [ | destruct l as [ | []]; cbn; symmetry; apply Hdiv].
    destruct l as [ | []]; cbn in *; lra.
  - assert (HI : IZR (Z.pos p~0) = (2 * IZR (Z.pos p))%R).
    { rewrite Pos2Z.inj_xO, mult_IZR. reflexivity. }
    split; [ | destruct l as [ | []]; cbn; symmetry; apply Hdiv].
    destruct l as [ | []]; cbn in *; lra.
  - split; [ | destruct l as [ | []]; reflexivity].
    destruct l as [ | []]; cbn in *; lra.
Qed.

Lemma round_nearest_even_inbetween (m : Z) (x : R) (l : location) :
  inbetween m x l ->
  (Rabs (IZR (round_nearest_even m l) - x) <= / 2)%R
  /\ m <= round_nearest_even m l <= m + 1.
Proof.
  intros Hx. destruct l as [ | []]; cbn in *.
  - subst x. split; [ | lia]. rewrite Rminus_diag, Rabs_R0. lra.
  - subst x. destruct (Z.even m); split; try lia.
    + rewrite Rabs_left1 by lra. lra.
    + rewrite plus_IZR. rewrite Rabs_right by lra. lra.
  - split; [ | lia]. rewrite Rabs_left1 by lra. lra.
  - split; [ | lia]. rewrite plus_IZR. rewrite Rabs_right by lra. lra.
Qed.

(** A mantissa of 53 digits is not shifted before it is rounded, one of 54
    digits is shifted once. *)
Lemma shr_fexp_53 (m : positive) (e : Z) (l : location) :
  2 ^ 52 <= Z.pos m < 2 ^ 53 -> -1074 <= e ->
  shr_fexp prec emax (Z.pos m) e l = (shr_record_of_loc (Z.pos m) l, e).
Proof.
  intros Hm He. unfold shr_fexp. cbn [Zdigits2].
  rewrite (digits2_unique m 53) by exact Hm.
  replace (fexp prec emax (53 + e) - e) with 0
    by (unfold fexp, SpecFloat.emin, prec, emax; lia).
  reflexivity.
Qed.

Lemma shr_fexp_54 (m : positive) (e : Z) (l : location) :
  2 ^ 53 <= Z.pos m < 2 ^ 54 -> -1075 <= e ->
  shr_fexp prec emax (Z.pos m) e l = (shr_1 (shr_record_of_loc (Z.pos m) l), e + 1).
Proof.
  intros Hm He. unfold shr_fexp. cbn [Zdigits2].
  rewrite (digits2_unique m 54) by exact Hm.
  replace (fexp prec emax (54 + e) - e) with 1
    by (unfold fexp, SpecFloat.emin, prec, emax; lia).
  reflexivity.
Qed.

Lemma binary_round_aux_unfold (s : bool) (mx ex : Z) (lx : location) :
  binary_round_aux prec emax s mx ex lx
  = renormalise s
      (round_nearest_even (shr_m (fst (shr_fexp prec emax mx ex lx)))
         (loc_of_shr_record (fst (shr_fexp prec emax mx ex lx))))
      (snd (shr_fexp prec emax mx ex lx)).
Proof.
  unfold binary_round_aux, renormalise.
  destruct (shr_fexp prec emax mx ex lx) as [mrs' e']. reflexivity.
Qed.

Lemma round_and_renormalise (s : bool) (m : positive) (e : Z) (x : R) (l : location) :
  2 ^ 52 <= Z.pos m < 2 ^ 53 -> -1074 <= e -> e + 1 <= 971 ->
  inbetween (Z.pos m) x l ->
  exists (m' : positive) (e' : Z),
    renormalise s (round_nearest_even (Z.pos m) l) e = S754_finite s m' e'
    /\ 2 ^ 52 <= Z.pos m' < 2 ^ 53
    /\ e <= e' <= e + 1
    /\ (Rabs (F2R (Z.pos m') e' - x * bpow e) <= bpow e' / 2)%R
    /\ (l = loc_Exact -> m' = m /\ e' = e).
Proof.
  intros Hm He Hmax Hx.
  destruct (round_nearest_even_inbetween _ _ _ Hx) as [Herr Hrange].
  assert (Hexact : l = loc_Exact -> round_nearest_even (Z.pos m) l = Z.pos m)
    by (intros ->; reflexivity).
  destruct (round_nearest_even (Z.pos m) l) as [ | rounded | rounded] eqn:Hr; try lia.
  pose proof (bpow_pos e) as Hpos.
  destruct (Z.lt_ge_cases (Z.pos rounded) (2 ^ 53)) as [Hlt | Hge].
  - exists rounded, e. unfold renormalise.
    rewrite shr_fexp_53 by lia. cbn [shr_record_of_loc shr_m].
    replace (e <=? emax - prec) with true
      by (symmetry; apply Z.leb_le; unfold emax, prec; lia).
    split; [reflexivity | ]. split; [lia | ]. split; [lia | ].
    split.
    + unfold F2R. rewrite <- Rmult_minus_distr_r, Rabs_mult, (Rabs_right (bpow e)) by lra.
      apply Rmult_le_compat_r with (r := bpow e) in Herr; lra.
    + intros Hl. specialize (Hexact Hl). injection Hexact as ->. split; reflexivity.
  - assert (Hcarry : Z.pos rounded = 2 ^ 53) by lia.
    assert (rounded = 9007199254740992%positive) by (cbn in Hcarry; lia). subst rounded.
    exists 4503599627370496%positive, (e + 1). unfold renormalise.
    rewrite shr_fexp_54 by (cbn; lia). cbn [shr_record_of_loc shr_1 shr_m orb].
    replace (e + 1 <=? emax - prec) with true
      by (symmetry; apply Z.leb_le; unfold emax, prec; lia).
    split; [reflexivity | ]. split; [cbn; lia | ]. split; [lia | ].
    split.
    + unfold F2R. rewrite bpow_succ.
      replace (IZR (Z.pos 4503599627370496) * (2 * bpow e) - x * bpow e)%R
        with ((IZR (Z.pos 9007199254740992) - x) * bpow e)%R by lra.
      rewrite Rabs_mult, (Rabs_right (bpow e)) by lra.
      apply Rmult_le_compat_r with (r := bpow e) in Herr; lra.
    + intros Hl. specialize (Hexact Hl). rewrite Hexact in Hcarry. lia.
Qed.

Lemma binary_round_aux_53 (s : bool) (m : positive) (e : Z) (x : R) (l : location) :
  2 ^ 52 <= Z.pos m < 2 ^ 53 -> -1074 <= e -> e + 1 <= 971 ->
  inbetween (Z.pos m) x l ->
  exists (m' : positive) (e' : Z),
    binary_round_aux prec emax s (Z.pos m) e l = S754_finite s m' e'
    /\ 2 ^ 52 <= Z.pos m' < 2 ^ 53
    /\ e <= e' <= e + 1
    /\ (Rabs (F2R (Z.pos m') e' - x * bpow e) <= bpow e' / 2)%R
    /\ (l = loc_Exact -> m' = m /\ e' = e).
Proof.
  intros Hm He Hmax Hx. rewrite binary_round_aux_unfold.
  rewrite shr_fexp_53 by assumption. cbn [fst snd].
  rewrite shr_m_shr_record_of_loc, loc_of_shr_record_of_loc.
  apply round_and_renormalise; assumption.
Qed.

Lemma binary_round_aux_54 (s : bool) (m : positive) (e : Z) (x : R) (l : location) :
  2 ^ 53 <= Z.pos m < 2 ^ 54 -> -1075 <= e -> e + 2 <= 971 ->
  inbetween (Z.pos m) x l ->
  exists (m' : positive) (e' : Z),
    binary_round_aux prec emax s (Z.pos m) e l = S754_finite s m' e'
    /\ 2 ^ 52 <= Z.pos m' < 2 ^ 53
    /\ e + 1 <= e' <= e + 2
    /\ (Rabs (F2R (Z.pos m') e' - x * bpow e) <= bpow e' / 2)%R.
Proof.
  intros Hm He Hmax Hx. rewrite binary_round_aux_unfold.
  rewrite shr_fexp_54 by assumption. cbn [fst snd].
  destruct (shr_1_inbetween m x l Hx) as [Hhalf Hdiv].
  assert (Hrange : 2 ^ 52 <= Z.pos m / 2 < 2 ^ 53).
  { split.
    - apply Z.div_le_lower_bound; [lia | ]. change (2 * 2 ^ 52) with (2 ^ 53). lia.
    - apply Z.div_lt_upper_bound; [lia | ]. change (2 * 2 ^ 53) with (2 ^ 54). lia. }
  destruct (shr_m (shr_1 (shr_record_of_loc (Z.pos m) l))) as [ | half | half] eqn:Hm';
    try lia.
  destruct (round_and_renormalise s half (e + 1) (x / 2)%R _ ltac:(lia) ltac:(lia) ltac:(lia)
              Hhalf) as [m' [e' [Hrun [Hm'' [He' [Herr _]]]]]].
  exists m', e'. split; [exact Hrun | ]. split; [exact Hm'' | ]. split; [lia | ].
  rewrite bpow_succ in Herr.
  replace (x * bpow e)%R with (x / 2 * (2 * bpow e))%R by lra. exact Herr.
Qed.

(** The quotient of two normal numbers is within half a unit in the last
    place of the exact quotient. *)
Lemma SFdiv_normal (s : bool) (m1 m2 : positive) (e1 e2 : Z) :
  2 ^ 52 <= Z.pos m1 < 2 ^ 53 -> 2 ^ 52 <= Z.pos m2 < 2 ^ 53 ->
  -1074 <= e1 - e2 - 53 -> e1 - e2 - 51 <= 971 ->
  exists (m : positive) (e : Z),
    SFdiv prec emax (S754_finite s m1 e1) (S754_finite false m2 e2) = S754_finite s m e
    /\ 2 ^ 52 <= Z.pos m < 2 ^ 53
    /\ e1 - e2 - 53 <= e <= e1 - e2 - 51
    /\ (Rabs (F2R (Z.pos m) e - F2R (Z.pos m1) e1 / F2R (Z.pos m2) e2) <= bpow e / 2)%R.
Proof.
  intros Hm1 Hm2 Hlow Hhigh.
  unfold SFdiv, SFdiv_core_binary. cbn [Zdigits2]. rewrite xorb_false_r.
  rewrite (digits2_unique m1 53), (digits2_unique m2 53) by assumption.
  replace (Z.min (fexp prec emax (53 + e1 - (53 + e2))) (e1 - e2)) with (e1 - e2 - 53)
    by (unfold fexp, SpecFloat.emin, prec, emax; lia).
  replace (e1 - e2 - (e1 - e2 - 53)) with 53 by lia.
  rewrite Z.shiftl_mul_pow2 by lia.
  pose proof (Z_div_mod (Z.pos m1 * 2 ^ 53) (Z.pos m2) ltac:(lia)) as Hdiv.
  destruct (Z.div_eucl (Z.pos m1 * 2 ^ 53) (Z.pos m2)) as [q r].
  destruct Hdiv as [Heq Hr].
  assert (Hq : 2 ^ 52 <= q < 2 ^ 54).
  { change (2 ^ 53) with 9007199254740992 in *. change (2 ^ 52) with 4503599627370496 in *.
    change (2 ^ 54) with 18014398509481984. nia. }
  pose proof (new_location_inbetween q r (Z.pos m2) ltac:(lia) Hr) as Hloc.
  set (x := (IZR q + IZR r / IZR (Z.pos m2))%R) in *.
  assert (Hm2R : (0 < IZR (Z.pos m2))%R) by (apply IZR_lt; lia).
  assert (Hx : (x * bpow (e1 - e2 - 53))%R
               = (F2R (Z.pos m1) e1 / F2R (Z.pos m2) e2)%R).
  { assert (Hxq : (x * IZR (Z.pos m2) = IZR (Z.pos m1) * IZR (2 ^ 53))%R).
    { subst x. rewrite <- mult_IZR, Heq, plus_IZR, mult_IZR. field. lra. }
    assert (Hb : (bpow (e1 - e2 - 53) * IZR (2 ^ 53) * bpow e2 = bpow e1)%R).
    { rewrite <- (bpow_IZR 53) by lia. rewrite <- !bpow_add. f_equal. lia. }
    pose proof (bpow_pos e2). unfold F2R.
    apply (Rmult_eq_reg_r (IZR (Z.pos m2) * bpow e2)); [ | nra].
    transitivity (x * IZR (Z.pos m2) * (bpow (e1 - e2 - 53) * bpow e2))%R; [ring | ].
    rewrite Hxq.
    transitivity (IZR (Z.pos m1) * (bpow (e1 - e2 - 53) * IZR (2 ^ 53) * bpow e2))%R;
      [ring | ].
    rewrite Hb. field. split; nra. }
  destruct q as [ | q | q]; try lia.
  destruct (Z.lt_ge_cases (Z.pos q) (2 ^ 53)) as [Hlt | Hge].
  - destruct (binary_round_aux_53 s q (e1 - e2 - 53) x _ ltac:(lia) ltac:(lia) ltac:(lia)
                Hloc) as [m [e [Hrun [Hm [He [Herr _]]]]]].
    exists m, e. split; [exact Hrun | ]. split; [exact Hm | ]. split; [lia | ].
    rewrite <- Hx. exact Herr.
  - destruct (binary_round_aux_54 s q (e1 - e2 - 53) x _ ltac:(lia) ltac:(lia) ltac:(lia)
                Hloc) as [m [e [Hrun [Hm [He Herr]]]]].
    exists m, e. split; [exact Hrun | ]. split; [exact Hm | ]. split; [lia | ].
    rewrite <- Hx. exact Herr.
Qed.

Lemma wholeMantissa_value (X : Z) :
  0 < X < 2 ^ 53 ->
  Z.pos (wholeMantissa X) = X * 2 ^ (52 - Z.log2 X)
  /\ 2 ^ 52 <= Z.pos (wholeMantissa X) < 2 ^ 53
  /\ 0 <= Z.log2 X <= 52.
Proof.
  intros HX. destruct (Z.log2_spec X ltac:(lia)) as [Hlo Hhi].
  pose proof (Z.log2_nonneg X) as Hnn.
  assert (Hlog : Z.log2 X <= 52).
  { assert (Z.log2 X < 53); [ | lia]. apply (Z.pow_lt_mono_r_iff 2); lia. }
  assert (Hp : 0 < 2 ^ (52 - Z.log2 X)) by (apply Z.pow_pos_nonneg; lia).
  unfold wholeMantissa. rewrite Z2Pos.id by nia.
  split; [reflexivity | ]. split; [ | lia].
  assert (H52 : 2 ^ 52 = 2 ^ Z.log2 X * 2 ^ (52 - Z.log2 X)).
  { rewrite <- Z.pow_add_r by lia. f_equal. lia. }
  assert (H53 : 2 ^ 53 = 2 ^ Z.succ (Z.log2 X) * 2 ^ (52 - Z.log2 X)).
  { rewrite <- Z.pow_add_r by lia. f_equal. lia. }
  rewrite H52, H53. split; nia.
Qed.

Lemma iter_xO_value (W p : positive) : Z.pos (Pos.iter xO W p) = Z.pos W * 2 ^ Z.pos p.
Proof.
  induction p as [ | p IH] using Pos.peano_ind.
  - cbn. lia.
  - rewrite Pos.iter_succ, Pos2Z.inj_xO, IH, Pos2Z.inj_succ, Z.pow_succ_r by lia. lia.
Qed.

Lemma iter_pos_shr_1 (p : positive) :
  forall W : positive,
    SpecFloat.iter_pos shr_1 p (Build_shr_record (Z.pos (Pos.iter xO W p)) false false)
    = Build_shr_record (Z.pos W) false false.
Proof.
  induction p as [p IH | p IH | ]; intros W; cbn [SpecFloat.iter_pos Pos.iter].
  - cbn [shr_1 orb]. rewrite IH, IH. reflexivity.
  - rewrite IH, IH. reflexivity.
  - reflexivity.
Qed.

Lemma renormalise_exact (s : bool) (m : positive) (e : Z) :
  2 ^ 52 <= Z.pos m < 2 ^ 53 -> -1074 <= e <= 970 ->
  renormalise s (Z.pos m) e = S754_finite s m e.
Proof.
  intros Hm He.
  destruct (round_and_renormalise s m e (IZR (Z.pos m)) loc_Exact Hm ltac:(lia) ltac:(lia)
              eq_refl) as [m' [e' [Hrun [_ [_ [_ Hexact]]]]]].
  destruct (Hexact eq_refl) as [-> ->]. exact Hrun.
Qed.

(** Rounding a mantissa and an exponent that stand for a whole number
    below 2^53 gives that whole number. *)
Lemma binary_round_whole (s : bool) (M : positive) (E X : Z) :
  0 < X < 2 ^ 53 -> E <= 0 -> Z.pos M = X * 2 ^ (- E) ->
  binary_round prec emax s M E = S754_finite s (wholeMantissa X) (wholeExponent X).
Proof.
  intros HX HE HM.
  destruct (wholeMantissa_value X HX) as [HW [HWrange Hlog]].
  destruct (Z.log2_spec X ltac:(lia)) as [Hlo Hhi].
  assert (Hdigits : Z.pos (digits2_pos M) = Z.log2 X + 1 - E).
  { apply digits2_unique. rewrite HM.
    replace (Z.log2 X + 1 - E - 1) with (Z.log2 X + - E) by lia.
    replace (Z.log2 X + 1 - E) with (Z.succ (Z.log2 X) + - E) by lia.
    rewrite !Z.pow_add_r by lia.
    assert (0 < 2 ^ (- E)) by (apply Z.pow_pos_nonneg; lia). split; nia. }
  unfold binary_round. rewrite Hdigits.
  replace (fexp prec emax (Z.log2 X + 1 - E + E)) with (Z.log2 X - 52)
    by (unfold fexp, SpecFloat.emin, prec, emax; lia).
  unfold shl_align, wholeExponent.
  destruct (Z.log2 X - 52 - E) as [ | p | p] eqn:Hshift.
  - assert (HMW : M = wholeMantissa X).
    { apply Pos2Z.inj. rewrite HM, HW. f_equal. f_equal. lia. }
    rewrite HMW. rewrite binary_round_aux_unfold, shr_fexp_53 by lia. cbn [fst snd].
    cbn [shr_record_of_loc shr_m loc_of_shr_record round_nearest_even].
    replace E with (Z.log2 X - 52) by lia. apply renormalise_exact; lia.
  - assert (HMW : M = Pos.iter xO (wholeMantissa X) p).
    { apply Pos2Z.inj. rewrite iter_xO_value, HM, HW, <- Z.mul_assoc, <- Z.pow_add_r by lia.
      f_equal. f_equal. lia. }
    rewrite binary_round_aux_unfold. unfold shr_fexp. cbn [Zdigits2]. rewrite Hdigits.
    replace (fexp prec emax (Z.log2 X + 1 - E + E) - E) with (Z.pos p)
      by (unfold fexp, SpecFloat.emin, prec, emax; lia).
    cbn [shr shr_record_of_loc fst snd]. rewrite HMW, iter_pos_shr_1.
    cbn [shr_m loc_of_shr_record round_nearest_even].
    replace (E + Z.pos p) with (Z.log2 X - 52) by lia. apply renormalise_exact; lia.
  - assert (HMW : Pos.iter xO M p = wholeMantissa X).
    { apply Pos2Z.inj. rewrite iter_xO_value, HM, HW, <- Z.mul_assoc, <- Z.pow_add_r by lia.
      f_equal. f_equal. lia. }
    rewrite HMW. rewrite binary_round_aux_unfold, shr_fexp_53 by lia. cbn [fst snd].
    cbn [shr_record_of_loc shr_m loc_of_shr_record round_nearest_even].
    apply renormalise_exact; lia.
Qed.

Lemma whole_unique (m : positive) (e X : Z) :
  2 ^ 52 <= Z.pos m < 2 ^ 53 -> e <= 0 -> Z.pos m = X * 2 ^ (- e) ->
  m = wholeMantissa X /\ e = wholeExponent X /\ 0 < X < 2 ^ 53.
Proof.
  intros Hm He HX.
  assert (Hp : 0 < 2 ^ (- e)) by (apply Z.pow_pos_nonneg; lia).
  assert (HXpos : 0 < X) by nia.
  assert (He52 : -52 <= e).
  { assert (- e < 53); [ | lia]. apply (Z.pow_lt_mono_r_iff 2); [lia | lia | nia]. }
  assert (H52 : 2 ^ 52 = 2 ^ (52 + e) * 2 ^ (- e)).
  { rewrite <- Z.pow_add_r by lia. f_equal. lia. }
  assert (H53 : 2 ^ 53 = 2 ^ (53 + e) * 2 ^ (- e)).
  { rewrite <- Z.pow_add_r by lia. f_equal. lia. }
  assert (Hlog : Z.log2 X = 52 + e).
  { apply Z.log2_unique; [lia | ]. replace (Z.succ (52 + e)) with (53 + e) by lia.
    split; nia. }
  assert (HX53 : X < 2 ^ 53).
  { assert (2 ^ (53 + e) <= 2 ^ 53) by (apply Z.pow_le_mono_r; lia). nia. }
  unfold wholeMantissa, wholeExponent. rewrite Hlog.
  replace (52 - (52 + e)) with (- e) by lia. rewrite <- HX.
  split; [reflexivity | ]. split; lia.
Qed.

Lemma whole_number_canonical (x : number) (X : Z) :
  asWhole x = Some X -> 0 < X < 2 ^ 53 ->
  Prim2SF x = SFwhole X.
Proof.
  intros Hwhole [HX Hlt].
  pose proof (Prim2SF_valid x) as Hvalid. unfold asWhole in Hwhole.
  destruct (Prim2SF x) as [s | s | | s m e]; try discriminate.
  - injection Hwhole as <-. lia.
  - cbn [valid_binary] in Hvalid.
    destruct (bounded_cases m e Hvalid) as [Hmax Hcases].
    pose proof (digits2_bounds m) as Hdigits.
    assert (Hnormal : e < 0 -> Z.pos m = X * 2 ^ (- e) -> s = false ->
                      S754_finite s m e = SFwhole X).
    { intros He Hm ->.
      assert (Hp : 0 < 2 ^ (- e)) by (apply Z.pow_pos_nonneg; lia).
      destruct Hcases as [[Hd _] | [Hd ->]].
      - rewrite Hd in Hdigits. change (53 - 1) with 52 in Hdigits.
        destruct (whole_unique m e X Hdigits ltac:(lia) Hm) as [-> [-> _]].
        destruct X; try lia. reflexivity.
      - exfalso.
        assert (Z.pos m < 2 ^ 52).
        { apply Z.lt_le_trans with (1 := proj2 Hdigits). apply Z.pow_le_mono_r; lia. }
        assert (2 ^ 52 <= 2 ^ (- -1074)) by (apply Z.pow_le_mono_r; lia). nia. }
    destruct (Z.leb_spec 0 e) as [He | He].
    + injection Hwhole as Hwhole.
      assert (Hp : 0 < 2 ^ e) by (apply Z.pow_pos_nonneg; lia).
      destruct s; [lia | ].
      destruct Hcases as [[Hd _] | [_ ->]]; [ | lia].
      rewrite Hd in Hdigits. change (53 - 1) with 52 in Hdigits.
      assert (e = 0).
      { destruct (Z.eq_dec e 0) as [ | Hne]; [assumption | exfalso].
        assert (2 ^ 1 <= 2 ^ e) by (apply Z.pow_le_mono_r; lia).
        change (2 ^ 1) with 2 in *. change (2 ^ 53) with (2 * 2 ^ 52) in Hlt. nia. }
      subst e. rewrite Z.mul_1_r in Hwhole. subst X.
      destruct (whole_unique m 0 (Z.pos m) Hdigits ltac:(lia) ltac:(cbn; lia))
        as [Hm' [He' _]].
      cbn [SFwhole]. rewrite <- Hm', <- He'. reflexivity.
    + assert (Hp : 0 < 2 ^ (- e)) by (apply Z.pow_pos_nonneg; lia).
      destruct (Z.eqb_spec (Z.pos m mod 2 ^ (- e)) 0) as [Hmod | Hmod]; [ | discriminate].
      injection Hwhole as Hwhole.
      destruct s.
      * exfalso. assert (Z.neg m / 2 ^ (- e) < 0); [ | lia].
        apply Z.div_lt_upper_bound; lia.
      * apply Hnormal; [exact He | | reflexivity].
        rewrite <- Hwhole. rewrite Z.mul_comm. apply Z.div_exact; lia.
Qed.

Lemma shl_align_value (m : positive) (e e' : Z) :
  e' <= e -> Z.pos (fst (shl_align m e e')) = Z.pos m * 2 ^ (e - e').
Proof.
  intros He. unfold shl_align. destruct (e' - e) as [ | d | d] eqn:Hd; try lia.
  - cbn [fst]. replace (e - e') with 0 by lia. lia.
  - cbn [fst]. rewrite iter_xO_value. f_equal. f_equal. lia.
Qed.

Lemma whole_aligned (X e : Z) :
  0 < X < 2 ^ 53 -> e <= wholeExponent X ->
  Z.pos (fst (shl_align (wholeMantissa X) (wholeExponent X) e)) = X * 2 ^ (- e).
Proof.
  intros HX He. destruct (wholeMantissa_value X HX) as [HW [_ Hlog]].
  rewrite shl_align_value by exact He. rewrite HW. unfold wholeExponent in *.
  rewrite <- Z.mul_assoc, <- Z.pow_add_r by lia. f_equal. f_equal. lia.
Qed.

(** The difference of two whole numbers below 2^53 is exact. *)
Lemma SFsub_whole (X1 X2 : Z) :
  0 < X1 < 2 ^ 53 -> 0 < X2 < 2 ^ 53 ->
  SFsub prec emax (SFwhole X1) (SFwhole X2) = SFwhole (X1 - X2).
Proof.
  intros H1 H2.
  destruct (wholeMantissa_value X1 H1) as [_ [_ Hlog1]].
  destruct (wholeMantissa_value X2 H2) as [_ [_ Hlog2]].
  destruct X1 as [ | p1 | p1]; try lia. destruct X2 as [ | p2 | p2]; try lia.
  cbn [SFwhole SFsub cond_Zopp].
  set (ez := Z.min (wholeExponent (Z.pos p1)) (wholeExponent (Z.pos p2))).
  assert (Hez : ez <= 0) by (unfold ez, wholeExponent; lia).
  rewrite !whole_aligned by (try assumption; unfold ez; lia).
  rewrite <- Z.mul_sub_distr_r.
  assert (Hp : 0 < 2 ^ (- ez)) by (apply Z.pow_pos_nonneg; lia).
  destruct (Z.pos p1 - Z.pos p2) as [ | d | d] eqn:Hd.
  - reflexivity.
  - destruct (Z.pos d * 2 ^ (- ez)) as [ | M | M] eqn:HM; try lia.
    cbn [binary_normalize SFwhole].
    apply binary_round_whole; lia.
  - destruct (Z.neg d * 2 ^ (- ez)) as [ | M | M] eqn:HM; try lia.
    cbn [binary_normalize SFwhole].
    apply binary_round_whole; lia.
Qed.

Lemma SFwhole_valid (z : Z) :
  - 2 ^ 53 < z < 2 ^ 53 -> valid_binary (SFwhole z) = true.
Proof.
  intros Hz.
  assert (Hpos : forall X, 0 < X < 2 ^ 53 ->
                   bounded prec emax (wholeMantissa X) (wholeExponent X) = true).
  { intros X HX. destruct (wholeMantissa_value X HX) as [_ [HW Hlog]].
    unfold bounded, canonical_mantissa. rewrite (digits2_unique _ 53) by exact HW.
    unfold wholeExponent, fexp, SpecFloat.emin, prec, emax.
    apply andb_true_iff. split; [apply Z.eqb_eq | apply Z.leb_le]; lia. }
  destruct z as [ | p | p]; cbn [SFwhole valid_binary].
  - reflexivity.
  - apply Hpos. lia.
  - apply Hpos. lia.
Qed.

Lemma asWhole_SFwhole (z : Z) :
  - 2 ^ 53 < z < 2 ^ 53 -> asWhole (SF2Prim (SFwhole z)) = Some z.
Proof.
  intros Hz. unfold asWhole. rewrite Prim2SF_SF2Prim by (apply SFwhole_valid; exact Hz).
  assert (Hpos : forall (s : bool) (X : Z), 0 < X < 2 ^ 53 ->
            (if 0 <=? wholeExponent X
             then Some ((if s then Z.neg (wholeMantissa X) else Z.pos (wholeMantissa X))
                        * 2 ^ wholeExponent X)
             else if Z.pos (wholeMantissa X) mod 2 ^ (- wholeExponent X) =? 0
                  then Some ((if s then Z.neg (wholeMantissa X) else Z.pos (wholeMantissa X))
                             / 2 ^ (- wholeExponent X))
                  else None)
            = Some (if s then - X else X)).
  { intros s X HX. destruct (wholeMantissa_value X HX) as [HW [_ Hlog]].
    assert (Hn : (if s then Z.neg (wholeMantissa X) else Z.pos (wholeMantissa X))
                 = (if s then - X else X) * 2 ^ (52 - Z.log2 X)).
    { destruct s; [ | exact HW]. rewrite <- Pos2Z.opp_pos, HW. lia. }
    rewrite Hn. unfold wholeExponent.
    assert (Hp : 0 < 2 ^ (52 - Z.log2 X)) by (apply Z.pow_pos_nonneg; lia).
    destruct (Z.leb_spec 0 (Z.log2 X - 52)) as [He | He].
    - replace (52 - Z.log2 X) with 0 by lia. replace (Z.log2 X - 52) with 0 by lia.
      f_equal. lia.
    - replace (- (Z.log2 X - 52)) with (52 - Z.log2 X) by lia.
      rewrite HW, Z.mod_mul, Z.eqb_refl, Z.div_mul by lia. reflexivity. }
  destruct z as [ | p | p]; cbn [SFwhole].
  - reflexivity.
  - apply (Hpos false). lia.
  - rewrite (Hpos true (Z.pos p)) by lia. reflexivity.
Qed.

Lemma binary_normalize_whole (z : Z) (s : bool) :
  - 2 ^ 53 < z < 2 ^ 53 -> (z = 0 -> s = false) ->
  binary_normalize prec emax z 0 s = SFwhole z.
Proof.
  intros Hz Hs. destruct z as [ | p | p]; cbn [binary_normalize SFwhole].
  - rewrite Hs; reflexivity.
  - apply binary_round_whole; lia.
  - apply binary_round_whole; lia.
Qed.

(** The quotient by a whole constant: its relative error is at most 2^-53,
    and it is exact when the exact quotient is a whole number. *)
Lemma SFdiv_by_constant (s : bool) (m mc : positive) (e ec c : Z) :
  2 ^ 52 <= Z.pos m < 2 ^ 53 -> 2 ^ 52 <= Z.pos mc < 2 ^ 53 ->
  F2R (Z.pos mc) ec = IZR c ->
  -1000 <= e - ec -> e - ec <= 51 ->
  exists (m' : positive) (e' : Z),
    SFdiv prec emax (S754_finite s m e) (S754_finite false mc ec) = S754_finite s m' e'
    /\ 2 ^ 52 <= Z.pos m' < 2 ^ 53
    /\ e - ec - 53 <= e' <= e - ec - 51
    /\ (Rabs (F2R (Z.pos m') e' - F2R (Z.pos m) e / IZR c)
        <= F2R (Z.pos m') e' / 9007199254740992)%R
    /\ (forall j : Z, (F2R (Z.pos m) e / IZR c)%R = IZR j -> F2R (Z.pos m') e' = IZR j).
Proof.
  intros Hm Hmc Hc Hlow Hhigh.
  destruct (SFdiv_normal s m mc e ec Hm Hmc ltac:(lia) ltac:(lia))
    as [m' [e' [Hrun [Hm' [He' Herr]]]]].
  exists m', e'. rewrite Hc in Herr.
  split; [exact Hrun | ]. split; [exact Hm' | ]. split; [exact He' | ].
  pose proof (bpow_pos e') as Hpos.
  assert (Hm'R : (4503599627370496 <= IZR (Z.pos m'))%R).
  { apply IZR_le. change 4503599627370496 with (2 ^ 52). lia. }
  split.
  - apply Rle_trans with (1 := Herr). unfold F2R. nra.
  - intros j Hj. rewrite Hj in Herr.
    assert (He0 : e' <= 0) by lia.
    pose proof (bpow_opp e') as Hinv. rewrite (bpow_IZR (- e')) in Hinv by lia.
    assert (Hp : (0 < IZR (2 ^ (- e')))%R).
    { apply IZR_lt. apply Z.pow_pos_nonneg; lia. }
    assert (Hdiff : (Rabs (IZR (Z.pos m' - j * 2 ^ (- e'))) <= / 2)%R).
    { rewrite minus_IZR, mult_IZR.
      replace (IZR (Z.pos m') - IZR j * IZR (2 ^ (- e')))%R
        with ((F2R (Z.pos m') e' - IZR j) * IZR (2 ^ (- e')))%R
        by (unfold F2R; transitivity
              (IZR (Z.pos m') * (IZR (2 ^ (- e')) * bpow e') - IZR j * IZR (2 ^ (- e')))%R;
            [ring | rewrite Hinv; ring]).
      rewrite Rabs_mult, (Rabs_right (IZR (2 ^ (- e')))) by lra.
      apply Rle_trans with (bpow e' / 2 * IZR (2 ^ (- e')))%R.
      - apply Rmult_le_compat_r; lra.
      - replace (bpow e' / 2 * IZR (2 ^ (- e')))%R
          with (IZR (2 ^ (- e')) * bpow e' / 2)%R by lra.
        rewrite Hinv. lra. }
    assert (Hzero : Z.pos m' - j * 2 ^ (- e') = 0).
    { destruct (Rabs_def2 _ _ (Rle_lt_trans _ _ 1 Hdiff ltac:(lra))) as [Hup Hdown].
      apply (lt_IZR _ 1) in Hup. apply (lt_IZR (-1)) in Hdown. lia. }
    unfold F2R. replace (Z.pos m') with (j * 2 ^ (- e')) by lia.
    rewrite mult_IZR, Rmult_assoc, Hinv. ring.
Qed.

Lemma Rabs_le_between (x a : R) : (Rabs x <= a)%R -> (- a <= x <= a)%R.
Proof.
  intros H. pose proof (Rle_abs x) as H1. pose proof (Rle_abs (- x)) as H2.
  rewrite Rabs_Ropp in H2. lra.
Qed.

Lemma F2R_scaled (c n : Z) : 0 <= n -> F2R (c * 2 ^ n) (- n) = IZR c.
Proof.
  intros Hn. unfold F2R. rewrite mult_IZR, <- (bpow_IZR n) by exact Hn.
  rewrite Rmult_assoc, (Rmult_comm (bpow n)), bpow_opp. ring.
Qed.

Lemma F2R_whole (X : Z) :
  0 < X < 2 ^ 53 -> F2R (Z.pos (wholeMantissa X)) (wholeExponent X) = IZR X.
Proof.
  intros HX. destruct (wholeMantissa_value X HX) as [HW [_ Hlog]].
  rewrite HW. unfold wholeExponent.
  replace (Z.log2 X - 52) with (- (52 - Z.log2 X)) by lia. apply F2R_scaled. lia.
Qed.

Lemma SFdays_whole (s : bool) (X : Z) :
  0 < X < 2 ^ 50 ->
  exists (m : positive) (e : Z),
    SFdays (S754_finite s (wholeMantissa X) (wholeExponent X)) = S754_finite s m e
    /\ -1074 <= e < 0
    /\ (X mod 86400000 = 0 -> F2R (Z.pos m) e = IZR (X / 86400000))
    /\ (X mod 86400000 <> 0 ->
        (IZR (X / 86400000) < F2R (Z.pos m) e < IZR (X / 86400000) + 1)%R).
Proof.
  intros HX.
  assert (HX53 : 0 < X < 2 ^ 53).
  { split; [lia | ]. apply Z.lt_trans with (2 ^ 50); [lia | reflexivity]. }
  destruct (wholeMantissa_value X HX53) as [_ [HW Hlog]].
  assert (Hlog50 : Z.log2 X < 50).
  { apply Z.log2_lt_pow2; lia. }
  pose proof (F2R_whole X HX53) as Hv0.
  unfold SFdays.
  change (Prim2SF 1000) with (S754_finite false 8796093022208000 (-43)).
  change (Prim2SF 60) with (S754_finite false 8444249301319680 (-47)).
  change (Prim2SF 24) with (S754_finite false 6755399441055744 (-48)).
  destruct (SFdiv_by_constant s (wholeMantissa X) 8796093022208000 (wholeExponent X) (-43) 1000
              HW ltac:(cbn; lia) (F2R_scaled 1000 43 ltac:(lia))
              ltac:(unfold wholeExponent; lia) ltac:(unfold wholeExponent; lia))
    as [m1 [e1 [-> [Hm1 [He1 [Herr1 Hexact1]]]]]].
  destruct (SFdiv_by_constant s m1 8444249301319680 e1 (-47) 60
              Hm1 ltac:(cbn; lia) (F2R_scaled 60 47 ltac:(lia))
              ltac:(unfold wholeExponent in *; lia) ltac:(unfold wholeExponent in *; lia))
    as [m2 [e2 [-> [Hm2 [He2 [Herr2 Hexact2]]]]]].
  destruct (SFdiv_by_constant s m2 8444249301319680 e2 (-47) 60
              Hm2 ltac:(cbn; lia) (F2R_scaled 60 47 ltac:(lia))
              ltac:(unfold wholeExponent in *; lia) ltac:(unfold wholeExponent in *; lia))
    as [m3 [e3 [-> [Hm3 [He3 [Herr3 Hexact3]]]]]].
  destruct (SFdiv_by_constant s m3 6755399441055744 e3 (-48) 24
              Hm3 ltac:(cbn; lia) (F2R_scaled 24 48 ltac:(lia))
              ltac:(unfold wholeExponent in *; lia) ltac:(unfold wholeExponent in *; lia))
    as [m4 [e4 [-> [Hm4 [He4 [Herr4 Hexact4]]]]]].
  exists m4, e4. split; [reflexivity | ].
  split; [unfold wholeExponent in *; lia | ].
  rewrite Hv0 in *.
  pose proof (Z.div_mod X 86400000 ltac:(lia)) as Hdiv.
  pose proof (Z.mod_pos_bound X 86400000 ltac:(lia)) as Hmod.
  set (k := X / 86400000) in *. set (r := X mod 86400000) in *.
  assert (Hk : 0 <= k) by (apply Z.div_pos; lia).
  split.
  - intros Hr. rewrite Hr in Hdiv.
    apply Hexact4. rewrite (Hexact3 (k * 24)).
    + rewrite mult_IZR. field.
    + rewrite (Hexact2 (k * 24 * 60)).
      * rewrite mult_IZR. field.
      * rewrite (Hexact1 (k * 24 * 60 * 60)).
        -- rewrite mult_IZR. field.
        -- rewrite Hdiv, !mult_IZR, plus_IZR, !mult_IZR. field.
  - intros Hr.
    apply Rabs_le_between in Herr1, Herr2, Herr3, Herr4.
    assert (HXR : IZR X = (86400000 * IZR k + IZR r)%R).
    { rewrite Hdiv, plus_IZR, mult_IZR. reflexivity. }
    assert (HrR : (1 <= IZR r <= 86399999)%R).
    { split; apply IZR_le; lia. }
    assert (HkR : (0 <= IZR k)%R) by (apply IZR_le; exact Hk).
    assert (HboundR : (IZR X < 1125899906842624)%R).
    { apply IZR_lt. change 1125899906842624 with (2 ^ 50). lia. }
    rewrite HXR in *.
    split; lra.
Qed.

Lemma F2R_mantissa (m : positive) (e : Z) :
  e < 0 -> IZR (Z.pos m) = (F2R (Z.pos m) e * IZR (2 ^ (- e)))%R.
Proof.
  intros He. unfold F2R. rewrite <- (bpow_IZR (- e)) by lia.
  rewrite Rmult_assoc, (Rmult_comm (bpow e)), bpow_opp. ring.
Qed.

Lemma F2R_whole_value (m : positive) (e k : Z) :
  e < 0 -> F2R (Z.pos m) e = IZR k -> Z.pos m = k * 2 ^ (- e).
Proof.
  intros He Hv. apply eq_IZR. rewrite (F2R_mantissa m e He), Hv, mult_IZR. reflexivity.
Qed.

Lemma F2R_between (m : positive) (e k : Z) :
  e < 0 -> (IZR k < F2R (Z.pos m) e < IZR k + 1)%R ->
  k * 2 ^ (- e) < Z.pos m < (k + 1) * 2 ^ (- e).
Proof.
  intros He [Hlo Hhi].
  assert (Hp : (0 < IZR (2 ^ (- e)))%R) by (apply IZR_lt, Z.pow_pos_nonneg; lia).
  split; apply lt_IZR; rewrite (F2R_mantissa m e He), mult_IZR.
  - apply Rmult_lt_compat_r; assumption.
  - rewrite plus_IZR. apply Rmult_lt_compat_r; assumption.
Qed.

Lemma Prim2SF_daysRetention (expiredAt now : number) :
  Prim2SF (daysRetention expiredAt now)
  = Prim2SF (SF2Prim (SFceil (SFdays (SFsub prec emax (Prim2SF expiredAt) (Prim2SF now))))).
Proof.
  unfold daysRetention, Math_ceil, SFdays.
  rewrite !div_spec, sub_spec. reflexivity.
Qed.

Lemma SFceil_days (s : bool) (X : Z) :
  0 < X < 2 ^ 50 ->
  exists z : Z,
    SFceil (SFdays (S754_finite s (wholeMantissa X) (wholeExponent X)))
    = binary_normalize prec emax z 0 s
    /\ z = (if s then - (X / 86400000) else - (- X / 86400000))
    /\ - 2 ^ 53 < z < 2 ^ 53.
Proof.
  intros HX.
  destruct (SFdays_whole s X HX) as [m [e [-> [He [Hexact Hbetween]]]]].
  unfold SFceil. replace (0 <=? e) with false by (symmetry; apply Z.leb_gt; lia).
  assert (Hp : 0 < 2 ^ (- e)) by (apply Z.pow_pos_nonneg; lia).
  pose proof (Z.div_mod X 86400000 ltac:(lia)) as Hdiv.
  pose proof (Z.mod_pos_bound X 86400000 ltac:(lia)) as Hmod.
  set (k := X / 86400000) in *. set (r := X mod 86400000) in *.
  assert (Hk : 0 <= k) by (apply Z.div_pos; lia).
  assert (Hk53 : k + 1 < 2 ^ 53).
  { change (2 ^ 50) with 1125899906842624 in HX.
    change (2 ^ 53) with 9007199254740992. lia. }
  assert (Hceil : - (- X / 86400000) = if r =? 0 then k else k + 1).
  { destruct (Z.eqb_spec r 0) as [Hr | Hr].
    - assert (- X / 86400000 = - k); [ | lia].
      symmetry. apply (Z.div_unique _ _ _ 0); lia.
    - assert (- X / 86400000 = - (k + 1)); [ | lia].
      symmetry. apply (Z.div_unique _ _ _ (86400000 - r)); lia. }
  assert (Hfloor : Z.pos m / 2 ^ (- e) = k
                   /\ - (Z.neg m / 2 ^ (- e)) = if r =? 0 then k else k + 1).
  { destruct (Z.eqb_spec r 0) as [Hr | Hr].
    - pose proof (F2R_whole_value m e k ltac:(lia) (Hexact Hr)) as Hm. split.
      + rewrite Hm. apply Z.div_mul. lia.
      + rewrite <- Pos2Z.opp_pos, Hm. replace (- (k * 2 ^ (- e))) with (- k * 2 ^ (- e)) by lia.
        rewrite Z.div_mul by lia. lia.
    - pose proof (F2R_between m e k ltac:(lia) (Hbetween Hr)) as Hm. split.
      + symmetry. apply (Z.div_unique _ _ _ (Z.pos m - k * 2 ^ (- e))); lia.
      + assert (Z.neg m / 2 ^ (- e) = - (k + 1)); [ | lia].
        symmetry. apply (Z.div_unique _ _ _ ((k + 1) * 2 ^ (- e) - Z.pos m)); lia. }
  destruct Hfloor as [Hfloor Hceiling].
  destruct s.
  - exists (- k). rewrite Hfloor. split; [reflexivity | ]. split; lia.
  - exists (- (- X / 86400000)). rewrite Hceiling, Hceil.
    split; [reflexivity | ]. split; [reflexivity | ].
    destruct (r =? 0); lia.
Qed.

Lemma asWhole_binary_normalize (z : Z) (s : bool) :
  - 2 ^ 53 < z < 2 ^ 53 ->
  asWhole (SF2Prim (binary_normalize prec emax z 0 s)) = Some z.
Proof.
  intros Hz. destruct (Z.eq_dec z 0) as [-> | Hne].
  - cbn [binary_normalize]. unfold asWhole.
    rewrite Prim2SF_SF2Prim by reflexivity. reflexivity.
  - rewrite binary_normalize_whole by (try assumption; intros; contradiction).
    apply asWhole_SFwhole. exact Hz.
Qed.

(** The retention of whole timestamps less than 2^50 milliseconds apart is
    the ceiling of their difference in days. *)
Lemma daysRetention_whole (expiredAt now : number) (E N : Z) :
  asWhole expiredAt = Some E -> asWhole now = Some N ->
  0 < E < 2 ^ 53 -> 0 < N < 2 ^ 53 -> - 2 ^ 50 < E - N < 2 ^ 50 ->
  asWhole (daysRetention expiredAt now) = Some (- ((N - E) / 86400000)).
Proof.
  intros HE HN HEr HNr Hdiff.
  unfold asWhole at 1. rewrite Prim2SF_daysRetention. fold (asWhole (SF2Prim
    (SFceil (SFdays (SFsub prec emax (Prim2SF expiredAt) (Prim2SF now)))))).
  rewrite (whole_number_canonical expiredAt E HE HEr).
  rewrite (whole_number_canonical now N HN HNr).
  rewrite SFsub_whole by assumption.
  destruct (E - N) as [ | X | X] eqn:HX.
  - replace (N - E) with 0 by lia. cbn [SFwhole].
    unfold asWhole. rewrite Prim2SF_SF2Prim by reflexivity. reflexivity.
  - cbn [SFwhole].
    destruct (SFceil_days false (Z.pos X) ltac:(lia)) as [z [-> [Hz Hrange]]].
    rewrite asWhole_binary_normalize by exact Hrange.
    rewrite Hz. do 3 f_equal. lia.
  - cbn [SFwhole].
    destruct (SFceil_days true (Z.pos X) ltac:(lia)) as [z [-> [Hz Hrange]]].
    rewrite asWhole_binary_normalize by exact Hrange.
    rewrite Hz. do 3 f_equal. lia.
Qed.

End Retention.

(** ** Resolution policy *)

Section ResolutionPolicy.
Variable ToNumber : string -> number.
Variable process_env : ProcessEnv.t.

(** The policy's verdict once both option results are found. *)
Lemma shouldRemoveListingItem_found (proposalResult : ProposalResult.t)
    (keep remove : ProposalOptionResult.t) :
  find (hasOptionId 0) (ProposalResult.ProposalOptionResults proposalResult) = Some keep ->
  find (hasOptionId 1) (ProposalResult.ProposalOptionResults proposalResult) = Some remove ->
  shouldRemoveListingItem ToNumber process_env proposalResult =
  gt (ProposalOptionResult.voters keep + ProposalOptionResult.voters remove)%float
     (minimumRequiredVotes ToNumber process_env)
  && gt (ProposalOptionResult.weight remove
         / (ProposalOptionResult.weight remove + ProposalOptionResult.weight keep))%float
        0.5%float.
Proof.
  intros Hkeep Hremove. unfold shouldRemoveListingItem.
  unfold hasOptionId in Hkeep, Hremove. rewrite Hkeep, Hremove.
  destruct (gt _ _ && gt _ _); reflexivity.
Qed.

(** C1. When the snapshot holds an option result for option 0 (keep) and
    one for option 1 (remove), [shouldRemoveListingItem] answers true
    exactly when the voters of both together exceed the quorum floor and
    the remove weight divided by the sum of both weights exceeds 0.5. The
    quorum floor is the number that the configured MINIMUM_REQUIRED_VOTES
    converts to, and 1000 when the variable is unset or empty. When the
    voters together equal the quorum floor the answer is false. *)
Theorem C1_shouldRemoveListingItem_quorum_and_majority
    (proposalResult : ProposalResult.t) (keep remove : ProposalOptionResult.t) :
  find (hasOptionId 0) (ProposalResult.ProposalOptionResults proposalResult) = Some keep ->
  find (hasOptionId 1) (ProposalResult.ProposalOptionResults proposalResult) = Some remove ->
  let floor :=
    match ProcessEnv.MINIMUM_REQUIRED_VOTES process_env with
    | Some (String c rest) => ToNumber (String c rest)
    | Some EmptyString => 1000%float
    | None => 1000%float
    end in
  let totalVoters :=
    (ProposalOptionResult.voters keep + ProposalOptionResult.voters remove)%float in
  let removeShare :=
    (ProposalOptionResult.weight remove
     / (ProposalOptionResult.weight remove + ProposalOptionResult.weight keep))%float in
  (shouldRemoveListingItem ToNumber process_env proposalResult = true <->
   gt totalVoters floor = true /\ gt removeShare 0.5%float = true)
  /\ (strictEquals totalVoters floor = true ->
      shouldRemoveListingItem ToNumber process_env proposalResult = false).
Proof.
  intros Hkeep Hremove floor totalVoters removeShare.
  rewrite (shouldRemoveListingItem_found proposalResult keep remove Hkeep Hremove).
  assert (Hfloor : minimumRequiredVotes ToNumber process_env = floor).
  { unfold minimumRequiredVotes, floor.
    destruct (ProcessEnv.MINIMUM_REQUIRED_VOTES process_env) as [[ | c rest] | ];
      reflexivity. }
  rewrite Hfloor. fold totalVoters removeShare. split.
  - apply andb_true_iff.
  - intros Heq. rewrite (strictEquals_not_gt _ _ Heq). reflexivity.
Qed.

(** C6. When the snapshot holds an option result for option 0 and one for
    option 1 and the remove weight equals the keep weight, zero included,
    [shouldRemoveListingItem] answers false, whatever the voter counts. *)
Theorem C6_tie_never_removes
    (proposalResult : ProposalResult.t) (keep remove : ProposalOptionResult.t) :
  find (hasOptionId 0) (ProposalResult.ProposalOptionResults proposalResult) = Some keep ->
  find (hasOptionId 1) (ProposalResult.ProposalOptionResults proposalResult) = Some remove ->
  ProposalOptionResult.weight remove = ProposalOptionResult.weight keep
  \/ strictEquals (ProposalOptionResult.weight remove) (ProposalOptionResult.weight keep) = true ->
  shouldRemoveListingItem ToNumber process_env proposalResult = false.
Proof.
  intros Hkeep Hremove Htie.
  rewrite (shouldRemoveListingItem_found proposalResult keep remove Hkeep Hremove).
  rewrite (tie_is_no_majority _ _ Htie). apply andb_false_r.
Qed.

End ResolutionPolicy.

(** C1 with the quorum floor configured as 3, at a snapshot of 1 keep voter
    of weight 10 and 3 remove voters of weight 30. *)
Lemma C1_witness :
  (shouldRemoveListingItem Sample.ToNumber Sample.envQuorum3
     (Sample.snapshot 1 10 3 30) = true <->
   gt (1 + 3)%float (Sample.ToNumber "3") = true
   /\ gt (30 / (30 + 10))%float 0.5%float = true)
  /\ (strictEquals (1 + 3)%float (Sample.ToNumber "3") = true ->
      shouldRemoveListingItem Sample.ToNumber Sample.envQuorum3
        (Sample.snapshot 1 10 3 30) = false).
Proof.
  exact (C1_shouldRemoveListingItem_quorum_and_majority Sample.ToNumber Sample.envQuorum3
           (Sample.snapshot 1 10 3 30)
           (ProposalOptionResult.mk Sample.keep 1 10)
           (ProposalOptionResult.mk Sample.remove 3 30)
           eq_refl eq_refl).
Defined.

(** C6 at a snapshot of 2000 keep voters and 5000 remove voters, both of
    weight 12.5. *)
Lemma C6_witness :
  shouldRemoveListingItem Sample.ToNumber Sample.env
    (Sample.snapshot 2000 12.5 5000 12.5) = false.
Proof.
  apply (C6_tie_never_removes Sample.ToNumber Sample.env
           (Sample.snapshot 2000 12.5 5000 12.5)
           (ProposalOptionResult.mk Sample.keep 2000 12.5)
           (ProposalOptionResult.mk Sample.remove 5000 12.5)).
  - reflexivity.
  - reflexivity.
  - left. reflexivity.
Defined.

Example quorum_reached_with_majority :
  shouldRemoveListingItem Sample.ToNumber Sample.env (Sample.snapshot 600 10 401 30) = true.
Proof. reflexivity. Qed.

Example quorum_floor_itself_is_not_enough :
  shouldRemoveListingItem Sample.ToNumber Sample.env (Sample.snapshot 600 10 400 30) = false.
Proof. reflexivity. Qed.

Example configured_quorum_floor :
  minimumRequiredVotes Sample.ToNumber Sample.envQuorum3 = 3%float
  /\ shouldRemoveListingItem Sample.ToNumber Sample.envQuorum3 (Sample.snapshot 1 10 3 30) = true
  /\ shouldRemoveListingItem Sample.ToNumber Sample.envQuorum3 (Sample.snapshot 1 10 2 30) = false.
Proof. repeat split; reflexivity. Qed.

Example zero_weights_do_not_remove :
  shouldRemoveListingItem Sample.ToNumber Sample.env (Sample.snapshot 2000 0 5000 0) = false.
Proof. reflexivity. Qed.

(** ** Vote ingestion *)

Section Ingestion.
Context {W : Type}.
Variable ToNumber : string -> number.
Variable process_env : ProcessEnv.t.
Variable svc : Collaborators W.

(** Enters the pipeline of an event that carries a vote of its sender and
    exposes the first look-up. *)
Ltac enter_pipeline Hvalid :=
  let Hvote := fresh "Hvote" in
  let Hsender := fresh "Hsender" in
  destruct Hvalid as [Hvote Hsender];
  unfold processVoteReceivedEvent, isLocal in *;
  rewrite Hvote, <- Hsender, String.eqb_refl;
  cbn [negb]; unfold catch, await, ask.

(** The upsert creates when the look-up rejects and updates the row that
    the look-up resolves to. *)
Lemma createOrUpdateVote_chooses (voteMessage : VoteMessage.t) (proposal : Proposal.t)
    (weight : number) (voteSmsg : SmsgMessage.t) (voteRequest : VoteRequest.t) (w : W) :
  voteFactory_getModel svc voteMessage proposal weight
    (match voteService_findOneByVoterAndProposalId svc
             (VoteMessage.voter voteMessage) (Proposal.id proposal) w with
     | Resolved _ => false
     | Rejected _ => true
     end) voteSmsg w = Resolved voteRequest ->
  createOrUpdateVote svc voteMessage proposal weight voteSmsg w =
  (voteModel <- match voteService_findOneByVoterAndProposalId svc
                        (VoteMessage.voter voteMessage) (Proposal.id proposal) w with
                | Resolved lastVote => voteService_update svc (Vote.id lastVote) voteRequest
                | Rejected _ => voteService_create svc voteRequest
                end ;;
   match voteModel with
   | None => throw (MessageException "Vote wasn't saved or updated properly. Return val is empty.")
   | Some vote => resolve vote
   end) w.
Proof.
  intros Hmodel. unfold createOrUpdateVote, catch, await, ask, resolve.
  destruct (voteService_findOneByVoterAndProposalId svc _ _ w) as [lastVote | reason];
    rewrite Hmodel; reflexivity.
Qed.

(** C3. An inbound vote event whose proposal hash the Proposal Store does
    not find resolves to WAITING and leaves the state of every
    collaborator as it was: no vote row is written, nothing is
    recalculated, no listing is removed. *)
Theorem C3_unknown_proposal_waits
    (event : MarketplaceEvent.t) (voteMessage : VoteMessage.t) (reason : Exception) (w : W) :
  carriesVote event voteMessage ->
  proposalService_findOneByHash svc (VoteMessage.proposalHash voteMessage) w = Rejected reason ->
  processVoteReceivedEvent ToNumber process_env svc event w = (Resolved WAITING, w).
Proof.
  intros Hvalid Hfind. enter_pipeline Hvalid. rewrite Hfind. reflexivity.
Qed.

(** C10. An inbound vote event from a voter that is not a local profile,
    for a proposal that is found but carries no ProposalResult, resolves to
    WAITING (the exception is turned into WAITING by the catch around the
    pipeline) and leaves the state of every collaborator as it was. *)
Theorem C10_empty_proposal_results_wait
    (event : MarketplaceEvent.t) (voteMessage : VoteMessage.t)
    (proposal : Proposal.t) (profiles : list Profile.t) (w : W) :
  carriesVote event voteMessage ->
  proposalService_findOneByHash svc (VoteMessage.proposalHash voteMessage) w = Resolved proposal ->
  profileService_findAll svc w = Resolved profiles ->
  isLocal profiles (VoteMessage.voter voteMessage) = false ->
  Proposal.ProposalResults proposal = [] ->
  processVoteReceivedEvent ToNumber process_env svc event w = (Resolved WAITING, w).
Proof.
  intros Hvalid Hfind Hprofiles Hlocal Hempty.
  enter_pipeline Hvalid. rewrite Hfind, Hprofiles, Hlocal, Hempty. reflexivity.
Qed.

(** C7, as the code has it. An inbound vote event for a proposal that the
    Proposal Store finds, whose claimed voter is the address of a local
    profile, resolves to PROCESSED and leaves the state of every
    collaborator as it was. *)
Theorem C7_self_vote_for_known_proposal_is_skipped
    (event : MarketplaceEvent.t) (voteMessage : VoteMessage.t)
    (proposal : Proposal.t) (profiles : list Profile.t) (profile : Profile.t) (w : W) :
  carriesVote event voteMessage ->
  proposalService_findOneByHash svc (VoteMessage.proposalHash voteMessage) w = Resolved proposal ->
  profileService_findAll svc w = Resolved profiles ->
  In profile profiles ->
  Profile.address profile = VoteMessage.voter voteMessage ->
  processVoteReceivedEvent ToNumber process_env svc event w = (Resolved PROCESSED, w).
Proof.
  intros Hvalid Hfind Hprofiles Hin Haddress.
  assert (Hlocal : isLocal profiles (VoteMessage.voter voteMessage) = true).
  { unfold isLocal. apply existsb_exists. exists profile. split; [exact Hin | ].
    rewrite Haddress. apply String.eqb_refl. }
  enter_pipeline Hvalid. rewrite Hfind, Hprofiles, Hlocal. reflexivity.
Qed.

(** C5, as the code has it. An inbound vote event for a known proposal
    from a voter that is not a local profile, whose retention is below 1,
    resolves to WAITING (the pipeline throws and the catch around it
    answers WAITING) and leaves the state of every collaborator as it
    was. *)
Theorem C5_below_retention_waits
    (event : MarketplaceEvent.t) (voteMessage : VoteMessage.t)
    (proposal : Proposal.t) (profiles : list Profile.t) (w : W) :
  carriesVote event voteMessage ->
  proposalService_findOneByHash svc (VoteMessage.proposalHash voteMessage) w = Resolved proposal ->
  profileService_findAll svc w = Resolved profiles ->
  isLocal profiles (VoteMessage.voter voteMessage) = false ->
  PrimFloat.ltb (SmsgMessage.daysretention (MarketplaceEvent.smsgMessage event)) 1%float = true ->
  processVoteReceivedEvent ToNumber process_env svc event w = (Resolved WAITING, w).
Proof.
  intros Hvalid Hfind Hprofiles Hlocal Hretention.
  enter_pipeline Hvalid. rewrite Hfind, Hprofiles, Hlocal.
  rewrite (lt_not_ge _ _ Hretention).
  destruct (isEmpty (Proposal.ProposalResults proposal)); reflexivity.
Qed.

(** C8, as the code has it. An inbound vote event for a known proposal
    that carries at least one ProposalResult, from a voter that is not a
    local profile, with a retention of at least 1, whose weight the Weight
    Oracle resolves to zero, resolves to PROCESSED and leaves the state of
    every collaborator as it was: no vote row is written, nothing is
    recalculated and no listing is removed. *)
Theorem C8_zero_weight_is_skipped
    (event : MarketplaceEvent.t) (voteMessage : VoteMessage.t)
    (proposal : Proposal.t) (profiles : list Profile.t) (weight : number) (w : W) :
  carriesVote event voteMessage ->
  proposalService_findOneByHash svc (VoteMessage.proposalHash voteMessage) w = Resolved proposal ->
  profileService_findAll svc w = Resolved profiles ->
  isLocal profiles (VoteMessage.voter voteMessage) = false ->
  Proposal.ProposalResults proposal <> [] ->
  ge (SmsgMessage.daysretention (MarketplaceEvent.smsgMessage event)) 1%float = true ->
  voteService_getVoteWeight svc (VoteMessage.voter voteMessage) w = Resolved weight ->
  strictEquals weight 0%float = true ->
  processVoteReceivedEvent ToNumber process_env svc event w = (Resolved PROCESSED, w).
Proof.
  intros Hvalid Hfind Hprofiles Hlocal Hresults Hretention Hweight Hzero.
  enter_pipeline Hvalid. rewrite Hfind, Hprofiles, Hlocal.
  destruct (Proposal.ProposalResults proposal) as [ | result results]; [congruence | ].
  cbn [isEmpty]. rewrite Hretention, Hweight.
  rewrite (strictEquals_not_gt _ _ Hzero). reflexivity.
Qed.

(** C4, as the code has it. When the upsert or the recalculation fails,
    the pipeline resolves to WAITING, and the listener reports WAITING to
    the message-status collaborator; it reports PARSING_FAILED only if
    that report itself is rejected. *)
Theorem C4_failed_upsert_or_recompute_waits
    (event : MarketplaceEvent.t) (voteMessage : VoteMessage.t)
    (proposal : Proposal.t) (weight : number) (w w' : W) :
  ReachesUpsert svc event voteMessage proposal weight w ->
  UpsertOrRecomputeFails svc event voteMessage proposal weight w w' ->
  processVoteReceivedEvent ToNumber process_env svc event w = (Resolved WAITING, w')
  /\ configureEventListeners ToNumber process_env svc event w =
     catch
       (smsgMessageService_updateSmsgMessageStatus svc
          (MarketplaceEvent.smsgMessage event) WAITING)
       (fun reason =>
          smsgMessageService_updateSmsgMessageStatus svc
            (MarketplaceEvent.smsgMessage event) PARSING_FAILED)
       w'.
Proof.
  intros [Hvalid Hfind [profiles [Hprofiles Hlocal]] Hresults Hretention Hweight Hpositive] Hfails.
  assert (Hprocess : processVoteReceivedEvent ToNumber process_env svc event w = (Resolved WAITING, w')).
  { enter_pipeline Hvalid. rewrite Hfind, Hprofiles, Hlocal.
    destruct (Proposal.ProposalResults proposal) as [ | result results]; [congruence | ].
    cbn [isEmpty]. rewrite Hretention, Hweight, Hpositive.
    destruct Hfails as [[reason Hupsert] | [vote [w1 [reason [Hupsert Hrecompute]]]]].
    - rewrite Hupsert. reflexivity.
    - rewrite Hupsert, Hrecompute. reflexivity. }
  split; [exact Hprocess | ].
  unfold configureEventListeners.
  unfold catch, await. rewrite Hprocess. reflexivity.
Qed.

End Ingestion.

(** ** Outbound vote composer *)

Section Composer.
Context {W : Type}.
Variable process_env : ProcessEnv.t.
Variable svc : Collaborators W.


Lemma send_unfolded (proposal : Proposal.t) (proposalOption : ProposalOption.t)
    (senderProfile : Profile.t) (marketplace : Market.t) (voteMessage : VoteMessage.t) (w : W) :
  voteFactory_getMessage svc MP_VOTE proposal proposalOption (Profile.address senderProfile) w
  = Resolved voteMessage ->
  send process_env svc proposal proposalOption senderProfile marketplace w =
  smsgService_smsgSend svc (Profile.address senderProfile) (Market.address marketplace)
    (MarketplaceMessage.mk (ProcessEnv.MARKETPLACE_VERSION process_env) (Some voteMessage))
    false (daysRetention (Proposal.expiredAt proposal) (Date_getTime svc w)) w.
Proof.
  intros Hmessage. unfold send, await, ask. rewrite Hmessage. reflexivity.
Qed.


End Composer.



(** ** Vote upsert against the Vote Ledger *)

Section Upsert.
Variable voteMessage : VoteMessage.t.
Variable proposal : Proposal.t.
Variable weight : number.
Variable voteSmsg : SmsgMessage.t.

Lemma NoDup_map_In_eq {A B : Type} (f : A -> B) (l : list A) (a b : A) :
  NoDup (map f l) -> In a l -> In b l -> f a = f b -> a = b.
Proof.
  induction l as [ | x l IH]; cbn [map]; intros Hnodup Ha Hb Hf.
  - destruct Ha.
  - inversion Hnodup as [ | y ys Hnotin Hrest]; subst.
    destruct Ha as [Ha | Ha], Hb as [Hb | Hb].
    + congruence.
    + subst x. exfalso. apply Hnotin. rewrite Hf. apply in_map. exact Hb.
    + subst x. exfalso. apply Hnotin. rewrite <- Hf. apply in_map. exact Ha.
    + apply IH; assumption.
Qed.

Lemma NoDup_snoc {A : Type} (l : list A) (a : A) :
  NoDup l -> ~ In a l -> NoDup (l ++ [a])%list.
Proof.
  induction l as [ | x l IH]; cbn; intros Hnodup Hnotin.
  - constructor; [intros [] | constructor].
  - inversion Hnodup as [ | y ys Hx Hrest]; subst. constructor.
    + rewrite in_app_iff. cbn. intuition congruence.
    + apply IH; [exact Hrest | intuition].
Qed.

(** With no row for the pair, the upsert creates one at the end of the
    ledger. *)
Lemma createOrUpdateVote_creates (w : InMemory.World) :
  InMemory.lastVoteOf voteMessage proposal w = None ->
  let vote :=
    InMemory.rowOf (InMemory.nextVoteId w)
      (InMemory.requestOf voteMessage proposal weight voteSmsg) in
  createOrUpdateVote InMemory.collaborators voteMessage proposal weight voteSmsg w =
  (Resolved vote,
   InMemory.setVotes w (InMemory.votes w ++ [vote])%list (InMemory.nextVoteId w + 1)).
Proof.
  intros Hfind vote. unfold InMemory.lastVoteOf in Hfind.
  unfold createOrUpdateVote, catch, await, ask, resolve. cbn.
  unfold InMemory.findOneByVoterAndProposalId. rewrite Hfind. reflexivity.
Qed.

(** With a row for the pair, the upsert overwrites that row. *)
Lemma createOrUpdateVote_updates (w : InMemory.World) (lastVote : Vote.t) :
  InMemory.lastVoteOf voteMessage proposal w = Some lastVote ->
  let body := InMemory.requestOf voteMessage proposal weight voteSmsg in
  createOrUpdateVote InMemory.collaborators voteMessage proposal weight voteSmsg w =
  (Resolved (InMemory.rowOf (Vote.id lastVote) body),
   InMemory.setVotes w
     (map (InMemory.overwrite (Vote.id lastVote) body) (InMemory.votes w))
     (InMemory.nextVoteId w)).
Proof.
  intros Hfind body. unfold InMemory.lastVoteOf in Hfind.
  unfold createOrUpdateVote, catch, await, ask, resolve. cbn.
  unfold InMemory.findOneByVoterAndProposalId. rewrite Hfind. cbn.
  unfold InMemory.update.
  destruct (find (fun row => Vote.id row =? Vote.id lastVote) (InMemory.votes w)) eqn:Hid.
  - reflexivity.
  - apply find_some in Hfind. destruct Hfind as [Hin _].
    assert (Hfalse := find_none _ _ Hid lastVote Hin). cbn in Hfalse.
    rewrite Z.eqb_refl in Hfalse. discriminate.
Qed.

(** Overwriting the row found for the pair changes neither the keys nor
    the identifiers of the ledger. *)
Lemma overwrite_keeps_keys_and_ids (rows : list Vote.t) (lastVote : Vote.t) :
  NoDup (map Vote.id rows) ->
  In lastVote rows ->
  InMemory.sameVoterAndProposal
    (VoteMessage.voter voteMessage) (Proposal.id proposal) lastVote = true ->
  let body := InMemory.requestOf voteMessage proposal weight voteSmsg in
  map InMemory.voterAndProposal (map (InMemory.overwrite (Vote.id lastVote) body) rows)
  = map InMemory.voterAndProposal rows
  /\ map Vote.id (map (InMemory.overwrite (Vote.id lastVote) body) rows) = map Vote.id rows.
Proof.
  intros Hids Hin Hsame body. rewrite !map_map. split.
  - apply map_ext_in. intros row Hrow. unfold InMemory.overwrite.
    destruct (Vote.id row =? Vote.id lastVote) eqn:E; [ | reflexivity].
    apply Z.eqb_eq in E.
    assert (row = lastVote) by (apply (NoDup_map_In_eq Vote.id rows); assumption).
    subst row. unfold InMemory.sameVoterAndProposal in Hsame.
    apply andb_true_iff in Hsame. destruct Hsame as [Hvoter Hproposal].
    apply String.eqb_eq in Hvoter. apply Z.eqb_eq in Hproposal.
    unfold InMemory.voterAndProposal, InMemory.rowOf. cbn. congruence.
  - apply map_ext. intros row. unfold InMemory.overwrite.
    destruct (Vote.id row =? Vote.id lastVote) eqn:E; [ | reflexivity].
    apply Z.eqb_eq in E. cbn. congruence.
Qed.

(** C2. On a Vote Ledger with at most one row per (voter, proposal) pair
    (and rows with distinct identifiers below the next free one),
    [createOrUpdateVote] returns the vote of the incoming message and leaves
    a ledger with at most one row per pair: when the ledger has no row for
    the voter and the proposal it appends one, and otherwise it overwrites
    the row it found, option and weight included, where that row stands. No
    second row is added for the pair and no row is deleted. *)
Theorem C2_createOrUpdateVote_keeps_one_vote_per_voter_and_proposal (w : InMemory.World) :
  InMemory.LedgerInvariant w ->
  exists (vote : Vote.t) (w' : InMemory.World),
    createOrUpdateVote InMemory.collaborators voteMessage proposal weight voteSmsg w
    = (Resolved vote, w')
    /\ InMemory.LedgerInvariant w'
    /\ Vote.voter vote = VoteMessage.voter voteMessage
    /\ Vote.proposalId vote = Proposal.id proposal
    /\ Vote.optionId vote = VoteMessage.optionId voteMessage
    /\ Vote.weight vote = weight
    /\ match InMemory.lastVoteOf voteMessage proposal w with
       | None => InMemory.votes w' = (InMemory.votes w ++ [vote])%list
       | Some lastVote =>
           Vote.id vote = Vote.id lastVote
           /\ InMemory.votes w'
              = map (fun row => if Vote.id row =? Vote.id lastVote then vote else row)
                    (InMemory.votes w)
       end
    /\ incl (map Vote.id (InMemory.votes w)) (map Vote.id (InMemory.votes w')).
Proof.
  intros [Hpairs Hids Hnext].
  destruct (InMemory.lastVoteOf voteMessage proposal w) as [lastVote | ] eqn:Hfind.
  - exists (InMemory.rowOf (Vote.id lastVote)
              (InMemory.requestOf voteMessage proposal weight voteSmsg)).
    eexists.
    split; [apply (createOrUpdateVote_updates w lastVote Hfind) | ].
    destruct (find_some _ _ Hfind) as [Hin Hsame].
    destruct (overwrite_keeps_keys_and_ids (InMemory.votes w) lastVote Hids Hin Hsame)
      as [Hkeys Hsameids].
    split; [ | repeat split; try reflexivity].
    + constructor; cbn.
      * unfold InMemory.OneVotePerVoterAndProposal. rewrite Hkeys. exact Hpairs.
      * rewrite Hsameids. exact Hids.
      * apply Forall_forall. intros row Hrow. apply in_map_iff in Hrow.
        destruct Hrow as [old [Hold Hinold]]. rewrite Forall_forall in Hnext.
        subst row. unfold InMemory.overwrite.
        destruct (Vote.id old =? Vote.id lastVote) eqn:E.
        -- apply Z.eqb_eq in E. cbn. rewrite <- E. apply Hnext. exact Hinold.
        -- apply Hnext. exact Hinold.
    + cbn. rewrite Hsameids. apply incl_refl.
  - exists (InMemory.rowOf (InMemory.nextVoteId w)
              (InMemory.requestOf voteMessage proposal weight voteSmsg)).
    eexists.
    split; [apply (createOrUpdateVote_creates w Hfind) | ].
    rewrite Forall_forall in Hnext.
    split; [ | repeat split; try reflexivity].
    + constructor; cbn.
      * unfold InMemory.OneVotePerVoterAndProposal. rewrite map_app. cbn [map].
        apply NoDup_snoc; [exact Hpairs | ].
        intros Hin. apply in_map_iff in Hin. destruct Hin as [row [Hkey Hrow]].
        assert (Hfalse := find_none _ _ Hfind row Hrow).
        unfold InMemory.voterAndProposal, InMemory.rowOf in Hkey. cbn in Hkey.
        unfold InMemory.sameVoterAndProposal in Hfalse.
        injection Hkey as Hvoter Hproposal.
        rewrite Hvoter, Hproposal, String.eqb_refl, Z.eqb_refl in Hfalse. discriminate.
      * rewrite map_app. cbn [map]. apply NoDup_snoc; [exact Hids | ].
        intros Hin. apply in_map_iff in Hin. destruct Hin as [row [Hid Hrow]].
        specialize (Hnext row Hrow). cbn in Hid. lia.
      * apply Forall_forall. intros row Hrow. apply in_app_iff in Hrow.
        destruct Hrow as [Hrow | [Hrow | []]].
        -- specialize (Hnext row Hrow). lia.
        -- subst row. cbn. lia.
    + cbn. rewrite map_app. apply incl_appl. apply incl_refl.
Qed.

End Upsert.

(** ** The claims at sample inputs *)

(** C2 in memory: pAlice, who voted to keep the listing, now votes to remove
    it with weight 30; her row is overwritten and stays the only row. *)
Lemma C2_witness :
  exists (vote : Vote.t) (w' : InMemory.World),
    createOrUpdateVote InMemory.collaborators
      (VoteMessage.mk MP_VOTE "proposal-1" 1 "pAlice") Sample.itemVote 30%float
      (SmsgMessage.mk "msg-1" "pAlice" 2%float 1700000000000) Sample.worldWithVote
    = (Resolved vote, w')
    /\ InMemory.LedgerInvariant w'
    /\ InMemory.votes w' = [Vote.mk 1 1 "pAlice" 1 30%float "msg-1" 1700000000000].
Proof.
  assert (Hledger : InMemory.LedgerInvariant Sample.worldWithVote).
  { constructor; cbn.
    - constructor; [intros [] | constructor].
    - constructor; [intros [] | constructor].
    - constructor; [reflexivity | constructor]. }
  destruct (C2_createOrUpdateVote_keeps_one_vote_per_voter_and_proposal
              (VoteMessage.mk MP_VOTE "proposal-1" 1 "pAlice") Sample.itemVote 30%float
              (SmsgMessage.mk "msg-1" "pAlice" 2%float 1700000000000) Sample.worldWithVote
              Hledger)
    as [vote [w' [Hrun [Hinvariant [_ [_ [_ [_ [Hrows _]]]]]]]]].
  exists vote, w'. split; [exact Hrun | split; [exact Hinvariant | ]].
  cbn in Hrows. destruct Hrows as [_ Hrows]. rewrite Hrows.
  injection Hrun as Hvote _. rewrite <- Hvote. reflexivity.
Defined.

(** C3 in memory: a vote for a proposal that is not in the store. *)
Lemma C3_witness :
  processVoteReceivedEvent Sample.ToNumber Sample.env InMemory.collaborators
    (Sample.voteEvent "pAlice" "pAlice" "proposal-9" 1 2%float) Sample.world
  = (Resolved WAITING, Sample.world).
Proof.
  apply (C3_unknown_proposal_waits Sample.ToNumber Sample.env InMemory.collaborators
           (Sample.voteEvent "pAlice" "pAlice" "proposal-9" 1 2%float)
           (VoteMessage.mk MP_VOTE "proposal-9" 1 "pAlice")
           (NotFoundException "proposal-9") Sample.world).
  - split; reflexivity.
  - reflexivity.
Defined.

(** C10 in memory: a vote for the proposal that carries no ProposalResult. *)
Lemma C10_witness :
  processVoteReceivedEvent Sample.ToNumber Sample.env InMemory.collaborators
    (Sample.voteEvent "pAlice" "pAlice" "proposal-2" 1 2%float) Sample.world
  = (Resolved WAITING, Sample.world).
Proof.
  apply (C10_empty_proposal_results_wait Sample.ToNumber Sample.env InMemory.collaborators
           (Sample.voteEvent "pAlice" "pAlice" "proposal-2" 1 2%float)
           (VoteMessage.mk MP_VOTE "proposal-2" 1 "pAlice")
           Sample.withoutResults [Sample.localProfile] Sample.world).
  - split; reflexivity.
  - reflexivity.
  - reflexivity.
  - reflexivity.
  - reflexivity.
Defined.

(** C4 as the claim states it fails: with a Vote Ledger that refuses to
    write, the upsert of pAlice's vote is rejected, and the status that the
    listener reports for the message is WAITING, not PARSING_FAILED. *)
Lemma C4_counterexample :
  InMemory.findOneByHash "proposal-1" Sample.world = Resolved Sample.itemVote
  /\ createOrUpdateVote InMemory.ledgerDown
    (VoteMessage.mk MP_VOTE "proposal-1" 1 "pAlice") Sample.itemVote 25.5%float
    (SmsgMessage.mk "msg-1" "pAlice" 2%float 1700000000000) Sample.world
  = (Rejected (ServiceFailure "the vote could not be written"), Sample.world)
  /\ configureEventListeners Sample.ToNumber Sample.env InMemory.ledgerDown
       (Sample.voteEvent "pAlice" "pAlice" "proposal-1" 1 2%float) Sample.world
     = (Resolved tt, InMemory.setMessageStatuses Sample.world [("msg-1", WAITING)])
  /\ ~ In ("msg-1", PARSING_FAILED)
         (InMemory.messageStatuses
            (snd (configureEventListeners Sample.ToNumber Sample.env InMemory.ledgerDown
                    (Sample.voteEvent "pAlice" "pAlice" "proposal-1" 1 2%float)
                    Sample.world))).
Proof.
  split; [reflexivity | split; [reflexivity | split; [reflexivity | ]]].
  cbn. intros [H | []]. discriminate.
Qed.

(** C4 as the code has it, in memory: the rejected upsert of pAlice's vote
    ends in WAITING, which the listener reports. *)
Lemma C4_witness :
  processVoteReceivedEvent Sample.ToNumber Sample.env InMemory.ledgerDown
    (Sample.voteEvent "pAlice" "pAlice" "proposal-1" 1 2%float) Sample.world
  = (Resolved WAITING, Sample.world)
  /\ configureEventListeners Sample.ToNumber Sample.env InMemory.ledgerDown
       (Sample.voteEvent "pAlice" "pAlice" "proposal-1" 1 2%float) Sample.world
     = catch
         (InMemory.updateSmsgMessageStatus
            (SmsgMessage.mk "msg-1" "pAlice" 2%float 1700000000000) WAITING)
         (fun reason =>
            InMemory.updateSmsgMessageStatus
              (SmsgMessage.mk "msg-1" "pAlice" 2%float 1700000000000) PARSING_FAILED)
         Sample.world.
Proof.
  apply (C4_failed_upsert_or_recompute_waits Sample.ToNumber Sample.env InMemory.ledgerDown
           (Sample.voteEvent "pAlice" "pAlice" "proposal-1" 1 2%float)
           (VoteMessage.mk MP_VOTE "proposal-1" 1 "pAlice") Sample.itemVote 25.5%float
           Sample.world Sample.world).
  - constructor.
    + split; reflexivity.
    + reflexivity.
    + exists [Sample.localProfile]. split; reflexivity.
    + discriminate.
    + reflexivity.
    + reflexivity.
    + reflexivity.
  - left. exists (ServiceFailure "the vote could not be written"). reflexivity.
Defined.

(** C5 as the claim states it fails: pAlice is not a local profile, the
    proposal is known and the retention of her message is half a day; the
    event resolves to WAITING, not to PROCESSED. *)
Lemma C5_counterexample :
  isLocal (InMemory.profiles Sample.world) "pAlice" = false
  /\ InMemory.findOneByHash "proposal-1" Sample.world = Resolved Sample.itemVote
  /\ PrimFloat.ltb 0.5%float 1%float = true
  /\ processVoteReceivedEvent Sample.ToNumber Sample.env InMemory.collaborators
       (Sample.voteEvent "pAlice" "pAlice" "proposal-1" 1 0.5%float) Sample.world
     = (Resolved WAITING, Sample.world)
  /\ Resolved WAITING <> Resolved PROCESSED.
Proof.
  repeat split; try reflexivity. discriminate.
Qed.

(** C5 as the code has it, in memory. *)
Lemma C5_witness :
  processVoteReceivedEvent Sample.ToNumber Sample.env InMemory.collaborators
    (Sample.voteEvent "pAlice" "pAlice" "proposal-1" 1 0.5%float) Sample.world
  = (Resolved WAITING, Sample.world).
Proof.
  apply (C5_below_retention_waits Sample.ToNumber Sample.env InMemory.collaborators
           (Sample.voteEvent "pAlice" "pAlice" "proposal-1" 1 0.5%float)
           (VoteMessage.mk MP_VOTE "proposal-1" 1 "pAlice")
           Sample.itemVote [Sample.localProfile] Sample.world).
  - split; reflexivity.
  - reflexivity.
  - reflexivity.
  - reflexivity.
  - reflexivity.
Defined.

(** C7 as the claim states it fails: the claimed voter is the local profile
    pLocal, the proposal of the vote is not in the store, and the event
    resolves to WAITING, not to PROCESSED. *)
Lemma C7_counterexample :
  isLocal (InMemory.profiles Sample.world) "pLocal" = true
  /\ InMemory.findOneByHash "proposal-9" Sample.world = Rejected (NotFoundException "proposal-9")
  /\ processVoteReceivedEvent Sample.ToNumber Sample.env InMemory.collaborators
       (Sample.voteEvent "pLocal" "pLocal" "proposal-9" 1 2%float) Sample.world
     = (Resolved WAITING, Sample.world)
  /\ Resolved WAITING <> Resolved PROCESSED.
Proof.
  repeat split; try reflexivity. discriminate.
Qed.

(** C7 as the code has it, in memory. *)
Lemma C7_witness :
  processVoteReceivedEvent Sample.ToNumber Sample.env InMemory.collaborators
    (Sample.voteEvent "pLocal" "pLocal" "proposal-1" 1 2%float) Sample.world
  = (Resolved PROCESSED, Sample.world).
Proof.
  apply (C7_self_vote_for_known_proposal_is_skipped Sample.ToNumber Sample.env
           InMemory.collaborators
           (Sample.voteEvent "pLocal" "pLocal" "proposal-1" 1 2%float)
           (VoteMessage.mk MP_VOTE "proposal-1" 1 "pLocal")
           Sample.itemVote [Sample.localProfile] Sample.localProfile Sample.world).
  - split; reflexivity.
  - reflexivity.
  - reflexivity.
  - left. reflexivity.
  - reflexivity.
Defined.

(** C8 as the claim states it fails: pBob is not a local profile, his weight
    is zero, the retention is two days and the proposal is known, but its
    record carries no ProposalResult; the event resolves to WAITING, not to
    PROCESSED. *)
Lemma C8_counterexample :
  isLocal (InMemory.profiles Sample.world) "pBob" = false
  /\ InMemory.findOneByHash "proposal-2" Sample.world = Resolved Sample.withoutResults
  /\ ge 2%float 1%float = true
  /\ InMemory.getVoteWeight "pBob" Sample.world = Resolved 0%float
  /\ processVoteReceivedEvent Sample.ToNumber Sample.env InMemory.collaborators
       (Sample.voteEvent "pBob" "pBob" "proposal-2" 1 2%float) Sample.world
     = (Resolved WAITING, Sample.world)
  /\ Resolved WAITING <> Resolved PROCESSED.
Proof.
  repeat split; try reflexivity. discriminate.
Qed.

(** C8 as the code has it, in memory. *)
Lemma C8_witness :
  processVoteReceivedEvent Sample.ToNumber Sample.env InMemory.collaborators
    (Sample.voteEvent "pBob" "pBob" "proposal-1" 1 2%float) Sample.world
  = (Resolved PROCESSED, Sample.world).
Proof.
  apply (C8_zero_weight_is_skipped Sample.ToNumber Sample.env InMemory.collaborators
           (Sample.voteEvent "pBob" "pBob" "proposal-1" 1 2%float)
           (VoteMessage.mk MP_VOTE "proposal-1" 1 "pBob")
           Sample.itemVote [Sample.localProfile] 0%float Sample.world).
  - split; reflexivity.
  - reflexivity.
  - reflexivity.
  - reflexivity.
  - discriminate.
  - reflexivity.
  - reflexivity.
  - reflexivity.
Defined.

(** ** Whole runs in memory *)

(** pAlice's vote to remove the listing is stored and tallied; with the
    default quorum floor the listing stays. *)
Example ingestion_stores_and_tallies :
  let run := processVoteReceivedEvent Sample.ToNumber Sample.env InMemory.collaborators
               (Sample.voteEvent "pAlice" "pAlice" "proposal-1" 1 2%float) Sample.world in
  fst run = Resolved PROCESSED
  /\ InMemory.votes (snd run) = [Vote.mk 1 1 "pAlice" 1 25.5%float "msg-1" 1700000000000]
  /\ map Proposal.ProposalResults (InMemory.proposals (snd run))
     = [[Sample.snapshot 0 0 1 25.5]; []]
  /\ InMemory.listingItems (snd run) = [Sample.listing].
Proof. repeat split; reflexivity. Qed.

(** With a quorum floor of zero the same vote removes the flagged listing
    and its cryptocurrency address. *)
Example ingestion_removes_the_listing :
  let run := processVoteReceivedEvent Sample.ToNumber
               (ProcessEnv.mk (Some "0") None) InMemory.collaborators
               (Sample.voteEvent "pAlice" "pAlice" "proposal-1" 1 2%float) Sample.world in
  fst run = Resolved PROCESSED
  /\ InMemory.listingItems (snd run) = []
  /\ InMemory.cryptocurrencyAddresses (snd run) = [].
Proof. repeat split; reflexivity. Qed.

(** A second vote of the same voter for the same proposal replaces the
    first in the ledger and in the tally. *)
Example ingestion_overwrites_the_vote :
  let run := processVoteReceivedEvent Sample.ToNumber Sample.env InMemory.collaborators
               (Sample.voteEvent "pAlice" "pAlice" "proposal-1" 1 2%float)
               Sample.worldWithVote in
  fst run = Resolved PROCESSED
  /\ InMemory.votes (snd run) = [Vote.mk 1 1 "pAlice" 1 25.5%float "msg-1" 1700000000000]
  /\ map Proposal.ProposalResults (InMemory.proposals (snd run))
     = [[Sample.snapshot 0 0 1 25.5]; []].
Proof. repeat split; reflexivity. Qed.

(** A vote whose claimed voter is not the sender is rejected before any
    look-up, and the listener reports PARSING_FAILED for it. *)
Example spoofed_vote_is_rejected :
  processVoteReceivedEvent Sample.ToNumber Sample.env InMemory.collaborators
    (Sample.voteEvent "pMallory" "pAlice" "proposal-1" 1 2%float) Sample.world
  = (Rejected (MessageException "Voter does not match with sender."), Sample.world)
  /\ configureEventListeners Sample.ToNumber Sample.env InMemory.collaborators
       (Sample.voteEvent "pMallory" "pAlice" "proposal-1" 1 2%float) Sample.world
     = (Resolved tt, InMemory.setMessageStatuses Sample.world [("msg-1", PARSING_FAILED)]).
Proof. split; reflexivity. Qed.

(** When the recalculation fails after the upsert, the event resolves to
    WAITING and the row that the upsert wrote stays in the ledger. *)
Example failed_recalculation_keeps_the_vote :
  let run := processVoteReceivedEvent Sample.ToNumber Sample.env InMemory.tallyDown
               (Sample.voteEvent "pAlice" "pAlice" "proposal-1" 1 2%float) Sample.world in
  fst run = Resolved WAITING
  /\ InMemory.votes (snd run) = [Vote.mk 1 1 "pAlice" 1 25.5%float "msg-1" 1700000000000].
Proof. split; reflexivity. Qed.

(** The retention is the remaining time in days, rounded up. *)
Example retention_rounds_up :
  asWhole (daysRetention 1700000600000 1700000000000) = Some 1
  /\ asWhole (daysRetention 1700086400000 1700000000000) = Some 1
  /\ asWhole (daysRetention 1700086400001 1700000000000) = Some 2.
Proof. repeat split; vm_compute; reflexivity. Qed.

(** One millisecond after the expiry the retention is -0. *)
Example retention_just_after_the_expiry :
  Prim2SF (daysRetention 1699999999999 1700000000000) = S754_zero true.
Proof. vm_compute. reflexivity. Qed.

(** * Further properties of the vote engine *)

(** ** Promises *)

Section PromiseFacts.
Context {W : Type}.

Lemma await_resolved {A B : Type} (p : Promise W A) (k : A -> Promise W B)
    (w w' : W) (b : B) :
  await p k w = (Resolved b, w') ->
  exists (a : A) (w1 : W), p w = (Resolved a, w1) /\ k a w1 = (Resolved b, w').
Proof.
  unfold await. destruct (p w) as [[a | e] w1]; intros H.
  - exists a, w1. split; [reflexivity | exact H].
  - discriminate.
Qed.

Lemma ask_resolved {A : Type} (q : Query W A) (w w' : W) (a : A) :
  ask q w = (Resolved a, w') -> q w = Resolved a /\ w' = w.
Proof.
  unfold ask. intros H. injection H as H1 H2. split; congruence.
Qed.

End PromiseFacts.

(** ** More binary64 facts *)

Section NotANumber.

Lemma SFcompare_refl (x : spec_float) :
  x <> S754_nan -> SFcompare x x = Some Eq.
Proof.
  destruct x as [s | s | | s m e]; intros Hx; try congruence.
  - reflexivity.
  - destruct s; reflexivity.
  - cbn [SFcompare]. rewrite Z.compare_refl, Pos.compare_cont_refl.
    destruct s; reflexivity.
Qed.

(** A number that is not equal to itself is NaN, and nothing compares
    with it. *)
Lemma not_a_number (a : number) :
  strictEquals a a = false ->
  forall b : number,
    gt a b = false /\ gt b a = false /\ ge a b = false /\ ge b a = false.
Proof.
  unfold strictEquals, gt, ge. rewrite eqb_spec. intros Hnan b.
  rewrite !ltb_spec, !leb_spec.
  assert (Ha : Prim2SF a = S754_nan).
  { destruct (Prim2SF a) as [s | s | | s m e] eqn:E; try reflexivity;
      unfold SFeqb in Hnan; rewrite SFcompare_refl in Hnan by discriminate;
      discriminate. }
  rewrite Ha. unfold SFltb, SFleb.
  destruct (Prim2SF b) as [s | s | | s m e]; repeat split; reflexivity.
Qed.

End NotANumber.

(** ** Validation, outcomes and the listener *)

Section Outcomes.
Context {W : Type}.
Variable ToNumber : string -> number.
Variable process_env : ProcessEnv.t.
Variable svc : Collaborators W.

(** Enters the pipeline of an event that carries a vote of its sender. *)
Ltac enter_valid Hvalid :=
  let Hvote := fresh "Hvote" in
  let Hsender := fresh "Hsender" in
  destruct Hvalid as [Hvote Hsender];
  unfold processVoteReceivedEvent, isLocal in *;
  rewrite Hvote, <- Hsender, String.eqb_refl;
  cbn [negb].

(** X1. An event that carries no vote, or a vote whose claimed voter is not
    the sender, is rejected with a MessageException before any collaborator
    is consulted, and the listener reports PARSING_FAILED for it. *)
Theorem X1_invalid_event_is_rejected_before_any_lookup (event : MarketplaceEvent.t) (w : W) :
  (forall voteMessage, ~ carriesVote event voteMessage) ->
  (exists message,
      processVoteReceivedEvent ToNumber process_env svc event w
      = (Rejected (MessageException message), w))
  /\ configureEventListeners ToNumber process_env svc event w
     = smsgMessageService_updateSmsgMessageStatus svc
         (MarketplaceEvent.smsgMessage event) PARSING_FAILED w.
Proof.
  intros Hinvalid.
  assert (Hrejected : exists message,
             processVoteReceivedEvent ToNumber process_env svc event w
             = (Rejected (MessageException message), w)).
  { unfold processVoteReceivedEvent.
    destruct (MarketplaceMessage.mpaction (MarketplaceEvent.marketplaceMessage event))
      as [voteMessage | ] eqn:Hvote.
    - destruct (String.eqb (VoteMessage.voter voteMessage)
                  (SmsgMessage.from (MarketplaceEvent.smsgMessage event))) eqn:Hsender.
      + exfalso. apply (Hinvalid voteMessage). split; [exact Hvote | ].
        apply String.eqb_eq. exact Hsender.
      + eexists. reflexivity.
    - eexists. reflexivity. }
  split; [exact Hrejected | ].
  destruct Hrejected as [message Hrejected].
  unfold configureEventListeners, catch, await. rewrite Hrejected. reflexivity.
Qed.

(** X2. An event that carries a vote of its sender never makes
    [processVoteReceivedEvent] reject, whatever the collaborators do: it
    resolves, and to PROCESSED or to WAITING. *)
Theorem X2_valid_event_resolves_to_PROCESSED_or_WAITING
    (event : MarketplaceEvent.t) (voteMessage : VoteMessage.t) (w : W) :
  carriesVote event voteMessage ->
  exists (status : SmsgMessageStatus) (w' : W),
    processVoteReceivedEvent ToNumber process_env svc event w = (Resolved status, w')
    /\ (status = PROCESSED \/ status = WAITING).
Proof.
  intros Hvalid. enter_valid Hvalid. unfold catch at 1.
  match goal with
  | |- context [match ?p w with _ => _ end] => destruct (p w) as [[status | reason] w'] eqn:Hrun
  end.
  - exists status, w'. split; [reflexivity | ]. left.
    apply await_resolved in Hrun. destruct Hrun as [proposal [w1 [_ Hrun]]].
    apply await_resolved in Hrun. destruct Hrun as [profiles [w2 [_ Hrun]]].
    destruct (existsb _ profiles).
    + unfold resolve in Hrun. congruence.
    + destruct (isEmpty (Proposal.ProposalResults proposal)); [discriminate | ].
      destruct (ge _ _); [ | discriminate].
      apply await_resolved in Hrun. destruct Hrun as [weight [w3 [_ Hrun]]].
      apply await_resolved in Hrun. destruct Hrun as [done [w4 [_ Hrun]]].
      unfold resolve in Hrun. congruence.
  - exists WAITING, w'. split; [reflexivity | right; reflexivity].
Qed.

(** X3. When the message-status collaborator accepts every report, the
    listener resolves for every event, valid or not, and reports one status:
    the status that the pipeline resolved to, or PARSING_FAILED when the
    pipeline rejected. *)
Theorem X3_listener_reports_one_status (event : MarketplaceEvent.t) (w : W) :
  (forall status w0,
      fst (smsgMessageService_updateSmsgMessageStatus svc
             (MarketplaceEvent.smsgMessage event) status w0) = Resolved tt) ->
  let run := processVoteReceivedEvent ToNumber process_env svc event w in
  configureEventListeners ToNumber process_env svc event w
  = smsgMessageService_updateSmsgMessageStatus svc (MarketplaceEvent.smsgMessage event)
      (match fst run with
       | Resolved status => status
       | Rejected _ => PARSING_FAILED
       end)
      (snd run)
  /\ fst (configureEventListeners ToNumber process_env svc event w) = Resolved tt.
Proof.
  intros Haccepts run.
  assert (Hlistener :
            configureEventListeners ToNumber process_env svc event w
            = smsgMessageService_updateSmsgMessageStatus svc (MarketplaceEvent.smsgMessage event)
                (match fst run with
                 | Resolved status => status
                 | Rejected _ => PARSING_FAILED
                 end)
                (snd run)).
  { unfold configureEventListeners, catch, await. subst run.
    destruct (processVoteReceivedEvent ToNumber process_env svc event w)
      as [[status | reason] w1]; cbn [fst snd]; [ | reflexivity].
    specialize (Haccepts status w1).
    destruct (smsgMessageService_updateSmsgMessageStatus svc
                (MarketplaceEvent.smsgMessage event) status w1) as [[done | reason] w2];
      [reflexivity | discriminate]. }
  split; [exact Hlistener | ]. rewrite Hlistener. apply Haccepts.
Qed.

End Outcomes.

(** X1 in memory: an event without a vote. *)
Lemma X1_witness :
  (exists message,
      processVoteReceivedEvent Sample.ToNumber Sample.env InMemory.collaborators
        Fixture.emptyEvent Fixture.world
      = (Rejected (MessageException message), Fixture.world))
  /\ configureEventListeners Sample.ToNumber Sample.env InMemory.collaborators
       Fixture.emptyEvent Fixture.world
     = InMemory.updateSmsgMessageStatus
         (SmsgMessage.mk "msg-2" "pAlice" 2%float 1700000000000) PARSING_FAILED Fixture.world.
Proof.
  apply (X1_invalid_event_is_rejected_before_any_lookup Sample.ToNumber Sample.env
           InMemory.collaborators Fixture.emptyEvent Fixture.world).
  intros voteMessage [Hvote _]. discriminate Hvote.
Defined.

(** X2 in memory: pAlice's vote to remove the listing. *)
Lemma X2_witness :
  exists (status : SmsgMessageStatus) (w' : InMemory.World),
    processVoteReceivedEvent Sample.ToNumber Sample.env InMemory.collaborators
      (Sample.voteEvent "pAlice" "pAlice" "proposal-1" 1 2%float) Fixture.world
    = (Resolved status, w')
    /\ (status = PROCESSED \/ status = WAITING).
Proof.
  apply (X2_valid_event_resolves_to_PROCESSED_or_WAITING Sample.ToNumber Sample.env
           InMemory.collaborators
           (Sample.voteEvent "pAlice" "pAlice" "proposal-1" 1 2%float)
           (VoteMessage.mk MP_VOTE "proposal-1" 1 "pAlice") Fixture.world).
  split; reflexivity.
Defined.

(** X3 in memory: the status store accepts every report; a spoofed vote is
    reported as PARSING_FAILED. *)
Lemma X3_witness :
  configureEventListeners Sample.ToNumber Sample.env InMemory.collaborators
    (Sample.voteEvent "pMallory" "pAlice" "proposal-1" 1 2%float) Fixture.world
  = InMemory.updateSmsgMessageStatus
      (SmsgMessage.mk "msg-1" "pMallory" 2%float 1700000000000) PARSING_FAILED Fixture.world
  /\ fst (configureEventListeners Sample.ToNumber Sample.env InMemory.collaborators
            (Sample.voteEvent "pMallory" "pAlice" "proposal-1" 1 2%float) Fixture.world)
     = Resolved tt.
Proof.
  apply (X3_listener_reports_one_status Sample.ToNumber Sample.env InMemory.collaborators
           (Sample.voteEvent "pMallory" "pAlice" "proposal-1" 1 2%float) Fixture.world).
  intros status w0. reflexivity.
Defined.

(** ** More of the resolution policy *)

Section PolicyEdges.
Variable ToNumber : string -> number.
Variable process_env : ProcessEnv.t.

Lemma find_filter_implied {A : Type} (f g : A -> bool) (l : list A) :
  (forall x, f x = true -> g x = true) ->
  find f (filter g l) = find f l.
Proof.
  intros Himplied. induction l as [ | x l IH]; [reflexivity | ].
  cbn [filter find]. destruct (g x) eqn:Hg.
  - cbn [find]. rewrite IH. reflexivity.
  - destruct (f x) eqn:Hf; [ | exact IH].
    rewrite (Himplied x Hf) in Hg. discriminate.
Qed.

(** X4. When the snapshot lacks the option result of option 0 or of
    option 1, [shouldRemoveListingItem] answers false, whatever the other
    result holds. *)
Theorem X4_missing_option_result_never_removes (proposalResult : ProposalResult.t) :
  find (hasOptionId 0) (ProposalResult.ProposalOptionResults proposalResult) = None
  \/ find (hasOptionId 1) (ProposalResult.ProposalOptionResults proposalResult) = None ->
  shouldRemoveListingItem ToNumber process_env proposalResult = false.
Proof.
  unfold shouldRemoveListingItem, hasOptionId. intros Hnone.
  destruct (find (fun r => _ =? 1) _) as [removeOptionResult | ]; [ | reflexivity].
  destruct (find (fun r => _ =? 0) _) as [okOptionResult | ]; [ | reflexivity].
  destruct Hnone; discriminate.
Qed.

(** X5. The verdict depends on the option results of options 0 and 1 only:
    dropping every option result of another option from the snapshot does
    not change it. *)
Theorem X5_other_option_results_are_ignored (proposalResult : ProposalResult.t) :
  shouldRemoveListingItem ToNumber process_env
    (ProposalResult.mk
       (filter (fun proposalOptionResult =>
                  hasOptionId 0 proposalOptionResult || hasOptionId 1 proposalOptionResult)
               (ProposalResult.ProposalOptionResults proposalResult)))
  = shouldRemoveListingItem ToNumber process_env proposalResult.
Proof.
  unfold shouldRemoveListingItem. cbn [ProposalResult.ProposalOptionResults].
  rewrite !find_filter_implied; [reflexivity | | ];
    intros x Hx; unfold hasOptionId; rewrite Hx; first [reflexivity | apply orb_true_r].
Qed.

(** X6. When MINIMUM_REQUIRED_VOTES is set to a string that does not
    convert to a number, the quorum floor is NaN and
    [shouldRemoveListingItem] answers false for every snapshot. *)
Theorem X6_quorum_floor_that_is_not_a_number_never_removes
    (proposalResult : ProposalResult.t) :
  strictEquals (minimumRequiredVotes ToNumber process_env)
               (minimumRequiredVotes ToNumber process_env) = false ->
  shouldRemoveListingItem ToNumber process_env proposalResult = false.
Proof.
  intros Hnan. unfold shouldRemoveListingItem.
  destruct (find _ _) as [removeOptionResult | ]; [ | reflexivity].
  destruct (find _ _) as [okOptionResult | ]; [ | reflexivity].
  destruct (not_a_number _ Hnan
              (ProposalOptionResult.voters okOptionResult
               + ProposalOptionResult.voters removeOptionResult)%float)
    as [_ [Hgt _]].
  rewrite Hgt. reflexivity.
Qed.

End PolicyEdges.

(** X4 at a snapshot that holds the remove option only. *)
Lemma X4_witness :
  shouldRemoveListingItem Sample.ToNumber Fixture.envQuorum0
    (ProposalResult.mk [ProposalOptionResult.mk Sample.remove 5000 30]) = false.
Proof.
  apply (X4_missing_option_result_never_removes Sample.ToNumber Fixture.envQuorum0
           (ProposalResult.mk [ProposalOptionResult.mk Sample.remove 5000 30])).
  left. reflexivity.
Defined.

(** X6 with the quorum floor set to a word. *)
Lemma X6_witness :
  shouldRemoveListingItem Sample.ToNumber Fixture.envQuorumText
    (Sample.snapshot 1 1 5000 30) = false.
Proof.
  apply (X6_quorum_floor_that_is_not_a_number_never_removes Sample.ToNumber
           Fixture.envQuorumText (Sample.snapshot 1 1 5000 30)).
  reflexivity.
Defined.

Example only_the_first_result_of_an_option_counts :
  shouldRemoveListingItem Sample.ToNumber Fixture.envQuorum0
    (ProposalResult.mk
       [ ProposalOptionResult.mk Sample.keep 1 10;
         ProposalOptionResult.mk Sample.remove 1 30;
         ProposalOptionResult.mk Sample.remove 1 1 ]) = true
  /\ shouldRemoveListingItem Sample.ToNumber Fixture.envQuorum0
       (ProposalResult.mk
          [ ProposalOptionResult.mk Sample.keep 1 10;
            ProposalOptionResult.mk Sample.remove 1 1;
            ProposalOptionResult.mk Sample.remove 1 30 ]) = false.
Proof. split; reflexivity. Qed.

(** ** More of the ingestion pipeline *)

Section PipelineEdges.
Context {W : Type}.
Variable ToNumber : string -> number.
Variable process_env : ProcessEnv.t.
Variable svc : Collaborators W.

Ltac enter_valid Hvalid :=
  let Hvote := fresh "Hvote" in
  let Hsender := fresh "Hsender" in
  destruct Hvalid as [Hvote Hsender];
  unfold processVoteReceivedEvent, isLocal in *;
  rewrite Hvote, <- Hsender, String.eqb_refl;
  cbn [negb]; unfold catch at 1, await, ask.

(** X7. For a known proposal and a voter that is not a local profile, a
    retention for which [daysretention >= 1] is false, a retention that is
    not a number included, makes the pipeline throw: the event resolves to
    WAITING and the state of every collaborator stays as it was. *)
Theorem X7_retention_that_is_not_at_least_one_waits
    (event : MarketplaceEvent.t) (voteMessage : VoteMessage.t)
    (proposal : Proposal.t) (profiles : list Profile.t) (w : W) :
  carriesVote event voteMessage ->
  proposalService_findOneByHash svc (VoteMessage.proposalHash voteMessage) w = Resolved proposal ->
  profileService_findAll svc w = Resolved profiles ->
  isLocal profiles (VoteMessage.voter voteMessage) = false ->
  ge (SmsgMessage.daysretention (MarketplaceEvent.smsgMessage event)) 1%float = false
  \/ strictEquals (SmsgMessage.daysretention (MarketplaceEvent.smsgMessage event))
                  (SmsgMessage.daysretention (MarketplaceEvent.smsgMessage event)) = false ->
  processVoteReceivedEvent ToNumber process_env svc event w = (Resolved WAITING, w).
Proof.
  intros Hvalid Hfind Hprofiles Hlocal Hretention.
  assert (Hge : ge (SmsgMessage.daysretention (MarketplaceEvent.smsgMessage event)) 1%float
                = false).
  { destruct Hretention as [Hge | Hnan]; [exact Hge | ].
    destruct (not_a_number _ Hnan 1%float) as [_ [_ [Hge _]]]. exact Hge. }
  enter_valid Hvalid. rewrite Hfind, Hprofiles, Hlocal, Hge.
  destruct (isEmpty (Proposal.ProposalResults proposal)); reflexivity.
Qed.

(** X8. For a known proposal with a ProposalResult, a voter that is not a
    local profile and a retention of at least 1, a weight for which
    [weight > 0] is false (zero, negative or not a number) is skipped: the
    event resolves to PROCESSED and the state of every collaborator stays
    as it was. *)
Theorem X8_weight_that_is_not_positive_is_skipped
    (event : MarketplaceEvent.t) (voteMessage : VoteMessage.t)
    (proposal : Proposal.t) (profiles : list Profile.t) (weight : number) (w : W) :
  carriesVote event voteMessage ->
  proposalService_findOneByHash svc (VoteMessage.proposalHash voteMessage) w = Resolved proposal ->
  profileService_findAll svc w = Resolved profiles ->
  isLocal profiles (VoteMessage.voter voteMessage) = false ->
  Proposal.ProposalResults proposal <> [] ->
  ge (SmsgMessage.daysretention (MarketplaceEvent.smsgMessage event)) 1%float = true ->
  voteService_getVoteWeight svc (VoteMessage.voter voteMessage) w = Resolved weight ->
  gt weight 0%float = false ->
  processVoteReceivedEvent ToNumber process_env svc event w = (Resolved PROCESSED, w).
Proof.
  intros Hvalid Hfind Hprofiles Hlocal Hresults Hretention Hweight Hnotpositive.
  enter_valid Hvalid. rewrite Hfind, Hprofiles, Hlocal.
  destruct (Proposal.ProposalResults proposal) as [ | result results]; [congruence | ].
  cbn [isEmpty]. rewrite Hretention, Hweight, Hnotpositive. reflexivity.
Qed.

(** Brings the pipeline of a tallied event to its resolution step. *)
Ltac enter_resolution Htallied :=
  let Hreaches := fresh "Hreaches" in
  let vote := fresh "vote" in
  let w1 := fresh "w1" in
  let Hupsert := fresh "Hupsert" in
  let Hrecalculation := fresh "Hrecalculation" in
  destruct Htallied as [Hreaches [vote [w1 [Hupsert Hrecalculation]]]];
  destruct Hreaches
    as [Hvalid Hfind [profiles [Hprofiles Hlocal]] Hresults Hretention Hweight Hpositive];
  enter_valid Hvalid; rewrite Hfind, Hprofiles, Hlocal;
  match goal with
  | |- context [isEmpty (Proposal.ProposalResults ?p)] =>
      destruct (Proposal.ProposalResults p) as [ | ? ?]; [congruence | ]
  end;
  cbn [isEmpty]; rewrite Hretention, Hweight, Hpositive, Hupsert, Hrecalculation.

(** X9. When the proposal is not an item vote, or the policy does not ask
    for the removal, ingestion ends with the recalculation: the event
    resolves to PROCESSED, the state is the one the recalculation left, and
    no listing is looked up or destroyed. *)
Theorem X9_no_removal_without_item_vote_and_verdict
    (event : MarketplaceEvent.t) (voteMessage : VoteMessage.t) (proposal : Proposal.t)
    (weight : number) (w : W) (proposalResult : ProposalResult.t) (w2 : W) :
  Tallied svc event voteMessage proposal weight w proposalResult w2 ->
  Proposal.type proposal <> ITEM_VOTE
  \/ shouldRemoveListingItem ToNumber process_env proposalResult = false ->
  processVoteReceivedEvent ToNumber process_env svc event w = (Resolved PROCESSED, w2).
Proof.
  intros Htallied Hkeep. enter_resolution Htallied.
  destruct Hkeep as [Htype | Hverdict].
  - destruct (Proposal.type proposal); [congruence | reflexivity].
  - rewrite Hverdict, andb_false_r. reflexivity.
Qed.

(** X10. When the policy asks for the removal and the look-up of the
    flagged listing gives nothing to destroy (the look-up is rejected, the
    listing does not exist, or its id is 0), the event still resolves to
    PROCESSED and nothing is destroyed: the state is the one the
    recalculation left. *)
Theorem X10_removal_of_a_missing_listing_is_a_no_op
    (event : MarketplaceEvent.t) (voteMessage : VoteMessage.t) (proposal : Proposal.t)
    (weight : number) (w : W) (proposalResult : ProposalResult.t) (w2 : W)
    (flaggedItem : FlaggedItem.t) :
  Tallied svc event voteMessage proposal weight w proposalResult w2 ->
  Proposal.type proposal = ITEM_VOTE ->
  shouldRemoveListingItem ToNumber process_env proposalResult = true ->
  Proposal.FlaggedItem proposal = Some flaggedItem ->
  nothingToDestroy svc (FlaggedItem.listingItemId flaggedItem) w2 ->
  processVoteReceivedEvent ToNumber process_env svc event w = (Resolved PROCESSED, w2).
Proof.
  intros Htallied Htype Hverdict Hflagged Hnothing. enter_resolution Htallied.
  rewrite Htype, Hverdict, Hflagged. cbn [ProposalType_eqb andb].
  unfold nothingToDestroy in Hnothing.
  unfold catch, ListingItemService_findOne, await, ask, resolve, throw.
  destruct (listingItemRepo_findOne svc (FlaggedItem.listingItemId flaggedItem) false w2)
    as [[listingItem | ] | reason]; try reflexivity.
  rewrite Hnothing. reflexivity.
Qed.

(** X11. When the policy asks for the removal and the flagged listing is
    found with an id other than 0, the pipeline destroys the listing that
    was found: the event resolves to PROCESSED when [destroy] resolves and
    to WAITING when it rejects, in the state that [destroy] left. *)
Theorem X11_removal_destroys_the_listing_that_was_found
    (event : MarketplaceEvent.t) (voteMessage : VoteMessage.t) (proposal : Proposal.t)
    (weight : number) (w : W) (proposalResult : ProposalResult.t) (w2 : W)
    (flaggedItem : FlaggedItem.t) (listingItem : ListingItem.t) :
  Tallied svc event voteMessage proposal weight w proposalResult w2 ->
  Proposal.type proposal = ITEM_VOTE ->
  shouldRemoveListingItem ToNumber process_env proposalResult = true ->
  Proposal.FlaggedItem proposal = Some flaggedItem ->
  listingItemRepo_findOne svc (FlaggedItem.listingItemId flaggedItem) false w2
  = Resolved (Some listingItem) ->
  ListingItem.id listingItem <> 0 ->
  processVoteReceivedEvent ToNumber process_env svc event w
  = match ListingItemService_destroy svc (ListingItem.id listingItem) w2 with
    | (Resolved _, w3) => (Resolved PROCESSED, w3)
    | (Rejected _, w3) => (Resolved WAITING, w3)
    end.
Proof.
  intros Htallied Htype Hverdict Hflagged Hfound Hid. enter_resolution Htallied.
  rewrite Htype, Hverdict, Hflagged. cbn [ProposalType_eqb andb].
  unfold catch. unfold ListingItemService_findOne at 1. unfold await, ask, resolve.
  rewrite Hfound. unfold truthy.
  destruct (ListingItem.id listingItem =? 0) eqn:E; [apply Z.eqb_eq in E; congruence | ].
  cbn [negb].
  destruct (ListingItemService_destroy svc (ListingItem.id listingItem) w2) as [[done | reason] w3];
    reflexivity.
Qed.

(** X12. When the policy asks for the removal of an item vote that carries
    no flagged item, the pipeline throws after the vote was written and the
    result recalculated: the event resolves to WAITING and the state is the
    one the recalculation left. *)
Theorem X12_item_vote_without_flagged_item_waits
    (event : MarketplaceEvent.t) (voteMessage : VoteMessage.t) (proposal : Proposal.t)
    (weight : number) (w : W) (proposalResult : ProposalResult.t) (w2 : W) :
  Tallied svc event voteMessage proposal weight w proposalResult w2 ->
  Proposal.type proposal = ITEM_VOTE ->
  shouldRemoveListingItem ToNumber process_env proposalResult = true ->
  Proposal.FlaggedItem proposal = None ->
  processVoteReceivedEvent ToNumber process_env svc event w = (Resolved WAITING, w2).
Proof.
  intros Htallied Htype Hverdict Hflagged. enter_resolution Htallied.
  rewrite Htype, Hverdict, Hflagged. reflexivity.
Qed.

End PipelineEdges.

(** Proves that a sample event is tallied, by running the collaborators. *)
Ltac run_tally :=
  constructor;
  [ constructor;
    [ split; reflexivity
    | reflexivity
    | eexists; split; reflexivity
    | discriminate
    | reflexivity
    | reflexivity
    | reflexivity ]
  | eexists; eexists; split; lazy; reflexivity ].

(** X7 in memory: pAlice's vote arrives with a retention that is not a
    number. *)
Lemma X7_witness :
  processVoteReceivedEvent Sample.ToNumber Sample.env InMemory.collaborators
    (Sample.voteEvent "pAlice" "pAlice" "proposal-1" 1 nan) Fixture.world
  = (Resolved WAITING, Fixture.world).
Proof.
  apply (X7_retention_that_is_not_at_least_one_waits Sample.ToNumber Sample.env
           InMemory.collaborators
           (Sample.voteEvent "pAlice" "pAlice" "proposal-1" 1 nan)
           (VoteMessage.mk MP_VOTE "proposal-1" 1 "pAlice")
           Sample.itemVote [Sample.localProfile] Fixture.world).
  - split; reflexivity.
  - reflexivity.
  - reflexivity.
  - reflexivity.
  - right. reflexivity.
Defined.

(** X8 in memory: the Weight Oracle gives pCarol a weight of -5. *)
Lemma X8_witness :
  processVoteReceivedEvent Sample.ToNumber Sample.env InMemory.collaborators
    (Sample.voteEvent "pCarol" "pCarol" "proposal-1" 1 2%float) Fixture.world
  = (Resolved PROCESSED, Fixture.world).
Proof.
  apply (X8_weight_that_is_not_positive_is_skipped Sample.ToNumber Sample.env
           InMemory.collaborators
           (Sample.voteEvent "pCarol" "pCarol" "proposal-1" 1 2%float)
           (VoteMessage.mk MP_VOTE "proposal-1" 1 "pCarol")
           Sample.itemVote [Sample.localProfile] (-5)%float Fixture.world).
  - split; reflexivity.
  - reflexivity.
  - reflexivity.
  - reflexivity.
  - discriminate.
  - reflexivity.
  - reflexivity.
  - reflexivity.
Defined.

(** X9 in memory: with a quorum floor of zero, pAlice's vote on a public
    vote is stored and tallied, and both listings stay. *)
Lemma X9_witness :
  exists w2 : InMemory.World,
    processVoteReceivedEvent Sample.ToNumber Fixture.envQuorum0 InMemory.collaborators
      (Sample.voteEvent "pAlice" "pAlice" "proposal-3" 1 2%float) Fixture.world
    = (Resolved PROCESSED, w2)
    /\ InMemory.listingItems w2 = [Sample.listing; Fixture.listing0].
Proof.
  eexists. split.
  - eapply (X9_no_removal_without_item_vote_and_verdict Sample.ToNumber Fixture.envQuorum0
              InMemory.collaborators
              (Sample.voteEvent "pAlice" "pAlice" "proposal-3" 1 2%float)
              (VoteMessage.mk MP_VOTE "proposal-3" 1 "pAlice")
              Fixture.publicVote 25.5%float Fixture.world).
    + run_tally.
    + left. discriminate.
  - reflexivity.
Defined.

(** X10 in memory: the flagged listing 99 does not exist. *)
Lemma X10_witness :
  exists w2 : InMemory.World,
    processVoteReceivedEvent Sample.ToNumber Fixture.envQuorum0 InMemory.collaborators
      (Sample.voteEvent "pAlice" "pAlice" "proposal-6" 1 2%float) Fixture.world
    = (Resolved PROCESSED, w2)
    /\ InMemory.listingItems w2 = [Sample.listing; Fixture.listing0].
Proof.
  eexists. split.
  - eapply (X10_removal_of_a_missing_listing_is_a_no_op Sample.ToNumber Fixture.envQuorum0
              InMemory.collaborators
              (Sample.voteEvent "pAlice" "pAlice" "proposal-6" 1 2%float)
              (VoteMessage.mk MP_VOTE "proposal-6" 1 "pAlice")
              Fixture.itemVoteOnMissingListing 25.5%float Fixture.world _ _
              (FlaggedItem.mk 99)).
    + run_tally.
    + reflexivity.
    + reflexivity.
    + reflexivity.
    + exact I.
  - reflexivity.
Defined.

(** X11 in memory: the flagged listing 7 is found and destroyed; listing 0
    stays. *)
Lemma X11_witness :
  exists (proposalResult : ProposalResult.t) (w2 : InMemory.World),
    Tallied InMemory.collaborators
      (Sample.voteEvent "pAlice" "pAlice" "proposal-1" 1 2%float)
      (VoteMessage.mk MP_VOTE "proposal-1" 1 "pAlice")
      Sample.itemVote 25.5%float Fixture.world proposalResult w2
    /\ processVoteReceivedEvent Sample.ToNumber Fixture.envQuorum0 InMemory.collaborators
         (Sample.voteEvent "pAlice" "pAlice" "proposal-1" 1 2%float) Fixture.world
       = match ListingItemService_destroy InMemory.collaborators 7 w2 with
         | (Resolved _, w3) => (Resolved PROCESSED, w3)
         | (Rejected _, w3) => (Resolved WAITING, w3)
         end
    /\ InMemory.listingItems
         (snd (ListingItemService_destroy InMemory.collaborators 7 w2))
       = [Fixture.listing0].
Proof.
  eexists. eexists.
  match goal with |- ?T /\ _ => assert (Htallied : T) by run_tally end.
  split; [exact Htallied | split].
  - apply (X11_removal_destroys_the_listing_that_was_found Sample.ToNumber
             Fixture.envQuorum0 InMemory.collaborators
             (Sample.voteEvent "pAlice" "pAlice" "proposal-1" 1 2%float)
             (VoteMessage.mk MP_VOTE "proposal-1" 1 "pAlice")
             Sample.itemVote 25.5%float Fixture.world _ _
             (FlaggedItem.mk 7) Sample.listing Htallied).
    + reflexivity.
    + reflexivity.
    + reflexivity.
    + reflexivity.
    + discriminate.
  - reflexivity.
Defined.

(** X12 in memory: an item vote without a flagged item; the vote stays in
    the ledger. *)
Lemma X12_witness :
  exists w2 : InMemory.World,
    processVoteReceivedEvent Sample.ToNumber Fixture.envQuorum0 InMemory.collaborators
      (Sample.voteEvent "pAlice" "pAlice" "proposal-4" 1 2%float) Fixture.world
    = (Resolved WAITING, w2)
    /\ InMemory.votes w2 = [Vote.mk 1 4 "pAlice" 1 25.5%float "msg-1" 1700000000000].
Proof.
  eexists. split.
  - eapply (X12_item_vote_without_flagged_item_waits Sample.ToNumber Fixture.envQuorum0
              InMemory.collaborators
              (Sample.voteEvent "pAlice" "pAlice" "proposal-4" 1 2%float)
              (VoteMessage.mk MP_VOTE "proposal-4" 1 "pAlice")
              Fixture.itemVoteWithoutFlag 25.5%float Fixture.world).
    + run_tally.
    + reflexivity.
    + reflexivity.
    + reflexivity.
  - reflexivity.
Defined.

(** A flagged listing with id 0 is found but never destroyed. *)
Example listing_with_id_0_is_not_destroyed :
  let run := processVoteReceivedEvent Sample.ToNumber Fixture.envQuorum0 InMemory.collaborators
               (Sample.voteEvent "pAlice" "pAlice" "proposal-5" 1 2%float) Fixture.world in
  fst run = Resolved PROCESSED
  /\ InMemory.listingItems (snd run) = [Sample.listing; Fixture.listing0].
Proof. split; reflexivity. Qed.

(** ** More of the vote upsert *)

Section UpsertEdges.
Context {W : Type}.
Variable svc : Collaborators W.

(** X13. A vote that [createOrUpdateVote] returns is the row of exactly one
    write: of [voteService.create] when the look-up of the last vote was
    rejected, for whatever reason, and of [voteService.update] on the id of
    the vote that the look-up found otherwise. *)
Theorem X13_upsert_returns_the_row_of_one_write
    (voteMessage : VoteMessage.t) (proposal : Proposal.t) (weight : number)
    (voteSmsg : SmsgMessage.t) (w : W) (vote : Vote.t) (w' : W) :
  createOrUpdateVote svc voteMessage proposal weight voteSmsg w = (Resolved vote, w') ->
  match voteService_findOneByVoterAndProposalId svc
          (VoteMessage.voter voteMessage) (Proposal.id proposal) w with
  | Rejected _ =>
      exists voteRequest,
        voteFactory_getModel svc voteMessage proposal weight true voteSmsg w
        = Resolved voteRequest
        /\ voteService_create svc voteRequest w = (Resolved (Some vote), w')
  | Resolved lastVote =>
      exists voteRequest,
        voteFactory_getModel svc voteMessage proposal weight false voteSmsg w
        = Resolved voteRequest
        /\ voteService_update svc (Vote.id lastVote) voteRequest w = (Resolved (Some vote), w')
  end.
Proof.
  unfold createOrUpdateVote, catch, await, ask, resolve, throw.
  destruct (voteService_findOneByVoterAndProposalId svc _ _ w) as [lastVote | reason].
  - destruct (voteFactory_getModel svc voteMessage proposal weight false voteSmsg w)
      as [voteRequest | reason]; [ | discriminate].
    destruct (voteService_update svc (Vote.id lastVote) voteRequest w)
      as [[[written | ] | reason] w1] eqn:Hwrite; try discriminate.
    intros H. injection H as Hvote Hstate. subst. exists voteRequest.
    split; [reflexivity | exact Hwrite].
  - destruct (voteFactory_getModel svc voteMessage proposal weight true voteSmsg w)
      as [voteRequest | reason']; [ | discriminate].
    destruct (voteService_create svc voteRequest w)
      as [[[written | ] | reason'] w1] eqn:Hwrite; try discriminate.
    intros H. injection H as Hvote Hstate. subst. exists voteRequest.
    split; [reflexivity | exact Hwrite].
Qed.

(** X14. When the factory rejects the request, [createOrUpdateVote] rejects
    with the factory's reason and writes nothing. *)
Theorem X14_upsert_writes_nothing_when_the_factory_rejects
    (voteMessage : VoteMessage.t) (proposal : Proposal.t) (weight : number)
    (voteSmsg : SmsgMessage.t) (w : W) (reason : Exception) :
  voteFactory_getModel svc voteMessage proposal weight
    (createFlag svc voteMessage proposal w) voteSmsg w = Rejected reason ->
  createOrUpdateVote svc voteMessage proposal weight voteSmsg w = (Rejected reason, w).
Proof.
  unfold createFlag, createOrUpdateVote, catch, await, ask, resolve.
  destruct (voteService_findOneByVoterAndProposalId svc _ _ w) as [lastVote | reason'];
    intros Hfactory; rewrite Hfactory; reflexivity.
Qed.

(** X15. When the write resolves without a row, [createOrUpdateVote]
    rejects with a MessageException, in the state the write left. *)
Theorem X15_upsert_rejects_an_empty_write
    (voteMessage : VoteMessage.t) (proposal : Proposal.t) (weight : number)
    (voteSmsg : SmsgMessage.t) (voteRequest : VoteRequest.t) (w w' : W) :
  voteFactory_getModel svc voteMessage proposal weight
    (createFlag svc voteMessage proposal w) voteSmsg w = Resolved voteRequest ->
  match voteService_findOneByVoterAndProposalId svc
          (VoteMessage.voter voteMessage) (Proposal.id proposal) w with
  | Rejected _ => voteService_create svc voteRequest w
  | Resolved lastVote => voteService_update svc (Vote.id lastVote) voteRequest w
  end = (Resolved None, w') ->
  createOrUpdateVote svc voteMessage proposal weight voteSmsg w
  = (Rejected (MessageException "Vote wasn't saved or updated properly. Return val is empty."),
     w').
Proof.
  unfold createFlag, createOrUpdateVote, catch, await, ask, resolve, throw.
  destruct (voteService_findOneByVoterAndProposalId svc _ _ w) as [lastVote | reason'];
    intros Hfactory Hwrite; rewrite Hfactory, Hwrite; reflexivity.
Qed.

End UpsertEdges.

(** X13 in memory: pAlice's second vote is the row of an update of row 1. *)
Lemma X13_witness :
  exists (vote : Vote.t) (w' : InMemory.World) (voteRequest : VoteRequest.t),
    createOrUpdateVote InMemory.collaborators
      (VoteMessage.mk MP_VOTE "proposal-1" 1 "pAlice") Sample.itemVote 30%float
      (SmsgMessage.mk "msg-1" "pAlice" 2%float 1700000000000) Sample.worldWithVote
    = (Resolved vote, w')
    /\ InMemory.update 1 voteRequest Sample.worldWithVote = (Resolved (Some vote), w').
Proof.
  destruct (createOrUpdateVote InMemory.collaborators
              (VoteMessage.mk MP_VOTE "proposal-1" 1 "pAlice") Sample.itemVote 30%float
              (SmsgMessage.mk "msg-1" "pAlice" 2%float 1700000000000) Sample.worldWithVote)
    as [[vote | reason] w'] eqn:Hrun.
  - exists vote, w'.
    destruct (X13_upsert_returns_the_row_of_one_write InMemory.collaborators
                (VoteMessage.mk MP_VOTE "proposal-1" 1 "pAlice") Sample.itemVote 30%float
                (SmsgMessage.mk "msg-1" "pAlice" 2%float 1700000000000)
                Sample.worldWithVote vote w' Hrun) as [voteRequest [_ Hwrite]].
    exists voteRequest. split; [reflexivity | exact Hwrite].
  - lazy in Hrun. discriminate Hrun.
Defined.

(** X14 in memory, with a factory that rejects. *)
Lemma X14_witness :
  createOrUpdateVote Fixture.factoryDown
    (VoteMessage.mk MP_VOTE "proposal-1" 1 "pAlice") Sample.itemVote 25.5%float
    (SmsgMessage.mk "msg-1" "pAlice" 2%float 1700000000000) Fixture.world
  = (Rejected (ServiceFailure "the factory failed"), Fixture.world).
Proof.
  apply (X14_upsert_writes_nothing_when_the_factory_rejects Fixture.factoryDown).
  reflexivity.
Defined.

(** X15 in memory, with a vote service whose writes resolve without a
    row. *)
Lemma X15_witness :
  createOrUpdateVote Fixture.emptyWrites
    (VoteMessage.mk MP_VOTE "proposal-1" 1 "pAlice") Sample.itemVote 25.5%float
    (SmsgMessage.mk "msg-1" "pAlice" 2%float 1700000000000) Fixture.world
  = (Rejected (MessageException "Vote wasn't saved or updated properly. Return val is empty."),
     Fixture.world).
Proof.
  apply (X15_upsert_rejects_an_empty_write Fixture.emptyWrites
           (VoteMessage.mk MP_VOTE "proposal-1" 1 "pAlice") Sample.itemVote 25.5%float
           (SmsgMessage.mk "msg-1" "pAlice" 2%float 1700000000000)
           (InMemory.requestOf (VoteMessage.mk MP_VOTE "proposal-1" 1 "pAlice")
              Sample.itemVote 25.5%float
              (SmsgMessage.mk "msg-1" "pAlice" 2%float 1700000000000))).
  - reflexivity.
  - reflexivity.
Defined.

(** ** More of the listing removal and of the composer *)

Section DestroyAndSend.
Context {W : Type}.
Variable process_env : ProcessEnv.t.
Variable svc : Collaborators W.

(** X16. [destroy] of a listing that the repository does not find, or
    fails to look up, rejects and destroys nothing: neither the listing nor
    a cryptocurrency address. A listing that does not exist is reported
    with the [NotFoundException(id)] of [findOne]. *)
Theorem X16_destroy_of_a_missing_listing_changes_nothing (id : Z) (w : W) :
  (forall listingItem, listingItemRepo_findOne svc id true w <> Resolved (Some listingItem)) ->
  (exists reason, ListingItemService_destroy svc id w = (Rejected reason, w))
  /\ (listingItemRepo_findOne svc id true w = Resolved None ->
      ListingItemService_destroy svc id w = (Rejected (NotFoundException id), w)).
Proof.
  intros Hmissing.
  unfold ListingItemService_destroy, ListingItemService_findOne, await, ask, throw, resolve.
  destruct (listingItemRepo_findOne svc id true w) as [[listingItem | ] | reason].
  - exfalso. apply (Hmissing listingItem). reflexivity.
  - split; [eexists; reflexivity | reflexivity].
  - split; [eexists; reflexivity | discriminate].
Qed.

(** X17. When the factory rejects the vote message, [send] rejects with
    the factory's reason and hands nothing to the transport. *)
Theorem X17_send_sends_nothing_when_the_factory_rejects
    (proposal : Proposal.t) (proposalOption : ProposalOption.t)
    (senderProfile : Profile.t) (marketplace : Market.t) (reason : Exception) (w : W) :
  voteFactory_getMessage svc MP_VOTE proposal proposalOption (Profile.address senderProfile) w
  = Rejected reason ->
  send process_env svc proposal proposalOption senderProfile marketplace w
  = (Rejected reason, w).
Proof.
  intros Hfactory. unfold send, await, ask. rewrite Hfactory. reflexivity.
Qed.

(** X18. [send] does not refuse a proposal that has expired. When the
    expiry and the clock are whole milliseconds, both after the epoch and
    below 2^53, the expiry not after the clock and less than 2^50
    milliseconds before it, [send] hands the message to the transport with
    a retention of zero days or less: minus the number of full days since
    the expiry. *)
Theorem X18_send_gives_an_expired_proposal_no_retention
    (proposal : Proposal.t) (proposalOption : ProposalOption.t)
    (senderProfile : Profile.t) (marketplace : Market.t) (voteMessage : VoteMessage.t) (w : W)
    (expiredAt now : Z) :
  voteFactory_getMessage svc MP_VOTE proposal proposalOption (Profile.address senderProfile) w
  = Resolved voteMessage ->
  asWhole (Proposal.expiredAt proposal) = Some expiredAt ->
  asWhole (Date_getTime svc w) = Some now ->
  0 < expiredAt <= now -> now < 2 ^ 53 -> now - expiredAt < 2 ^ 50 ->
  exists (retention : number) (days : Z),
    send process_env svc proposal proposalOption senderProfile marketplace w
    = smsgService_smsgSend svc (Profile.address senderProfile) (Market.address marketplace)
        (MarketplaceMessage.mk (ProcessEnv.MARKETPLACE_VERSION process_env) (Some voteMessage))
        false retention w
    /\ asWhole retention = Some days
    /\ days <= 0
    /\ days = - ((now - expiredAt) / 86400000).
Proof.
  intros Hmessage HexpiredAt Hnow Hexpired Hrange Hnear.
  exists (daysRetention (Proposal.expiredAt proposal) (Date_getTime svc w)),
         (- ((now - expiredAt) / 86400000)).
  split; [apply (send_unfolded process_env svc); exact Hmessage | ].
  split; [ | split; [ | reflexivity]].
  - apply daysRetention_whole; try assumption; lia.
  - assert (0 <= (now - expiredAt) / 86400000) by (apply Z.div_pos; lia). lia.
Qed.

End DestroyAndSend.

(** X16 in memory: there is no listing 99. *)
Lemma X16_witness :
  (exists reason,
      ListingItemService_destroy InMemory.collaborators 99 Fixture.world
      = (Rejected reason, Fixture.world))
  /\ (InMemory.repoFindOne 99 true Fixture.world = Resolved None ->
      ListingItemService_destroy InMemory.collaborators 99 Fixture.world
      = (Rejected (NotFoundException 99), Fixture.world)).
Proof.
  apply (X16_destroy_of_a_missing_listing_changes_nothing InMemory.collaborators 99
           Fixture.world).
  intros listingItem. discriminate.
Defined.

(** X17 in memory, with a factory that rejects. *)
Lemma X17_witness :
  send Sample.env Fixture.factoryDown Sample.itemVote Sample.remove
    Sample.localProfile Sample.market Fixture.world
  = (Rejected (ServiceFailure "the factory failed"), Fixture.world).
Proof.
  apply (X17_send_sends_nothing_when_the_factory_rejects Sample.env Fixture.factoryDown).
  reflexivity.
Defined.

(** X18 in memory: two days and a millisecond after the expiry the message
    goes out with a retention of minus two days. *)
Lemma X18_witness :
  exists (retention : number) (days : Z),
    send Sample.env InMemory.collaborators Fixture.expiredVote Sample.remove
      Sample.localProfile Sample.market Fixture.world
    = InMemory.smsgSend "pLocal" "pMarket"
        (MarketplaceMessage.mk (Some "0.1.0.0")
           (Some (VoteMessage.mk MP_VOTE "proposal-7" 1 "pLocal")))
        false retention Fixture.world
    /\ asWhole retention = Some days
    /\ days <= 0
    /\ days = -2.
Proof.
  destruct (X18_send_gives_an_expired_proposal_no_retention Sample.env InMemory.collaborators
              Fixture.expiredVote Sample.remove Sample.localProfile Sample.market
              (VoteMessage.mk MP_VOTE "proposal-7" 1 "pLocal") Fixture.world
              1699827199999 1700000000000)
    as [retention [days [Hsend [Hwhole [Hdays Hvalue]]]]].
  - reflexivity.
  - vm_compute. reflexivity.
  - vm_compute. reflexivity.
  - lia.
  - reflexivity.
  - reflexivity.
  - exists retention, days. split; [exact Hsend | ]. split; [exact Hwhole | ].
    split; [exact Hdays | ]. rewrite Hvalue. reflexivity.
Defined.

(** ** A remove option without weight *)

Section WeightEdges.
Variable ToNumber : string -> number.
Variable process_env : ProcessEnv.t.

(** Zero divided by anything is zero or not a number, never more than a
    half. *)
Lemma zero_quotient_is_no_majority (removeWeight total : number) :
  strictEquals removeWeight 0%float = true ->
  gt (removeWeight / total)%float 0.5%float = false.
Proof.
  unfold strictEquals, gt. rewrite eqb_spec, ltb_spec, div_spec.
  change (Prim2SF 0%float) with (S754_zero false).
  change (Prim2SF 0.5%float) with SFhalf.
  destruct (Prim2SF removeWeight) as [s | s | | s m e]; intros Hzero.
  - destruct (Prim2SF total) as [s' | s' | | s' m' e']; reflexivity.
  - destruct s; discriminate Hzero.
  - discriminate Hzero.
  - destruct s; discriminate Hzero.
Qed.

(** X19. When the option result of option 1 carries a weight of zero,
    [shouldRemoveListingItem] answers false, whatever the weight of option
    0, the numbers of voters and the quorum floor. *)
Theorem X19_remove_option_without_weight_never_removes (proposalResult : ProposalResult.t) :
  (forall removeOptionResult : ProposalOptionResult.t,
      find (hasOptionId 1) (ProposalResult.ProposalOptionResults proposalResult)
      = Some removeOptionResult ->
      strictEquals (ProposalOptionResult.weight removeOptionResult) 0%float = true) ->
  shouldRemoveListingItem ToNumber process_env proposalResult = false.
Proof.
  unfold shouldRemoveListingItem, hasOptionId. intros Hzero.
  destruct (find (fun r => _ =? 1) _) as [removeOptionResult | ]; [ | reflexivity].
  destruct (find (fun r => _ =? 0) _) as [okOptionResult | ]; [ | reflexivity].
  rewrite (zero_quotient_is_no_majority _ _ (Hzero removeOptionResult eq_refl)).
  rewrite andb_false_r. reflexivity.
Qed.

End WeightEdges.

(** X19 at a snapshot with ten thousand voters, the weight all on keeping
    the listing. *)
Lemma X19_witness :
  shouldRemoveListingItem Sample.ToNumber Fixture.envQuorum0
    (Sample.snapshot 5000 30 5000 0) = false.
Proof.
  apply (X19_remove_option_without_weight_never_removes Sample.ToNumber Fixture.envQuorum0
           (Sample.snapshot 5000 30 5000 0)).
  intros removeOptionResult Hfound. cbn in Hfound.
  injection Hfound as <-. reflexivity.
Defined.

(** ** ListingItemService: the look-up by hash and the maintenance methods *)

Section MaxBy.
Context {A : Type}.
Variable iteratee : A -> Z.

Lemma maxBy_from (array : list A) (computed : A) :
  exists best : A,
    fold_left
      (fun result value =>
         match result with
         | None => Some value
         | Some computed =>
             if iteratee value >? iteratee computed then Some value else result
         end)
      array (Some computed) = Some best
    /\ (best = computed \/ In best array)
    /\ iteratee computed <= iteratee best
    /\ (forall x, In x array -> iteratee x <= iteratee best).
Proof.
  revert computed. induction array as [ | value rest IH]; intros computed.
  - exists computed. cbn. repeat split; [left; reflexivity | lia | intros x []].
  - cbn [fold_left]. destruct (iteratee value >? iteratee computed) eqn:Hgt.
    + apply Z.gtb_lt in Hgt.
      destruct (IH value) as [best [Hfold [Hin [Hle Hall]]]].
      exists best. split; [exact Hfold | ]. split; [ | split].
      * right. destruct Hin as [-> | Hin]; [left; reflexivity | right; exact Hin].
      * lia.
      * intros x [<- | Hx]; [exact Hle | exact (Hall x Hx)].
    + assert (iteratee value <= iteratee computed)
        by (destruct (Z.gtb_spec (iteratee value) (iteratee computed)); [discriminate | lia]).
      destruct (IH computed) as [best [Hfold [Hin [Hle Hall]]]].
      exists best. split; [exact Hfold | ]. split; [ | split].
      * destruct Hin as [-> | Hin]; [left; reflexivity | right; right; exact Hin].
      * exact Hle.
      * intros x [<- | Hx]; [lia | exact (Hall x Hx)].
Qed.

(** [_.maxBy] answers with an element of the array whose key no other
    element exceeds, and with nothing only for the empty array. *)
Lemma maxBy_greatest (array : list A) :
  match maxBy iteratee array with
  | None => array = []
  | Some best => In best array /\ forall x, In x array -> iteratee x <= iteratee best
  end.
Proof.
  unfold maxBy. destruct array as [ | value rest]; [reflexivity | ].
  cbn [fold_left]. destruct (maxBy_from rest value) as [best [Hfold [Hin [Hle Hall]]]].
  rewrite Hfold. split.
  - destruct Hin as [-> | Hin]; [left; reflexivity | right; exact Hin].
  - intros x [<- | Hx]; [exact Hle | exact (Hall x Hx)].
Qed.

End MaxBy.

Section MaintenanceFacts.
Context {W : Type}.
Variable ToNumber : string -> number.
Variable svc : Collaborators W.
Variable repo : Maintenance W.

(** X20. [findHighestOrderNumber] always resolves, without touching the
    state: to 0 for an empty list, and otherwise to the order of one of the
    objects, which no object of the list exceeds. The highest order of a
    list that is not empty can be negative. *)
Theorem X20_findHighestOrderNumber_is_the_greatest_order
    (listingItemObjects : list ListingItemObject.t) (w : W) :
  exists highest : Z,
    findHighestOrderNumber listingItemObjects w = (Resolved highest, w)
    /\ (listingItemObjects = [] -> highest = 0)
    /\ (listingItemObjects <> [] ->
        exists object, In object listingItemObjects
                       /\ ListingItemObject.order object = highest)
    /\ (forall object, In object listingItemObjects ->
                       ListingItemObject.order object <= highest).
Proof.
  unfold findHighestOrderNumber.
  pose proof (maxBy_greatest ListingItemObject.order listingItemObjects) as Hmax.
  destruct (maxBy ListingItemObject.order listingItemObjects) as [highestOrder | ].
  - destruct Hmax as [Hin Hall].
    exists (ListingItemObject.order highestOrder). split; [reflexivity | ].
    split; [intros ->; destruct Hin | ].
    split; [intros _; exists highestOrder; split; [exact Hin | reflexivity] | exact Hall].
  - exists 0. split; [reflexivity | ]. split; [reflexivity | ].
    split; [intros Hne; congruence | ].
    rewrite Hmax. intros object [].
Qed.

(** X21. [setRemovedFlag] for a hash that the repository does not know
    rejects with NotFoundException for that hash and updates nothing. *)
Theorem X21_setRemovedFlag_of_an_unknown_hash_writes_nothing
    (itemHash : string) (flag : bool) (w : W) :
  listingItemRepo_findOneByHash repo itemHash true w = Resolved None ->
  setRemovedFlag repo itemHash flag w = (Rejected (NotFoundException itemHash), w).
Proof.
  intros Hunknown.
  unfold setRemovedFlag, ListingItemService_findOneByHash, await, ask.
  rewrite Hunknown. reflexivity.
Qed.

(** X22. When [setRemovedFlag] resolves, the repository knows a listing
    with that hash, and the state that is left is the state after one
    update of that listing's id with the flag; the listing was looked up
    with its relations. *)
Theorem X22_setRemovedFlag_resolves_after_one_update
    (itemHash : string) (flag : bool) (w w' : W) :
  setRemovedFlag repo itemHash flag w = (Resolved tt, w') ->
  exists (listingItem updated : ListingItem.t),
    listingItemRepo_findOneByHash repo itemHash true w = Resolved (Some listingItem)
    /\ listingItemRepo_update repo (ListingItem.id listingItem) (RemovedFlag flag) w
       = (Resolved updated, w').
Proof.
  unfold setRemovedFlag, ListingItemService_findOneByHash, await, ask, throw, resolve.
  destruct (listingItemRepo_findOneByHash repo itemHash true w)
    as [[listingItem | ] | reason]; try discriminate.
  destruct (listingItemRepo_update repo (ListingItem.id listingItem) (RemovedFlag flag) w)
    as [[updated | reason] w1] eqn:Hupdate; try discriminate.
  intros Hdone. injection Hdone as <-.
  exists listingItem, updated. split; [reflexivity | exact Hupdate].
Qed.

(** X23. [updateListingItemTemplateRelation] updates nothing when no
    template matches the listing's hash, or when the matching template has
    the id 0: it then answers as [findOne] with relations does. *)
Theorem X23_no_template_relation_without_a_template
    (id : Z) (listingItem : ListingItem.t) (w : W) :
  listingItemRepo_findOne svc id false w = Resolved (Some listingItem) ->
  (forall template : ListingItemTemplate.t,
      listingItemTemplateService_findOneByHash repo (ListingItem.hash listingItem) w
      = Resolved template ->
      ListingItemTemplate.id template = 0) ->
  updateListingItemTemplateRelation svc repo id w = ListingItemService_findOne svc id true w.
Proof.
  intros Hfound Hnone.
  unfold updateListingItemTemplateRelation.
  unfold ListingItemService_findOne at 1.
  unfold await at 1 2. unfold ask at 1. rewrite Hfound. unfold resolve at 1.
  unfold await at 1. unfold catch, await, ask.
  destruct (listingItemTemplateService_findOneByHash repo (ListingItem.hash listingItem) w)
    as [template | reason].
  - unfold resolve at 1. rewrite (Hnone template eq_refl). reflexivity.
  - reflexivity.
Qed.

Lemma deleteEach_destroys_nothing (listingItems : list ExpiredListingItem.t) (w : W) :
  strictEquals (ToNumber (Date repo w)) (ToNumber (Date repo w)) = false ->
  deleteEach ToNumber svc repo listingItems w = (Resolved tt, w).
Proof.
  intros Hnan. induction listingItems as [ | listingItem rest IH]; [reflexivity | ].
  cbn [deleteEach]. unfold await.
  destruct (not_a_number _ Hnan (ExpiredListingItem.expiredAt listingItem))
    as [_ [_ [Hge _]]].
  rewrite Hge. unfold resolve at 1. exact IH.
Qed.

(** X24. [deleteExpiredListingItems] compares [expiredAt] with the text
    that [Date()] answers. When that text does not convert to a number, as
    the text of a date does not, the comparison is false for every listing:
    the method destroys nothing and resolves whenever [findExpired]
    does. *)
Theorem X24_deleteExpiredListingItems_destroys_nothing (w : W) :
  strictEquals (ToNumber (Date repo w)) (ToNumber (Date repo w)) = false ->
  deleteExpiredListingItems ToNumber svc repo w
  = (match listingItemRepo_findExpired repo w with
     | Resolved _ => Resolved tt
     | Rejected reason => Rejected reason
     end, w).
Proof.
  intros Hnan.
  unfold deleteExpiredListingItems, ListingItemService_findExpired, await, ask.
  destruct (listingItemRepo_findExpired repo w) as [listingItems | reason]; [ | reflexivity].
  apply deleteEach_destroys_nothing. exact Hnan.
Qed.

End MaintenanceFacts.

(** X21 in memory: no listing has the hash listing-99. *)
Lemma X21_witness :
  setRemovedFlag Fixture.maintenance "listing-99" true Fixture.maintained
  = (Rejected (NotFoundException "listing-99"), Fixture.maintained).
Proof.
  apply (X21_setRemovedFlag_of_an_unknown_hash_writes_nothing Fixture.maintenance).
  reflexivity.
Defined.

(** X22 in memory: flagging listing-7 logs one update of listing 7. *)
Lemma X22_witness :
  exists (listingItem updated : ListingItem.t),
    listingItemRepo_findOneByHash Fixture.maintenance "listing-7" true Fixture.maintained
    = Resolved (Some listingItem)
    /\ listingItemRepo_update Fixture.maintenance (ListingItem.id listingItem)
         (RemovedFlag true) Fixture.maintained
       = (Resolved updated, (Fixture.world, [(7, RemovedFlag true)])).
Proof.
  apply (X22_setRemovedFlag_resolves_after_one_update Fixture.maintenance "listing-7" true
           Fixture.maintained (Fixture.world, [(7, RemovedFlag true)])).
  reflexivity.
Defined.

(** X23 in memory: the template of listing 0 has the id 0. *)
Lemma X23_witness :
  updateListingItemTemplateRelation Fixture.maintainedCollaborators Fixture.maintenance 0
    Fixture.maintained
  = ListingItemService_findOne Fixture.maintainedCollaborators 0 true Fixture.maintained.
Proof.
  apply (X23_no_template_relation_without_a_template Fixture.maintainedCollaborators
           Fixture.maintenance 0 Fixture.listing0 Fixture.maintained).
  - reflexivity.
  - intros template Hfound. cbn in Hfound. injection Hfound as <-. reflexivity.
Defined.

(** X24 in memory: both listings expired in 2020 and both are kept. *)
Lemma X24_witness :
  deleteExpiredListingItems Sample.ToNumber Fixture.maintainedCollaborators
    Fixture.maintenance Fixture.maintained
  = (match listingItemRepo_findExpired Fixture.maintenance Fixture.maintained with
     | Resolved _ => Resolved tt
     | Rejected reason => Rejected reason
     end, Fixture.maintained).
Proof.
  apply (X24_deleteExpiredListingItems_destroys_nothing Sample.ToNumber
           Fixture.maintainedCollaborators Fixture.maintenance Fixture.maintained).
  reflexivity.
Defined.

Example a_template_with_an_id_is_related :
  snd (updateListingItemTemplateRelation Fixture.maintainedCollaborators Fixture.maintenance 7
         Fixture.maintained)
  = (Fixture.world, [(7, ListingItemJSON Sample.listing 12)]).
Proof. reflexivity. Qed.

Example a_date_that_converts_to_a_number_destroys :
  InMemory.listingItems
    (fst (snd (deleteExpiredListingItems Sample.ToNumber Fixture.maintainedCollaborators
                 (Fixture.maintenanceAt "1700000000000") Fixture.maintained)))
  = [].
Proof. reflexivity. Qed.

Example highest_order_numbers :
  fst (findHighestOrderNumber
         [ListingItemObject.mk "CHECKBOX" 2; ListingItemObject.mk "TABLE" 5;
          ListingItemObject.mk "DROPDOWN" 5] Fixture.maintained) = Resolved 5
  /\ fst (findHighestOrderNumber [ListingItemObject.mk "CHECKBOX" (-3)] Fixture.maintained)
     = Resolved (-3)
  /\ fst (findHighestOrderNumber [] Fixture.maintained) = Resolved 0.
Proof. repeat split. Qed.
